(** * Dialogue engine of the voice agent: check, resolve, clarify, dispatch

    A shallow embedding of the agent graph under [src/agent]: the state
    dictionary of [state.py], the nodes of [nodes/*.py], the skill registry
    of [services/skills] and the routers and edges of [graph.py].

    Conventions.
    - [AgentState] is a [TypedDict] with [total=False]: a key may be absent.
      Every field is therefore an [option]; [None] is "key absent" and the
      source's [state.get(k, d)] is [default d (k s)].  A field whose Python
      type is [Optional[...]] has two layers: [Some None] is Python's [None].
    - A node is modelled as the dictionary it returns. The walks of the
      graph sequence the nodes along the edges declared in
      [create_agent_graph] and pass every returned dictionary through the
      state channels, where the reducer [operator.add] declared for
      [messages] adds the returned list to the held one ([reduce]).
    - The state is the [TypedDict] as declared: [entities] and
      [resolved_entities] are dictionaries, an intent's name is a string.
    - A node that can raise returns a [result].
    - The collaborators behind the engine (contact lookup, skill registry,
      the chat-completion calls, process launch) are fields of [Env]. *)

From stdpp Require Import gmap strings list fin_maps.
From Stdlib Require Import ZArith QArith.

Set Warnings "-register-all".
Open Scope string_scope.
Open Scope list_scope.
Open Scope Z_scope.

(** ** Python values *)

(** The values a JSON document or a skill can put in a dictionary. *)
Inductive value : Type :=
  | VNone
  | VBool (b : bool)
  | VInt (z : Z)
  | VFloat (q : Q)
  | VStr (s : string)
  | VList (l : list value)
  | VDict (d : gmap string value).

(** Python truthiness, [bool(v)]. *)
Definition truthy (v : value) : bool :=
  match v with
  | VNone => false
  | VBool b => b
  | VInt z => negb (z =? 0)
  | VFloat q => negb (Qnum q =? 0)
  | VStr s => negb (String.eqb s "")
  | VList l => match l with [] => false | _ => true end
  | VDict d => negb (bool_decide (d = ∅))
  end.

(** [isinstance(v, str)] *)
Definition is_str (v : value) : bool :=
  match v with VStr _ => true | _ => false end.

(** Truthiness of [d.get(k)], which is [None] when the key is absent. *)
Definition truthy_get (o : option value) : bool :=
  match o with Some v => truthy v | None => false end.

(** Truthiness of a Python string. *)
Definition nonempty (s : string) : bool := negb (String.eqb s "").

(** ** Exceptions *)

Inductive pyexn : Type :=
  | AttributeError
  | TypeError.

Inductive result (A : Type) : Type :=
  | Ok (a : A)
  | Raise (e : pyexn).
Arguments Ok {A} a.
Arguments Raise {A} e.

#[global] Instance result_ret : MRet result := λ A a, @Ok A a.
#[global] Instance result_bind : MBind result := λ A B k r,
  match r with
  | Ok a => k a
  | Raise e => Raise e
  end.

(** ** The state records of [state.py] *)

Inductive Role : Type := user | assistant | system.

Module Message.
Record t : Type := mk { role : Role; content : string }.
End Message.

Module IntentData.
(** [total=False]: every key may be missing from the classifier's answer.
    [error] is the extra key [detect_intent] stores when the call fails.
    The values are typed as the [TypedDict] declares them: [intent] a
    string, [entities] a dictionary, [missing] a list of strings. *)
Record t : Type := mk {
  intent : option string;
  confidence : option Q;
  entities : option (gmap string value);
  missing : option (list string);
  reasoning : option string;
  error : option string
}.
End IntentData.

Inductive TaskStatus : Type :=
  | IDLE
  | INTENT_DETECTED
  | NEEDS_CLARIFICATION
  | WAITING_USER_INPUT
  | READY_TO_EXECUTE
  | EXECUTING
  | COMPLETED
  | FAILED
  | CANCELLED.

#[global] Instance TaskStatus_eq_dec : EqDecision TaskStatus.
Proof. solve_decision. Defined.

(** A contact record, as a dictionary. *)
Abbreviation contact := (gmap string value).

Module DisambiguationOption.
(** The dictionaries [resolve_entities] appends to
    [disambiguation_options]. *)
Record t : Type := mk {
  entity : string;
  query : value;
  matches : list contact;
  message : string
}.
End DisambiguationOption.

Module ActionResult.
(** The dictionary a skill returns, [{success, message?, data?}], and the
    failure records of [execute_action], which carry [error]. *)
Record t : Type := mk {
  success : option bool;
  message : option string;
  error : option string;
  data : option (gmap string value)
}.

(** Truthiness of the dictionary: it has at least one key. *)
Definition nonempty (r : t) : bool :=
  bool_decide (is_Some (success r)) || bool_decide (is_Some (message r))
  || bool_decide (is_Some (error r)) || bool_decide (is_Some (data r)).
End ActionResult.

Record AgentState : Type := mkAgentState {
  user_id : option string;
  session_id : option string;
  device_id : option string;
  messages : option (list Message.t);
  current_input : option string;
  input_language : option string;
  current_intent : option (option IntentData.t);
  task_status : option TaskStatus;
  entities : option (gmap string value);
  missing_entities : option (list string);
  unresolved_entities : option (list string);
  resolved_entities : option (gmap string value);
  needs_user_disambiguation : option bool;
  disambiguation_options : option (list DisambiguationOption.t);
  clarification_count : option Z;
  last_clarification : option string;
  max_clarifications : option Z;
  action_result : option (option ActionResult.t);
  action_error : option (option string);
  response_text : option string;
  should_speak : option bool;
  turn_count : option Z;
  processing_start_time : option Q
}.

Definition set_messages (v : list Message.t) (s : AgentState) : AgentState :=
  mkAgentState (user_id s) (session_id s) (device_id s) (Some v)
    (current_input s) (input_language s) (current_intent s) (task_status s)
    (entities s) (missing_entities s) (unresolved_entities s)
    (resolved_entities s) (needs_user_disambiguation s)
    (disambiguation_options s) (clarification_count s) (last_clarification s)
    (max_clarifications s) (action_result s) (action_error s)
    (response_text s) (should_speak s) (turn_count s)
    (processing_start_time s).

Definition set_current_input (v : string) (s : AgentState) : AgentState :=
  mkAgentState (user_id s) (session_id s) (device_id s) (messages s) (Some v)
    (input_language s) (current_intent s) (task_status s) (entities s)
    (missing_entities s) (unresolved_entities s) (resolved_entities s)
    (needs_user_disambiguation s) (disambiguation_options s)
    (clarification_count s) (last_clarification s) (max_clarifications s)
    (action_result s) (action_error s) (response_text s) (should_speak s)
    (turn_count s) (processing_start_time s).

Definition set_input_language (v : string) (s : AgentState) : AgentState :=
  mkAgentState (user_id s) (session_id s) (device_id s) (messages s)
    (current_input s) (Some v) (current_intent s) (task_status s) (entities s)
    (missing_entities s) (unresolved_entities s) (resolved_entities s)
    (needs_user_disambiguation s) (disambiguation_options s)
    (clarification_count s) (last_clarification s) (max_clarifications s)
    (action_result s) (action_error s) (response_text s) (should_speak s)
    (turn_count s) (processing_start_time s).

Definition set_current_intent (v : option IntentData.t) (s : AgentState) : AgentState :=
  mkAgentState (user_id s) (session_id s) (device_id s) (messages s)
    (current_input s) (input_language s) (Some v) (task_status s) (entities s)
    (missing_entities s) (unresolved_entities s) (resolved_entities s)
    (needs_user_disambiguation s) (disambiguation_options s)
    (clarification_count s) (last_clarification s) (max_clarifications s)
    (action_result s) (action_error s) (response_text s) (should_speak s)
    (turn_count s) (processing_start_time s).

Definition set_task_status (v : TaskStatus) (s : AgentState) : AgentState :=
  mkAgentState (user_id s) (session_id s) (device_id s) (messages s)
    (current_input s) (input_language s) (current_intent s) (Some v)
    (entities s) (missing_entities s) (unresolved_entities s)
    (resolved_entities s) (needs_user_disambiguation s)
    (disambiguation_options s) (clarification_count s) (last_clarification s)
    (max_clarifications s) (action_result s) (action_error s)
    (response_text s) (should_speak s) (turn_count s)
    (processing_start_time s).

Definition set_entities (v : gmap string value) (s : AgentState) : AgentState :=
  mkAgentState (user_id s) (session_id s) (device_id s) (messages s)
    (current_input s) (input_language s) (current_intent s) (task_status s)
    (Some v) (missing_entities s) (unresolved_entities s)
    (resolved_entities s) (needs_user_disambiguation s)
    (disambiguation_options s) (clarification_count s) (last_clarification s)
    (max_clarifications s) (action_result s) (action_error s)
    (response_text s) (should_speak s) (turn_count s)
    (processing_start_time s).

Definition set_missing_entities (v : list string) (s : AgentState) : AgentState :=
  mkAgentState (user_id s) (session_id s) (device_id s) (messages s)
    (current_input s) (input_language s) (current_intent s) (task_status s)
    (entities s) (Some v) (unresolved_entities s) (resolved_entities s)
    (needs_user_disambiguation s) (disambiguation_options s)
    (clarification_count s) (last_clarification s) (max_clarifications s)
    (action_result s) (action_error s) (response_text s) (should_speak s)
    (turn_count s) (processing_start_time s).

Definition set_unresolved_entities (v : list string) (s : AgentState) : AgentState :=
  mkAgentState (user_id s) (session_id s) (device_id s) (messages s)
    (current_input s) (input_language s) (current_intent s) (task_status s)
    (entities s) (missing_entities s) (Some v) (resolved_entities s)
    (needs_user_disambiguation s) (disambiguation_options s)
    (clarification_count s) (last_clarification s) (max_clarifications s)
    (action_result s) (action_error s) (response_text s) (should_speak s)
    (turn_count s) (processing_start_time s).

Definition set_resolved_entities (v : gmap string value) (s : AgentState) : AgentState :=
  mkAgentState (user_id s) (session_id s) (device_id s) (messages s)
    (current_input s) (input_language s) (current_intent s) (task_status s)
    (entities s) (missing_entities s) (unresolved_entities s) (Some v)
    (needs_user_disambiguation s) (disambiguation_options s)
    (clarification_count s) (last_clarification s) (max_clarifications s)
    (action_result s) (action_error s) (response_text s) (should_speak s)
    (turn_count s) (processing_start_time s).

Definition set_needs_user_disambiguation (v : bool) (s : AgentState) : AgentState :=
  mkAgentState (user_id s) (session_id s) (device_id s) (messages s)
    (current_input s) (input_language s) (current_intent s) (task_status s)
    (entities s) (missing_entities s) (unresolved_entities s)
    (resolved_entities s) (Some v) (disambiguation_options s)
    (clarification_count s) (last_clarification s) (max_clarifications s)
    (action_result s) (action_error s) (response_text s) (should_speak s)
    (turn_count s) (processing_start_time s).

Definition set_disambiguation_options (v : list DisambiguationOption.t) (s : AgentState) : AgentState :=
  mkAgentState (user_id s) (session_id s) (device_id s) (messages s)
    (current_input s) (input_language s) (current_intent s) (task_status s)
    (entities s) (missing_entities s) (unresolved_entities s)
    (resolved_entities s) (needs_user_disambiguation s) (Some v)
    (clarification_count s) (last_clarification s) (max_clarifications s)
    (action_result s) (action_error s) (response_text s) (should_speak s)
    (turn_count s) (processing_start_time s).

Definition set_clarification_count (v : Z) (s : AgentState) : AgentState :=
  mkAgentState (user_id s) (session_id s) (device_id s) (messages s)
    (current_input s) (input_language s) (current_intent s) (task_status s)
    (entities s) (missing_entities s) (unresolved_entities s)
    (resolved_entities s) (needs_user_disambiguation s)
    (disambiguation_options s) (Some v) (last_clarification s)
    (max_clarifications s) (action_result s) (action_error s)
    (response_text s) (should_speak s) (turn_count s)
    (processing_start_time s).

Definition set_last_clarification (v : string) (s : AgentState) : AgentState :=
  mkAgentState (user_id s) (session_id s) (device_id s) (messages s)
    (current_input s) (input_language s) (current_intent s) (task_status s)
    (entities s) (missing_entities s) (unresolved_entities s)
    (resolved_entities s) (needs_user_disambiguation s)
    (disambiguation_options s) (clarification_count s) (Some v)
    (max_clarifications s) (action_result s) (action_error s)
    (response_text s) (should_speak s) (turn_count s)
    (processing_start_time s).

Definition set_action_result (v : option ActionResult.t) (s : AgentState) : AgentState :=
  mkAgentState (user_id s) (session_id s) (device_id s) (messages s)
    (current_input s) (input_language s) (current_intent s) (task_status s)
    (entities s) (missing_entities s) (unresolved_entities s)
    (resolved_entities s) (needs_user_disambiguation s)
    (disambiguation_options s) (clarification_count s) (last_clarification s)
    (max_clarifications s) (Some v) (action_error s) (response_text s)
    (should_speak s) (turn_count s) (processing_start_time s).

Definition set_action_error (v : option string) (s : AgentState) : AgentState :=
  mkAgentState (user_id s) (session_id s) (device_id s) (messages s)
    (current_input s) (input_language s) (current_intent s) (task_status s)
    (entities s) (missing_entities s) (unresolved_entities s)
    (resolved_entities s) (needs_user_disambiguation s)
    (disambiguation_options s) (clarification_count s) (last_clarification s)
    (max_clarifications s) (action_result s) (Some v) (response_text s)
    (should_speak s) (turn_count s) (processing_start_time s).

Definition set_response_text (v : string) (s : AgentState) : AgentState :=
  mkAgentState (user_id s) (session_id s) (device_id s) (messages s)
    (current_input s) (input_language s) (current_intent s) (task_status s)
    (entities s) (missing_entities s) (unresolved_entities s)
    (resolved_entities s) (needs_user_disambiguation s)
    (disambiguation_options s) (clarification_count s) (last_clarification s)
    (max_clarifications s) (action_result s) (action_error s) (Some v)
    (should_speak s) (turn_count s) (processing_start_time s).

Definition set_should_speak (v : bool) (s : AgentState) : AgentState :=
  mkAgentState (user_id s) (session_id s) (device_id s) (messages s)
    (current_input s) (input_language s) (current_intent s) (task_status s)
    (entities s) (missing_entities s) (unresolved_entities s)
    (resolved_entities s) (needs_user_disambiguation s)
    (disambiguation_options s) (clarification_count s) (last_clarification s)
    (max_clarifications s) (action_result s) (action_error s)
    (response_text s) (Some v) (turn_count s) (processing_start_time s).

Definition set_turn_count (v : Z) (s : AgentState) : AgentState :=
  mkAgentState (user_id s) (session_id s) (device_id s) (messages s)
    (current_input s) (input_language s) (current_intent s) (task_status s)
    (entities s) (missing_entities s) (unresolved_entities s)
    (resolved_entities s) (needs_user_disambiguation s)
    (disambiguation_options s) (clarification_count s) (last_clarification s)
    (max_clarifications s) (action_result s) (action_error s)
    (response_text s) (should_speak s) (Some v) (processing_start_time s).
(** [state.get(k, d)] for the keys the nodes read with a default. *)
Definition get_messages (s : AgentState) : list Message.t :=
  default [] (messages s).
Definition get_entities (s : AgentState) : gmap string value :=
  default ∅ (entities s).
Definition get_missing_entities (s : AgentState) : list string :=
  default [] (missing_entities s).
Definition get_unresolved_entities (s : AgentState) : list string :=
  default [] (unresolved_entities s).
Definition get_resolved_entities (s : AgentState) : gmap string value :=
  default ∅ (resolved_entities s).
Definition get_disambiguation_options (s : AgentState)
    : list DisambiguationOption.t :=
  default [] (disambiguation_options s).
Definition get_clarification_count (s : AgentState) : Z :=
  default 0 (clarification_count s).
Definition get_max_clarifications (s : AgentState) : Z :=
  default 3 (max_clarifications s).
Definition get_response_text (s : AgentState) : string :=
  default "" (response_text s).

(** The dictionary [state.get("current_intent", {})] as the receiver of a
    [.get]: the key absent gives the empty dictionary; a stored [None] has
    no [get]. *)
Definition no_intent : IntentData.t :=
  {| IntentData.intent := None;
     IntentData.confidence := None;
     IntentData.entities := None;
     IntentData.missing := None;
     IntentData.reasoning := None;
     IntentData.error := None |}.

Definition intent_dict (s : AgentState) : result IntentData.t :=
  match current_intent s with
  | None => Ok no_intent
  | Some None => Raise AttributeError
  | Some (Some d) => Ok d
  end.

(** [state.get("current_intent", {}).get("intent", dflt)] *)
Definition intent_name (dflt : string) (s : AgentState) : result string :=
  d ← intent_dict s;
  Ok (default dflt (IntentData.intent d)).

(** [create_initial_state] *)
Definition create_initial_state (uid sid : string) : AgentState :=
  {| user_id := Some uid;
     session_id := Some sid;
     device_id := None;
     messages := Some [];
     current_input := None;
     input_language := None;
     current_intent := Some None;
     task_status := Some IDLE;
     entities := Some ∅;
     missing_entities := Some [];
     unresolved_entities := Some [];
     resolved_entities := Some ∅;
     needs_user_disambiguation := Some false;
     disambiguation_options := Some [];
     clarification_count := Some 0;
     last_clarification := None;
     max_clarifications := Some 3;
     action_result := Some None;
     action_error := Some None;
     response_text := Some "";
     should_speak := Some true;
     turn_count := Some 0;
     processing_start_time := None |}.

(** ** Collaborators *)

(** What a skill's [execute] does: return a result dictionary or raise. *)
Inductive skill_outcome : Type :=
  | Returned (r : ActionResult.t)
  | Raised (err : string).

(** [BaseSkill] *)
Record Skill : Type := mkSkill {
  name : string;
  description : string;
  required_entities : list string;
  optional_entities : list string;
  execute : option string → gmap string value → skill_outcome
}.

(** What the intent request of [detect_intent] can end in: a JSON object
    that fits [IntentData], text that [json.loads] rejects, or any other
    exception, with its [str(e)].  A parsed value that is not an object has
    no [get] and ends in the last case.  An object that does not fit
    [IntentData] (a null or a number where [entities] or [intent] is
    declared) is stored as it is by the source and makes later nodes raise;
    it is in none of the three cases, and no statement of this file is
    about such an answer. *)
Inductive classification : Type :=
  | Classified (d : IntentData.t)
  | Unparseable
  | ServiceFault (err : string).

Record Env : Type := mkEnv {
  (** [str(v)] of a value that is not a string, as an f-string renders it *)
  py_str : value → string;
  (** [str.lower] and [str.strip] *)
  py_lower : string → string;
  py_strip : string → string;
  (** [lookup_contacts(user_id, query)] *)
  lookup_contacts : option string → value → list contact;
  (** [get_skill(intent)] *)
  get_skill : string → option Skill;
  (** the intent request on (context messages, current input) *)
  classify : list Message.t → string → classification;
  (** the question request of [clarify] on (intent, entities, slot);
      [None] when the call or reading its answer raises *)
  ask_question : string → gmap string value → string → option string;
  (** the chat request of [generate_conversational_response] on
      (conversation, input); [None] when it raises *)
  converse : list Message.t → string → option string;
  (** [subprocess.Popen(cmd, shell=True)]: [Some e] when it raises *)
  popen : string → option string
}.

(** How an f-string renders [{v}]: a string as it is, any other value
    through [str]. *)
Definition fmt (str : value → string) (v : value) : string :=
  match v with
  | VStr s => s
  | _ => str v
  end.

(** ** Skills ([services/skills]) *)

(** [e not in entities or not entities[e]] *)
Definition slot_missing (ents : gmap string value) (e : string) : bool :=
  negb (truthy_get (ents !! e)).

(** [BaseSkill.validate_entities] *)
Definition validate_entities (sk : Skill) (ents : gmap string value)
    : bool * list string :=
  let missing := List.filter (slot_missing ents) (required_entities sk) in
  (bool_decide (length missing = 0%nat), missing).

Section Skills.
Context (str : value → string).

Definition NotesSkill : Skill :=
  {| name := "create_note";
     description := "Create a new note";
     required_entities := ["note_content"];
     optional_entities := ["title"; "tags"];
     execute := λ _ ents,
       let content := default (VStr "") (ents !! "note_content") in
       let title := default (VStr "Nota sin título") (ents !! "title") in
       Returned {|
         ActionResult.success := Some true;
         ActionResult.message := Some ("Guardé tu nota: '" +:+ fmt str title +:+ "'");
         ActionResult.error := None;
         ActionResult.data :=
           Some (<["content" := content]> (<["title" := title]> ∅)) |} |}.

Definition ReminderSkill : Skill :=
  {| name := "set_reminder";
     description := "Create a reminder";
     required_entities := ["reminder_text"; "datetime"];
     optional_entities := ["recurrence"];
     execute := λ _ ents,
       let text := default (VStr "") (ents !! "reminder_text") in
       let when := default (VStr "") (ents !! "datetime") in
       Returned {|
         ActionResult.success := Some true;
         ActionResult.message :=
           Some ("Te voy a recordar '" +:+ fmt str text +:+ "' " +:+ fmt str when);
         ActionResult.error := None;
         ActionResult.data :=
           Some (<["datetime" := when]> (<["text" := text]> ∅)) |} |}.

Definition MessageSkill : Skill :=
  {| name := "send_message";
     description := "Send a message to a contact";
     required_entities := ["recipient"; "message_content"];
     optional_entities := ["platform"];
     execute := λ _ ents,
       let recipient := default (VStr "") (ents !! "recipient") in
       let content := default (VStr "") (ents !! "message_content") in
       let platform := default (VStr "whatsapp") (ents !! "platform") in
       Returned {|
         ActionResult.success := Some true;
         ActionResult.message :=
           Some ("Mensaje enviado a " +:+ fmt str recipient +:+ " por "
                 +:+ fmt str platform);
         ActionResult.error := None;
         ActionResult.data :=
           Some (<["platform" := platform]>
                  (<["content" := content]> (<["recipient" := recipient]> ∅)))
       |} |}.

Definition TimerSkill : Skill :=
  {| name := "set_timer";
     description := "Set a timer";
     required_entities := ["duration"];
     optional_entities := [];
     execute := λ _ ents,
       let duration := default (VStr "") (ents !! "duration") in
       Returned {|
         ActionResult.success := Some true;
         ActionResult.message :=
           Some ("Temporizador de " +:+ fmt str duration +:+ " activado");
         ActionResult.error := None;
         ActionResult.data := Some (<["duration" := duration]> ∅) |} |}.

Definition SearchSkill : Skill :=
  {| name := "search_web";
     description := "Search the internet";
     required_entities := ["query"];
     optional_entities := [];
     execute := λ _ ents,
       let query := default (VStr "") (ents !! "query") in
       Returned {|
         ActionResult.success := Some true;
         ActionResult.message := Some ("Buscando: " +:+ fmt str query);
         ActionResult.error := None;
         ActionResult.data := Some (<["query" := query]> ∅) |} |}.

(** The registry [SKILLS] and [get_skill] as the module defines them. *)
Definition SKILLS : gmap string Skill :=
  list_to_map [
    ("create_note", NotesSkill);
    ("set_reminder", ReminderSkill);
    ("send_message", MessageSkill);
    ("set_timer", TimerSkill);
    ("search_web", SearchSkill) ].

Definition registered_skill (intent : string) : option Skill :=
  SKILLS !! intent.

End Skills.

(** ** Static tables of the nodes *)

Definition REQUIRED_ENTITIES : gmap string (list string) :=
  list_to_map [
    ("send_message", ["recipient"; "message_content"]);
    ("set_reminder", ["reminder_text"; "datetime"]);
    ("create_note", ["note_content"]);
    ("open_app", ["app_name"]);
    ("open_url", ["url"]);
    ("search_web", ["query"]);
    ("set_timer", ["duration"]) ].

Definition OPTIONAL_ENTITIES : gmap string (list string) :=
  list_to_map [
    ("send_message", ["platform"]);
    ("set_reminder", ["recurrence"]);
    ("create_note", ["title"; "tags"]) ].

Definition CLARIFICATION_TEMPLATES : gmap string string :=
  list_to_map [
    ("recipient", "¿A quién le querés enviar el mensaje?");
    ("message_content", "¿Qué querés que diga el mensaje?");
    ("platform", "¿Por qué plataforma? ¿WhatsApp, Telegram, o SMS?");
    ("reminder_text", "¿Qué querés que te recuerde?");
    ("datetime", "¿Cuándo querés que te avise?");
    ("note_content", "¿Qué querés anotar?");
    ("app_name", "¿Qué aplicación querés abrir?");
    ("url", "¿A qué sitio querés ir?");
    ("query", "¿Qué querés buscar?");
    ("duration", "¿De cuánto tiempo el temporizador?") ].

Definition APP_MAP : gmap string (gmap string string) :=
  list_to_map [
    ("whatsapp", {["cmd" := "start whatsapp:"]});
    ("spotify", {["cmd" := "start spotify:"]});
    ("chrome", {["cmd" := "start chrome"]});
    ("browser", {["cmd" := "start http://google.com"]});
    ("calculator", {["cmd" := "calc"]});
    ("notepad", {["cmd" := "notepad"]});
    ("excel", {["cmd" := "start excel"]});
    ("word", {["cmd" := "start winword"]});
    ("calculadora", {["cmd" := "calc"]});
    ("bloc de notas", {["cmd" := "notepad"]});
    ("notas", {["cmd" := "notepad"]});
    ("navegador", {["cmd" := "start http://google.com"]});
    ("explorador", {["cmd" := "explorer"]}) ].

(** [{"role": "assistant", "content": text}] *)
Definition assistant_says (text : string) : Message.t :=
  {| Message.role := assistant; Message.content := text |}.

(** ** Nodes *)

(** *** [nodes/check_entities.py] *)

(** The second loop of [check_entities]: the keys of [entities.items()]
    whose value is a [str] and whose name is ["recipient"]. *)
Definition needs_resolution (kv : string * value) : bool :=
  is_str kv.2 && String.eqb kv.1 "recipient".

Definition check_entities (s : AgentState) : result AgentState :=
  intent ← intent_name "unknown" s;
  let ents := get_entities s in
  let required := default [] (REQUIRED_ENTITIES !! intent) in
  let missing := List.filter (slot_missing ents) required in
  let unresolved := (List.filter needs_resolution (map_to_list ents)).*1 in
  Ok match missing, unresolved with
     | _ :: _, _ =>
         set_task_status NEEDS_CLARIFICATION
           (set_unresolved_entities unresolved
             (set_missing_entities missing s))
     | [], _ :: _ =>
         set_task_status NEEDS_CLARIFICATION
           (set_unresolved_entities unresolved
             (set_missing_entities [] s))
     | [], [] =>
         set_task_status READY_TO_EXECUTE
           (set_unresolved_entities []
             (set_missing_entities [] s))
     end.

(** *** [nodes/resolve_entities.py] *)

(** The placeholder body of [lookup_contacts]. *)
Definition lookup_contacts_stub (uid : option string) (q : value)
    : list contact := [].

(** [c.get('name', '')] as an item of [', '.join(...)], which accepts
    strings only. *)
Definition contact_name (c : contact) : result string :=
  match c !! "name" with
  | None => Ok ""
  | Some (VStr n) => Ok n
  | Some _ => Raise TypeError
  end.

Definition not_found_message (E : Env) (v : value) : string :=
  "No encontré ningún contacto llamado '" +:+ fmt (py_str E) v
  +:+ "'. ¿A quién te referís?".

Definition several_message (names : list string) : string :=
  "Encontré varios contactos: " +:+ String.concat ", " names
  +:+ ". ¿A cuál te referís?".

(** The guard of the loop body: [entity_name == "recipient" and
    entity_value]. *)
Definition looked_up (entity_name : string) (entity_value : option value)
    : bool :=
  String.eqb entity_name "recipient" && truthy_get entity_value.

(** The loop state: [resolved], [disambiguation_options],
    [needs_disambiguation]. *)
Definition resolution : Type :=
  gmap string value * list DisambiguationOption.t * bool.

(** One iteration of [for entity_name in unresolved]. *)
Definition resolve_one (E : Env) (uid : option string)
    (ents : gmap string value) (acc : resolution) (entity_name : string)
    : result resolution :=
  let '(resolved, options, needs) := acc in
  match ents !! entity_name with
  | Some v =>
      if looked_up entity_name (Some v) then
        match lookup_contacts E uid v with
        | [] =>
            Ok (resolved,
                  options ++ [ {| DisambiguationOption.entity := entity_name;
                                  DisambiguationOption.query := v;
                                  DisambiguationOption.matches := [];
                                  DisambiguationOption.message :=
                                    not_found_message E v |} ],
                  true)
        | [c] => Ok (<[entity_name := VDict c]> resolved, options, needs)
        | contacts =>
            names ← mapM contact_name contacts;
            Ok (resolved,
                  options ++ [ {| DisambiguationOption.entity := entity_name;
                                  DisambiguationOption.query := v;
                                  DisambiguationOption.matches := contacts;
                                  DisambiguationOption.message :=
                                    several_message names |} ],
                  true)
        end
      else Ok acc
  | None => Ok acc
  end.

Fixpoint resolve_loop (E : Env) (uid : option string)
    (ents : gmap string value) (unresolved : list string) (acc : resolution)
    : result resolution :=
  match unresolved with
  | [] => Ok acc
  | entity_name :: rest =>
      acc' ← resolve_one E uid ents acc entity_name;
      resolve_loop E uid ents rest acc'
  end.

(** How often the loop reaches its lookup: the occurrences of
    ["recipient"] in the list. *)
Definition lookups (unresolved : list string) : nat :=
  length (List.filter (λ slot, String.eqb slot "recipient") unresolved).

(** The [return] after the loop. *)
Definition store_resolution (unresolved : list string) (acc : resolution)
    (s : AgentState) : AgentState :=
  let '(resolved, options, needs) := acc in
  set_unresolved_entities (if needs then unresolved else [])
    (set_disambiguation_options options
      (set_needs_user_disambiguation needs
        (set_resolved_entities resolved s))).

Definition resolve_entities (E : Env) (s : AgentState) : result AgentState :=
  let unresolved := get_unresolved_entities s in
  let ents := get_entities s in
  let resolved := get_resolved_entities s in
  match unresolved with
  | [] => Ok (set_needs_user_disambiguation false s)
  | _ :: _ =>
      acc ← resolve_loop E (user_id s) ents unresolved (resolved, [], false);
      Ok (store_resolution unresolved acc s)
  end.

(** *** [nodes/clarify.py] *)

Definition restart_message : string :=
  "Parece que estamos teniendo problemas para entendernos. ¿Podés repetir todo desde el principio?".

(** The question for the first missing slot: the template, else the
    generated question, else the fixed fallback. *)
Definition question_for (E : Env) (s : AgentState) (entity_to_ask : string)
    : string :=
  match CLARIFICATION_TEMPLATES !! entity_to_ask with
  | Some t => t
  | None =>
      let fallback :=
        "¿Podrías darme más información sobre " +:+ entity_to_ask +:+ "?" in
      match intent_name "" s with
      | Raise _ => fallback
      | Ok intent =>
          match ask_question E intent (get_entities s) entity_to_ask with
          | Some q => q
          | None => fallback
          end
      end
  end.

(** The text [clarify] settles on below the limit: the first
    disambiguation prompt, else the question for the first missing slot,
    and the generic question when that text is empty. *)
Definition clarification_text (E : Env) (s : AgentState) : string :=
  let clarification_text :=
    match get_disambiguation_options s, get_missing_entities s with
    | option :: _, _ => DisambiguationOption.message option
    | [], entity_to_ask :: _ => question_for E s entity_to_ask
    | [], [] => ""
    end in
  if nonempty clarification_text then clarification_text
  else "¿Podrías darme más detalles?".

Definition clarify (E : Env) (s : AgentState) : AgentState :=
  let clarification_count := get_clarification_count s in
  let max_clarifications := get_max_clarifications s in
  if max_clarifications <=? clarification_count then
    set_messages (get_messages s ++ [assistant_says restart_message])
      (set_should_speak true
        (set_task_status CANCELLED
          (set_response_text restart_message s)))
  else
    let clarification_text := clarification_text E s in
    set_messages (get_messages s ++ [assistant_says clarification_text])
      (set_should_speak true
        (set_task_status WAITING_USER_INPUT
          (set_clarification_count (clarification_count + 1)
            (set_last_clarification clarification_text
              (set_response_text clarification_text s))))).

(** *** [nodes/execute.py] *)

(** [{**state.get("entities", {}), **state.get("resolved_entities", {})}]:
    on a key of both, the resolved value stays. *)
Definition merged_entities (s : AgentState) : gmap string value :=
  get_resolved_entities s ∪ get_entities s.

Definition failure_record (err : string) : ActionResult.t :=
  {| ActionResult.success := Some false;
     ActionResult.message := None;
     ActionResult.error := Some err;
     ActionResult.data := None |}.

(** The three [return]s of [execute_action]. *)
Definition no_handler (intent : string) (s : AgentState) : AgentState :=
  set_task_status FAILED
    (set_action_error (Some ("No handler for intent: " +:+ intent))
      (set_action_result
         (Some (failure_record ("No skill for intent: " +:+ intent))) s)).

Definition record_outcome (o : skill_outcome) (s : AgentState) : AgentState :=
  match o with
  | Returned r =>
      set_task_status
        (if default false (ActionResult.success r) then COMPLETED else FAILED)
        (set_action_error None (set_action_result (Some r) s))
  | Raised err =>
      set_task_status FAILED
        (set_action_error (Some err)
          (set_action_result (Some (failure_record err)) s))
  end.

Definition execute_action (E : Env) (s : AgentState) : result AgentState :=
  intent ← intent_name "unknown" s;
  let ents := merged_entities s in
  let uid := user_id s in
  Ok match get_skill E intent with
     | None => no_handler intent s
     | Some skill => record_outcome (execute skill uid ents) s
     end.

(** *** [nodes/cancel.py] and [nodes/confirm.py] *)

Definition cancel_message : string := "Dale, cancelado. ¿Algo más?".

Definition cancel_task (s : AgentState) : AgentState :=
  set_messages (get_messages s ++ [assistant_says cancel_message])
    (set_should_speak true
      (set_response_text cancel_message
        (set_clarification_count 0
          (set_missing_entities []
            (set_entities ∅
              (set_task_status CANCELLED
                (set_current_intent None s))))))).

Definition confirm_action (s : AgentState) : AgentState :=
  set_task_status READY_TO_EXECUTE s.

(** *** [nodes/respond.py] *)

Definition SUCCESS_RESPONSES : gmap string string :=
  list_to_map [
    ("send_message", "Listo, mensaje enviado.");
    ("set_reminder", "Dale, te voy a recordar.");
    ("create_note", "Nota guardada.");
    ("open_app", "Abriendo...");
    ("open_url", "Abriendo la página...");
    ("search_web", "Acá está lo que encontré.");
    ("set_timer", "Temporizador activado.") ].

Definition generate_success_response (intent : string) (r : ActionResult.t)
    : string :=
  let base_response := default "Listo." (SUCCESS_RESPONSES !! intent) in
  match ActionResult.message r with
  | Some m => if nonempty m then m else base_response
  | None => base_response
  end.

(** [messages[-n:]] *)
Definition last_n {A : Type} (n : nat) (l : list A) : list A :=
  drop (length l - n)%nat l.

(** The role a turn gets in the chat request: ["user"] stays, every other
    role is sent as ["assistant"]. *)
Definition chat_turn (m : Message.t) : Message.t :=
  {| Message.role :=
       match Message.role m with user => user | _ => assistant end;
     Message.content := Message.content m |}.

Definition generate_conversational_response (E : Env) (user_input : string)
    (msgs : list Message.t) : string :=
  let conversation := chat_turn <$> last_n 10 msgs in
  match converse E conversation user_input with
  | Some reply => reply
  | None => "Perdón, tuve un problema para procesar eso. ¿Podrías repetirlo?"
  end.

(** [state.get("action_result")] and [state.get("action_error")]: a missing
    key reads as [None]. *)
Definition get_action_result (s : AgentState) : option ActionResult.t :=
  mjoin (action_result s).
Definition get_action_error (s : AgentState) : option string :=
  mjoin (action_error s).

Definition generate_response (E : Env) (s : AgentState) : result AgentState :=
  if nonempty (get_response_text s) then Ok s
  else
    intent ← intent_name "unknown" s;
    let status := default IDLE (task_status s) in
    let current_input := default "" (current_input s) in
    let msgs := get_messages s in
    let result_if_completed :=
      if bool_decide (status = COMPLETED)
      then r ← get_action_result s;
           if ActionResult.nonempty r then Some r else None
      else None in
    let response_text :=
      match result_if_completed with
      | Some r => generate_success_response intent r
      | None =>
          if bool_decide (status = FAILED) then
            let error_msg :=
              match get_action_error s with
              | Some e => if nonempty e then e else "Algo salió mal"
              | None => "Algo salió mal"
              end in
            "Ups, hubo un problema: " +:+ error_msg
            +:+ ". ¿Querés que lo intente de nuevo?"
          else if bool_decide (status = CANCELLED) then
            "Dale, cancelado. ¿En qué más te puedo ayudar?"
          else if String.eqb intent "general_query"
                  || String.eqb intent "unknown" then
            generate_conversational_response E current_input msgs
          else if String.eqb intent "greeting" then
            "¡Hola! ¿En qué te puedo ayudar?"
          else "Listo, ¿algo más?"
      end in
    Ok (set_messages (msgs ++ [assistant_says response_text])
         (set_should_speak true
           (set_response_text response_text s))).

(** *** [nodes/system_control.py] *)

(** [entities.get("app_name", "").lower().strip()]: only a string has
    [lower]. *)
Definition app_name_of (E : Env) (ents : gmap string value) : result string :=
  match ents !! "app_name" with
  | None => Ok (py_strip E (py_lower E ""))
  | Some (VStr a) => Ok (py_strip E (py_lower E a))
  | Some _ => Raise AttributeError
  end.

(** [intent_data.get("entities", {}) or state.get("entities", {})]: the
    intent's own dictionary unless it is empty. *)
Definition command_entities (intent_data : IntentData.t) (s : AgentState)
    : gmap string value :=
  let own := default ∅ (IntentData.entities intent_data) in
  if bool_decide (own = ∅) then get_entities s else own.

(** The launch attempt and the message it leaves in [result_msg]. *)
Definition launch_reply (E : Env) (intent_type app_name : string) : string :=
  let result_msg :=
    if String.eqb intent_type "open_app" && nonempty app_name then
      match APP_MAP !! app_name with
      | Some cmd_info =>
          let cmd := default ("start " +:+ app_name) (cmd_info !! "cmd") in
          match popen E cmd with
          | None => "Abriendo " +:+ app_name +:+ "..."
          | Some _ => "Tuve un error al intentar abrir " +:+ app_name +:+ "."
          end
      | None =>
          match popen E ("start " +:+ app_name) with
          | None => "Intentando abrir " +:+ app_name +:+ "..."
          | Some _ => "No sé cómo abrir '" +:+ app_name +:+ "' todavía."
          end
      end
    else "" in
  if nonempty result_msg then result_msg
  else "No entendí qué aplicación querés abrir. Decime el nombre de la app.".

Definition execute_system_command (E : Env) (s : AgentState)
    : result AgentState :=
  intent_data ← intent_dict s;
  let intent_type := default "" (IntentData.intent intent_data) in
  let ents := command_entities intent_data s in
  app_name ← app_name_of E ents;
  let result_msg := launch_reply E intent_type app_name in
  Ok (set_messages (get_messages s ++ [assistant_says result_msg])
       (set_action_result
          (Some {| ActionResult.success := None;
                   ActionResult.message := Some result_msg;
                   ActionResult.error := None;
                   ActionResult.data := None |})
          (set_task_status COMPLETED
            (set_response_text result_msg s)))).

(** *** [nodes/detect_intent.py] *)

(** The [return] after a parsed answer. *)
Definition store_guess (intent_data : IntentData.t) (s : AgentState)
    : AgentState :=
  set_task_status INTENT_DETECTED
    (set_missing_entities (default [] (IntentData.missing intent_data))
      (set_entities (default ∅ (IntentData.entities intent_data))
        (set_current_intent (Some intent_data) s))).

(** [get_openai_client()], called before the [try], is taken to return. *)
Definition detect_intent (E : Env) (s : AgentState) : AgentState :=
  let current_input := default "" (current_input s) in
  let msgs := get_messages s in
  if negb (nonempty current_input) then
    set_task_status IDLE
      (set_current_intent
         (Some {| IntentData.intent := Some "unknown";
                  IntentData.confidence := Some 0%Q;
                  IntentData.entities := Some ∅;
                  IntentData.missing := None;
                  IntentData.reasoning := None;
                  IntentData.error := None |}) s)
  else
    match classify E (last_n 10 msgs) current_input with
    | Classified intent_data => store_guess intent_data s
    | Unparseable =>
        set_task_status INTENT_DETECTED
          (set_current_intent
             (Some {| IntentData.intent := Some "general_query";
                      IntentData.confidence := Some (1 # 2)%Q;
                      IntentData.entities := Some ∅;
                      IntentData.missing := None;
                      IntentData.reasoning :=
                        Some "Could not parse intent response";
                      IntentData.error := None |}) s)
    | ServiceFault err =>
        set_action_error (Some err)
          (set_task_status FAILED
            (set_current_intent
               (Some {| IntentData.intent := Some "unknown";
                        IntentData.confidence := Some 0%Q;
                        IntentData.entities := Some ∅;
                        IntentData.missing := None;
                        IntentData.reasoning := None;
                        IntentData.error := Some err |}) s))
    end.

(** *** [nodes/parse_input.py] *)

(** [pat in s] on strings *)
Fixpoint contains (pat s : string) : bool :=
  String.prefix pat s
  || match s with
     | EmptyString => false
     | String _ s' => contains pat s'
     end.

Definition english_patterns : list string :=
  ["hello"; "hi "; "please"; "thank you"; "yes"; "no "; "what"; "how"].

(** The content of the last message whose role is ["user"]. *)
Definition last_user_message (msgs : list Message.t) : option string :=
  Message.content <$>
    List.find (λ m, match Message.role m with user => true | _ => false end)
              (reverse msgs).

Definition parse_input (E : Env) (s : AgentState) : AgentState :=
  match last_user_message (get_messages s) with
  | None => s
  | Some last_message =>
      if negb (nonempty last_message) then s
      else
        let current_input := py_strip E last_message in
        let input_language :=
          if existsb (λ pat, contains pat (py_lower E current_input))
                     english_patterns
          then "en" else "es" in
        set_turn_count (default 0 (turn_count s) + 1)
          (set_input_language input_language
            (set_current_input current_input s))
  end.

(** ** Routers and edges ([graph.py]) *)

Inductive after_intent : Type :=
  | to_check_entities
  | to_cancel
  | to_confirm
  | to_respond
  | to_system_control.

Inductive after_entity_check : Type :=
  | to_resolve
  | to_clarify
  | to_execute.

Definition route_after_intent (s : AgentState) : after_intent :=
  let intent_type :=
    match current_intent s with
    | Some (Some d) => default "unknown" (IntentData.intent d)
    | _ => "unknown"
    end in
  if String.eqb intent_type "cancel" then to_cancel
  else if String.eqb intent_type "confirm" then to_confirm
  else if String.eqb intent_type "open_app" then to_system_control
  else if bool_decide (intent_type ∈ ["general_query"; "unknown"; "greeting"])
  then to_respond
  else to_check_entities.

Definition route_after_entity_check (s : AgentState) : after_entity_check :=
  let unresolved := get_unresolved_entities s in
  let missing := get_missing_entities s in
  match unresolved, missing with
  | _ :: _, _ => to_resolve
  | [], _ :: _ => to_clarify
  | [], [] => to_execute
  end.

(** Only ["clarify"] and ["execute"] are returned here. *)
Definition route_after_resolve (s : AgentState) : after_entity_check :=
  if default false (needs_user_disambiguation s) then to_clarify
  else to_execute.

(** *** The state channels

    [state.py] declares [messages] as [Annotated[List[Message],
    operator.add]]: the list a node returns under that key is added to the
    list the graph holds, and is not put in its place. Every other key a
    node returns replaces the held value. Every node returns
    [{**state, ...}], that is all the keys it was given, its own list of
    messages included. *)

(** The channels after a node that was given [held] has returned
    [returned]. *)
Definition reduce (held returned : AgentState) : AgentState :=
  match messages returned with
  | Some m => set_messages (get_messages held ++ m) returned
  | None =>
      match messages held with
      | Some m0 => set_messages m0 returned
      | None => returned
      end
  end.

(** A node run as a step of the graph. *)
Definition step (node : AgentState → result AgentState) (s : AgentState)
    : result AgentState :=
  s' ← node s; Ok (reduce s s').

(** The same for a node that cannot raise. *)
Definition pure_step (node : AgentState → AgentState) (s : AgentState)
    : AgentState :=
  reduce s (node s).

(** The channels of a thread without a checkpoint once the input of an
    invocation is written: [messages] starts as the empty list, to which
    the input's list is added. [create_agent_graph] compiles the graph
    with a [MemorySaver], and the first invocation for a [thread_id], the
    first turn of a session, finds no checkpoint. *)
Definition enter (input : AgentState) : AgentState :=
  set_messages ([] ++ get_messages input) input.

(** The walk from the node after [detect_intent] to [END], along the
    edges and conditional edges of [create_agent_graph]. *)
Definition run_after_entity_check (E : Env) (s : AgentState)
    : result AgentState :=
  match route_after_entity_check s with
  | to_resolve =>
      s ← step (resolve_entities E) s;
      match route_after_resolve s with
      | to_execute =>
          s ← step (execute_action E) s; step (generate_response E) s
      | _ => step (generate_response E) (pure_step (clarify E) s)
      end
  | to_clarify => step (generate_response E) (pure_step (clarify E) s)
  | to_execute => s ← step (execute_action E) s; step (generate_response E) s
  end.

Definition run_after_intent (E : Env) (s : AgentState) : result AgentState :=
  match route_after_intent s with
  | to_cancel => step (generate_response E) (pure_step cancel_task s)
  | to_confirm =>
      s ← step (execute_action E) (pure_step confirm_action s);
      step (generate_response E) s
  | to_system_control =>
      s ← step (execute_system_command E) s; step (generate_response E) s
  | to_respond => step (generate_response E) s
  | to_check_entities =>
      s ← step check_entities s; run_after_entity_check E s
  end.

(** The channels when [route_after_intent] is asked: the input written,
    then [parse_input] and [detect_intent] run as steps. *)
Definition classified (E : Env) (input : AgentState) : AgentState :=
  pure_step (detect_intent E) (pure_step (parse_input E) (enter input)).

(** One invocation of the graph on a thread without a checkpoint, from the
    entry point. *)
Definition run_graph (E : Env) (input : AgentState) : result AgentState :=
  run_after_intent E (classified E input).

(** ** The clarification counter as a session invariant *)

(** The counter lies between zero and the maximum. *)
Definition counter_within_limit (s : AgentState) : Prop :=
  0 ≤ get_clarification_count s ≤ get_max_clarifications s.

(** A node that leaves both the counter and the maximum alone. *)
Definition keeps_counter (s s' : AgentState) : Prop :=
  clarification_count s' = clarification_count s
  ∧ max_clarifications s' = max_clarifications s.

(** ** The spec's wording of CheckSlots' second list *)

(** "Any slot semantically requiring identity resolution (currently: a
    recipient-style slot) that has a non-empty value." *)
Definition spec_unresolved (ents : gmap string value) : list string :=
  if truthy_get (ents !! "recipient") then ["recipient"] else [].

(** ** Collaborator doubles and sample sessions *)

(** The repository's own contact lookup and skill registry, with every
    remote call failing. *)
Definition offline : Env :=
  {| py_str := λ _, "<value>";
     py_lower := λ t, t;
     py_strip := λ t, t;
     lookup_contacts := lookup_contacts_stub;
     get_skill := registered_skill (λ _, "<value>");
     classify := λ _ _, ServiceFault "connection refused";
     ask_question := λ _ _ _, None;
     converse := λ _ _, None;
     popen := λ _, Some "launch failed" |}.

Definition mom : contact :=
  <["phone" := VStr "+54 11 5555 0001"]> {["name" := VStr "Mamá"]}.
Definition juan_perez : contact := {["name" := VStr "Juan Pérez"]}.
Definition juan_gomez : contact := {["name" := VStr "Juan Gómez"]}.

Definition address_book (uid : option string) (q : value) : list contact :=
  match q with
  | VStr t =>
      if String.eqb t "mom" then [mom]
      else if String.eqb t "juan" then [juan_perez; juan_gomez]
      else []
  | _ => []
  end.

(** [offline] with a contact lookup that finds people. *)
Definition with_contacts : Env :=
  {| py_str := py_str offline;
     py_lower := py_lower offline;
     py_strip := py_strip offline;
     lookup_contacts := address_book;
     get_skill := get_skill offline;
     classify := classify offline;
     ask_question := ask_question offline;
     converse := converse offline;
     popen := popen offline |}.

Definition guess (intent : string) (ents : gmap string value)
    : IntentData.t :=
  {| IntentData.intent := Some intent;
     IntentData.confidence := Some 1%Q;
     IntentData.entities := Some ents;
     IntentData.missing := Some [];
     IntentData.reasoning := None;
     IntentData.error := None |}.

(** A classifier double that always answers [d]. *)
Definition answering (d : IntentData.t) : Env :=
  {| py_str := py_str offline;
     py_lower := py_lower offline;
     py_strip := py_strip offline;
     lookup_contacts := lookup_contacts offline;
     get_skill := get_skill offline;
     classify := λ _ _, Classified d;
     ask_question := ask_question offline;
     converse := converse offline;
     popen := popen offline |}.

(** [with_contacts] with a classifier that always answers [d]. *)
Definition answering_with_contacts (d : IntentData.t) : Env :=
  {| py_str := py_str with_contacts;
     py_lower := py_lower with_contacts;
     py_strip := py_strip with_contacts;
     lookup_contacts := lookup_contacts with_contacts;
     get_skill := get_skill with_contacts;
     classify := λ _ _, Classified d;
     ask_question := ask_question with_contacts;
     converse := converse with_contacts;
     popen := popen with_contacts |}.

Definition fresh : AgentState := create_initial_state "u1" "s1".

(** "Send a message to mom": a recipient and no message body. *)
Definition send_to_mom : AgentState :=
  store_guess (guess "send_message" {["recipient" := VStr "mom"]}) fresh.

(** A message-send guess whose recipient came back as the empty string. *)
Definition send_to_nobody : AgentState :=
  store_guess (guess "send_message" {["recipient" := VStr ""]}) fresh.

(** A complete message-send guess to an ambiguous name. *)
Definition send_to_juan : AgentState :=
  store_guess
    (guess "send_message"
       (<["message_content" := VStr "llego tarde"]>
          {["recipient" := VStr "juan"]}))
    fresh.

(** The two sessions after CheckSlots has marked the recipient. *)
Definition mom_pending : AgentState :=
  set_unresolved_entities ["recipient"] send_to_mom.
Definition juan_pending : AgentState :=
  set_unresolved_entities ["recipient"] send_to_juan.

(** A session two clarifications into a task. *)
Definition asked_twice : AgentState :=
  set_clarification_count 2
    (set_missing_entities ["message_content"] send_to_mom).

(** A session in the middle of a disambiguation. *)
Definition mid_disambiguation : AgentState :=
  set_disambiguation_options
    [ {| DisambiguationOption.entity := "recipient";
         DisambiguationOption.query := VStr "juan";
         DisambiguationOption.matches := [juan_perez; juan_gomez];
         DisambiguationOption.message :=
           several_message ["Juan Pérez"; "Juan Gómez"] |} ]
    (set_needs_user_disambiguation true
      (set_resolved_entities {["recipient" := VDict mom]}
        (set_unresolved_entities ["recipient"] send_to_juan))).

(** "Open the calculator", and an [open_app] guess without an app name. *)
Definition open_calculator : AgentState :=
  store_guess (guess "open_app" {["app_name" := VStr "calculadora"]}) fresh.


(** The input of a first turn whose utterance is a cancellation. *)
Definition cancel_request : AgentState :=
  set_messages [ {| Message.role := user; Message.content := "cancelar" |} ]
    fresh.

(** The assistant entries of a conversation. *)
Definition assistant_entries (l : list Message.t) : list Message.t :=
  List.filter
    (λ m, match Message.role m with assistant => true | _ => false end) l.

(** A new utterance arriving in a session that holds earlier slots. *)
Definition next_utterance : AgentState :=
  set_response_text ""
    (set_current_input "a mamá"
      (set_messages [ {| Message.role := user; Message.content := "a mamá" |} ]
        mid_disambiguation)).

(** ** What a node does to the conversation *)

(** The identity of the session and its configuration. *)
Definition keeps_identity (s s' : AgentState) : Prop :=
  user_id s' = user_id s
  ∧ session_id s' = session_id s
  ∧ device_id s' = device_id s
  ∧ max_clarifications s' = max_clarifications s
  ∧ processing_start_time s' = processing_start_time s.

(** A node that neither speaks nor touches the reply. *)
Definition silent (s s' : AgentState) : Prop :=
  messages s' = messages s ∧ response_text s' = response_text s.

(** A node that appends its reply, and only that, to the conversation. *)
Definition replies (s s' : AgentState) : Prop :=
  get_messages s' = get_messages s ++ [assistant_says (get_response_text s')].

(** ** What a turn does to the conversation *)

(** The held list after [k] steps whose nodes returned the list they were
    given: each step adds the returned list to the held one. *)
Definition doubled (k : nat) (l : list Message.t) : list Message.t :=
  Nat.iter k (λ held, held ++ held) l.

(** The channels [k] steps into a turn entered with [s], no node having
    spoken yet. *)
Definition quiet_after (k : nat) (s t : AgentState) : Prop :=
  messages t = Some (doubled k (get_messages s))
  ∧ response_text t = response_text s.

(** The channels when the node of step [k] has appended the reply. *)
Definition replied_after (k : nat) (s t : AgentState) : Prop :=
  messages t
  = Some (doubled k (get_messages s) ++ [assistant_says (get_response_text t)]).

(** The three shapes of the conversation at [END], for a turn entered with
    [s]: an earlier reply handed back and nothing said; the reply said by
    [generate_response], the last step; the reply said by the node before
    [generate_response], whose step then adds the list it was given once
    more. *)
Definition turn_shape (k : nat) (s s' : AgentState) : Prop :=
  let held := doubled k (get_messages s) in
  let reply := assistant_says (get_response_text s') in
  (get_messages s' = held
   ∧ response_text s' = response_text s
   ∧ get_response_text s ≠ "")
  ∨ get_messages s' = held ++ [reply]
  ∨ get_messages s' = (held ++ [reply]) ++ (held ++ [reply]).

(** ** More doubles and sessions *)

(** A classifier double that answers only to a context of more than ten
    messages. *)
Definition wants_long_context : Env :=
  {| py_str := py_str offline;
     py_lower := py_lower offline;
     py_strip := py_strip offline;
     lookup_contacts := lookup_contacts offline;
     get_skill := get_skill offline;
     classify := λ l _,
       if (length l <=? 10)%nat then ServiceFault "connection refused"
       else Unparseable;
     ask_question := ask_question offline;
     converse := converse offline;
     popen := popen offline |}.

Definition said (r : Role) (text : string) : Message.t :=
  {| Message.role := r; Message.content := text |}.

(** A conversation whose latest user turn is followed by a reply. *)
Definition greeted : AgentState :=
  set_messages
    [said user "mandale un mensaje a juan"; said assistant "¿Qué querés que diga el mensaje?";
     said user "hello there"; said assistant "¡Hola!"]
    fresh.

(** A conversation whose latest user turn is empty. *)
Definition fell_silent : AgentState :=
  set_current_input "hola"
    (set_messages [said user "hola"; said assistant "¡Hola!"; said user ""]
       fresh).

(** ** The reply Compose builds *)

(** The failure branch of [generate_response] around an error text. *)
Definition apology (error_msg : string) : string :=
  "Ups, hubo un problema: " +:+ error_msg
  +:+ ". ¿Querés que lo intente de nuevo?".

(** The text [generate_response] settles on when no reply is set yet, for
    the intent name it has read. *)
Definition composed_reply (E : Env) (s : AgentState) (intent : string)
    : string :=
  let status := default IDLE (task_status s) in
  let result_if_completed :=
    if bool_decide (status = COMPLETED)
    then r ← get_action_result s;
         if ActionResult.nonempty r then Some r else None
    else None in
  match result_if_completed with
  | Some r => generate_success_response intent r
  | None =>
      if bool_decide (status = FAILED) then
        apology match get_action_error s with
                | Some e => if nonempty e then e else "Algo salió mal"
                | None => "Algo salió mal"
                end
      else if bool_decide (status = CANCELLED) then
        "Dale, cancelado. ¿En qué más te puedo ayudar?"
      else if String.eqb intent "general_query"
              || String.eqb intent "unknown" then
        generate_conversational_response E (default "" (current_input s))
          (get_messages s)
      else if String.eqb intent "greeting" then
        "¡Hola! ¿En qué te puedo ayudar?"
      else "Listo, ¿algo más?"
  end.

(** The intents of the registry [SKILLS]. *)
Definition skilled_intents : list string :=
  ["create_note"; "set_reminder"; "send_message"; "set_timer"; "search_web"].

(** A confirmation arriving after a complete message-send guess. *)
Definition confirming : AgentState :=
  store_guess (guess "confirm" ∅) send_to_juan.

(** ** What the resolver's loop keeps *)

(** The flag is raised exactly when an option has been appended, every
    option is about the recipient, and [resolved] differs from [resolved0]
    at the recipient only. *)
Definition resolution_coherent (resolved0 : gmap string value)
    (acc : resolution) : Prop :=
  (acc.2 = true ↔ acc.1.2 ≠ [])
  ∧ (∀ o, o ∈ acc.1.2 → DisambiguationOption.entity o = "recipient")
  ∧ (∀ slot, slot ≠ "recipient" → acc.1.1 !! slot = resolved0 !! slot).

(** The session's identity, configuration and turn counter. *)
Definition same_session (s s' : AgentState) : Prop :=
  keeps_identity s s' ∧ turn_count s' = turn_count s.

(** One step of the clarification counter: the maximum stays, the counter
    stays or grows by one, and stays once it has reached the maximum. *)
Definition counter_step (s s' : AgentState) : Prop :=
  get_max_clarifications s' = get_max_clarifications s
  ∧ get_clarification_count s ≤ get_clarification_count s'
    ≤ get_clarification_count s + 1
  ∧ (get_max_clarifications s ≤ get_clarification_count s →
     get_clarification_count s' = get_clarification_count s).

(** A chat double that answers only to a conversation holding a system
    turn or more than ten turns. *)
Definition wants_system_turns : Env :=
  {| py_str := py_str offline;
     py_lower := py_lower offline;
     py_strip := py_strip offline;
     lookup_contacts := lookup_contacts offline;
     get_skill := get_skill offline;
     classify := classify offline;
     ask_question := ask_question offline;
     converse := λ conversation _,
       if existsb (λ m, match Message.role m with
                        | system => true
                        | _ => false
                        end) conversation
          || negb (length conversation <=? 10)%nat
       then Some "hola"
       else None;
     popen := popen offline |}.

(** A reminder asked for while the options of an earlier message-send are
    still in the session. *)
Definition reminder_after_juan : AgentState :=
  store_guess (guess "set_reminder" ∅) mid_disambiguation.

(** * Properties *)

(** Reading a field of a state built by the setters. *)
Ltac read_state :=
  unfold get_messages, get_entities, get_missing_entities,
    get_unresolved_entities, get_resolved_entities,
    get_disambiguation_options, get_clarification_count,
    get_max_clarifications, get_response_text in *;
  cbn [user_id session_id device_id messages current_input input_language
       current_intent task_status entities missing_entities
       unresolved_entities resolved_entities needs_user_disambiguation
       disambiguation_options clarification_count last_clarification
       max_clarifications action_result action_error response_text
       should_speak turn_count processing_start_time
       set_messages set_current_input set_input_language set_current_intent
       set_task_status set_entities set_missing_entities
       set_unresolved_entities set_resolved_entities
       set_needs_user_disambiguation set_disambiguation_options
       set_clarification_count set_last_clarification set_action_result
       set_action_error set_response_text set_should_speak set_turn_count
       from_option id] in *.

(** ** The channels *)

Lemma reduce_cases (held returned : AgentState) :
  reduce held returned = returned
  ∨ ∃ m, reduce held returned = set_messages m returned.
Proof.
  unfold reduce. destruct (messages returned); [right; by eexists |].
  destruct (messages held); [right; by eexists | by left].
Qed.

(** Reading a key other than [messages] off the channels. *)
Ltac off_channels :=
  match goal with
  | |- context [reduce ?a ?b] =>
      let H := fresh in
      destruct (reduce_cases a b) as [H | [? H]]; rewrite H; reflexivity
  end.

Lemma reduce_task_status a b : task_status (reduce a b) = task_status b.
Proof. off_channels. Qed.
Lemma reduce_response_text a b : response_text (reduce a b) = response_text b.
Proof. off_channels. Qed.
Lemma reduce_get_response_text a b :
  get_response_text (reduce a b) = get_response_text b.
Proof. off_channels. Qed.
Lemma reduce_action_result a b : action_result (reduce a b) = action_result b.
Proof. off_channels. Qed.
Lemma reduce_action_error a b : action_error (reduce a b) = action_error b.
Proof. off_channels. Qed.
Lemma reduce_current_intent a b :
  current_intent (reduce a b) = current_intent b.
Proof. off_channels. Qed.
Lemma reduce_intent_dict a b : intent_dict (reduce a b) = intent_dict b.
Proof. off_channels. Qed.
Lemma reduce_entities a b : entities (reduce a b) = entities b.
Proof. off_channels. Qed.
Lemma reduce_missing_entities a b :
  missing_entities (reduce a b) = missing_entities b.
Proof. off_channels. Qed.
Lemma reduce_get_missing_entities a b :
  get_missing_entities (reduce a b) = get_missing_entities b.
Proof. off_channels. Qed.
Lemma reduce_get_unresolved_entities a b :
  get_unresolved_entities (reduce a b) = get_unresolved_entities b.
Proof. off_channels. Qed.
Lemma reduce_needs_user_disambiguation a b :
  needs_user_disambiguation (reduce a b) = needs_user_disambiguation b.
Proof. off_channels. Qed.
Lemma reduce_clarification_count a b :
  clarification_count (reduce a b) = clarification_count b.
Proof. off_channels. Qed.
Lemma reduce_max_clarifications a b :
  max_clarifications (reduce a b) = max_clarifications b.
Proof. off_channels. Qed.
Lemma reduce_get_clarification_count a b :
  get_clarification_count (reduce a b) = get_clarification_count b.
Proof. off_channels. Qed.
Lemma reduce_get_max_clarifications a b :
  get_max_clarifications (reduce a b) = get_max_clarifications b.
Proof. off_channels. Qed.
Lemma reduce_get_entities a b : get_entities (reduce a b) = get_entities b.
Proof. off_channels. Qed.
Lemma reduce_user_id a b : user_id (reduce a b) = user_id b.
Proof. off_channels. Qed.
Lemma reduce_session_id a b : session_id (reduce a b) = session_id b.
Proof. off_channels. Qed.
Lemma reduce_device_id a b : device_id (reduce a b) = device_id b.
Proof. off_channels. Qed.
Lemma reduce_processing_start_time a b :
  processing_start_time (reduce a b) = processing_start_time b.
Proof. off_channels. Qed.
Lemma reduce_turn_count a b : turn_count (reduce a b) = turn_count b.
Proof. off_channels. Qed.
Lemma reduce_current_input a b : current_input (reduce a b) = current_input b.
Proof. off_channels. Qed.
Lemma reduce_command_entities d a b :
  command_entities d (reduce a b) = command_entities d b.
Proof. off_channels. Qed.
Lemma reduce_get_disambiguation_options a b :
  get_disambiguation_options (reduce a b) = get_disambiguation_options b.
Proof. off_channels. Qed.
Lemma reduce_route_after_intent a b :
  route_after_intent (reduce a b) = route_after_intent b.
Proof. off_channels. Qed.
Lemma reduce_route_after_entity_check a b :
  route_after_entity_check (reduce a b) = route_after_entity_check b.
Proof. off_channels. Qed.
Lemma reduce_route_after_resolve a b :
  route_after_resolve (reduce a b) = route_after_resolve b.
Proof. off_channels. Qed.

Lemma reduce_messages (a b : AgentState) (m : list Message.t) :
  messages b = Some m → messages (reduce a b) = Some (get_messages a ++ m).
Proof. intros Hm. unfold reduce. by rewrite Hm. Qed.

Lemma step_Ok (node : AgentState → result AgentState) (s s' : AgentState) :
  step node s = Ok s' ↔ ∃ t, node s = Ok t ∧ s' = reduce s t.
Proof.
  unfold step. destruct (node s) as [t | e]; cbn [mbind result_bind]; split.
  - intros [= <-]. by exists t.
  - by intros (t' & [= <-] & ->).
  - discriminate.
  - by intros (t' & [=] & _).
Qed.

Lemma step_of_Ok (node : AgentState → result AgentState) (s t : AgentState) :
  node s = Ok t → step node s = Ok (reduce s t).
Proof. intros Hrun. unfold step. by rewrite Hrun. Qed.

(** ** Strings and results *)

Lemma nonempty_true (t : string) : nonempty t = true ↔ t ≠ "".
Proof.
  unfold nonempty. destruct (String.eqb_spec t ""); simpl; split; congruence.
Qed.

Lemma nonempty_append_l (a b : string) :
  nonempty a = true → nonempty (a +:+ b) = true.
Proof. destruct a; [discriminate | reflexivity]. Qed.

Lemma bind_Ok {A B : Type} (r : result A) (k : A → result B) (b : B) :
  r ≫= k = Ok b ↔ ∃ a, r = Ok a ∧ k a = Ok b.
Proof.
  destruct r as [a|e]; simpl; split.
  - intros H. by exists a.
  - by intros (a' & [= <-] & H).
  - discriminate.
  - by intros (a' & [=] & _).
Qed.

Lemma intent_name_Ok (dflt : string) (s : AgentState) (d : IntentData.t) :
  intent_dict s = Ok d →
  intent_name dflt s = Ok (default dflt (IntentData.intent d)).
Proof. unfold intent_name. by intros ->. Qed.

(** ** Compose *)

Lemma generate_response_set (E : Env) (s : AgentState) :
  nonempty (get_response_text s) = true → generate_response E s = Ok s.
Proof. intros Hset. unfold generate_response. by rewrite Hset. Qed.

(** C8. Compose passes an already-composed session through: when
    [response_text] is set and non-empty, [generate_response] returns the
    very state it was given, so the reply is not overwritten and no message
    is appended, however often it runs. *)
Theorem generate_response_passthrough (E : Env) (s : AgentState) :
  get_response_text s ≠ "" →
  generate_response E s = Ok s
  ∧ (generate_response E s ≫= generate_response E) = Ok s.
Proof.
  intros Hset. apply nonempty_true in Hset.
  assert (generate_response E s = Ok s) as Hpass
    by exact (generate_response_set E s Hset).
  split; [exact Hpass |]. rewrite Hpass. simpl. exact Hpass.
Qed.

Lemma generate_response_passthrough_mid_disambiguation :
  get_response_text (clarify offline mid_disambiguation) ≠ ""
  ∧ generate_response offline (clarify offline mid_disambiguation)
    = Ok (clarify offline mid_disambiguation)
  ∧ (generate_response offline (clarify offline mid_disambiguation)
       ≫= generate_response offline)
    = Ok (clarify offline mid_disambiguation).
Proof.
  assert (get_response_text (clarify offline mid_disambiguation) ≠ "") as H
    by (vm_compute; discriminate).
  split; [exact H |].
  exact (generate_response_passthrough offline _ H).
Defined.

(** ** Cancel *)

(** C6, as the code has it. Cancelling clears the current intent, sets
    [CANCELLED], empties [entities] and [missing_entities], zeroes the
    clarification counter and sets the fixed acknowledgement; the list of
    messages [cancel_task] returns is the list it was given and, after it,
    the acknowledgement as one assistant entry; [generate_response] hands
    that state back. [unresolved_entities], [resolved_entities], the
    disambiguation flag and the disambiguation options keep their earlier
    values. The turn from [cancel_task] to [END] returns a state with the
    same fields. What it returns as the conversation is not the list of
    [cancel_task]: each of the two steps adds the list its node returns to
    the list the channel holds, so the conversation held before the turn
    and the acknowledgement come back more than once. *)
Theorem cancel_task_effect (E : Env) (s : AgentState) :
  let s' := cancel_task s in
  current_intent s' = Some None
  ∧ task_status s' = Some CANCELLED
  ∧ entities s' = Some ∅
  ∧ missing_entities s' = Some []
  ∧ clarification_count s' = Some 0
  ∧ response_text s' = Some cancel_message
  ∧ messages s' = Some (get_messages s ++ [assistant_says cancel_message])
  ∧ generate_response E s' = Ok s'
  ∧ unresolved_entities s' = unresolved_entities s
  ∧ resolved_entities s' = resolved_entities s
  ∧ needs_user_disambiguation s' = needs_user_disambiguation s
  ∧ disambiguation_options s' = disambiguation_options s
  ∧ ∃ t,
      step (generate_response E) (pure_step cancel_task s) = Ok t
      ∧ current_intent t = Some None
      ∧ task_status t = Some CANCELLED
      ∧ entities t = Some ∅
      ∧ missing_entities t = Some []
      ∧ clarification_count t = Some 0
      ∧ response_text t = Some cancel_message
      ∧ let held :=
          get_messages s ++ get_messages s ++ [assistant_says cancel_message]
        in messages t = Some (held ++ held).
Proof.
  intros s'. subst s'.
  repeat (split;
    [first [ apply generate_response_set; reflexivity | reflexivity ] |]).
  set (c := pure_step cancel_task s).
  assert (messages c
          = Some (get_messages s ++ get_messages s
                    ++ [assistant_says cancel_message])) as Hc
    by exact (reduce_messages s (cancel_task s) _ eq_refl).
  exists (reduce c c). split.
  { apply step_of_Ok, generate_response_set.
    unfold c, pure_step. rewrite reduce_get_response_text. reflexivity. }
  rewrite reduce_current_intent, reduce_task_status, reduce_entities,
    reduce_missing_entities, reduce_clarification_count,
    reduce_response_text.
  split; [| split; [| split; [| split; [| split; [| split]]]]].
  7: { cbv zeta. rewrite (reduce_messages c c _ Hc).
       unfold get_messages at 1. by rewrite Hc. }
  all: unfold c, pure_step.
  - by rewrite reduce_current_intent.
  - by rewrite reduce_task_status.
  - by rewrite reduce_entities.
  - by rewrite reduce_missing_entities.
  - by rewrite reduce_clarification_count.
  - by rewrite reduce_response_text.
Qed.

(** C6, as stated, fails twice. A session cancelled in the middle of a
    disambiguation still holds its unresolved slot, its resolved contact
    and its disambiguation option afterwards. And a cancel turn of the
    graph does not add exactly one assistant entry to the conversation: a
    first turn whose input is one user message, classified as [cancel],
    comes back with eighteen messages, the acknowledgement twice among
    them. *)
Lemma cancel_turn_keeps_resolution_state_and_says_twice :
  ¬ (get_unresolved_entities (cancel_task mid_disambiguation) = []
     ∧ get_resolved_entities (cancel_task mid_disambiguation) = ∅
     ∧ get_disambiguation_options (cancel_task mid_disambiguation) = [])
  ∧ route_after_intent
      (classified (answering (guess "cancel" ∅)) cancel_request)
    = to_cancel
  ∧ length (get_messages cancel_request) = 1%nat
  ∧ assistant_entries (get_messages cancel_request) = []
  ∧ ∃ s',
      run_graph (answering (guess "cancel" ∅)) cancel_request = Ok s'
      ∧ length (get_messages s') = 18%nat
      ∧ assistant_entries (get_messages s')
        = [assistant_says cancel_message; assistant_says cancel_message]
      ∧ ¬ ∃ m, get_messages s' = get_messages cancel_request ++ [m].
Proof.
  split; [intros (Hbad & _); vm_compute in Hbad; discriminate |].
  split; [vm_compute; reflexivity |].
  split; [reflexivity |]. split; [reflexivity |].
  destruct (run_graph (answering (guess "cancel" ∅)) cancel_request)
    as [s' | e] eqn:Hrun; [| vm_compute in Hrun; discriminate].
  exists s'. split; [reflexivity |].
  vm_compute in Hrun. injection Hrun as <-.
  split; [reflexivity |]. split; [reflexivity |].
  intros (m & Hm). apply (f_equal length) in Hm. vm_compute in Hm.
  discriminate.
Qed.

(** ** Clarify *)

Lemma clarify_at_limit (E : Env) (s : AgentState) :
  get_max_clarifications s ≤ get_clarification_count s →
  clarify E s
  = set_messages (get_messages s ++ [assistant_says restart_message])
      (set_should_speak true
        (set_task_status CANCELLED (set_response_text restart_message s))).
Proof.
  intros Hle. unfold clarify.
  by rewrite (proj2 (Z.leb_le _ _) Hle).
Qed.

Lemma clarification_text_nonempty (E : Env) (s : AgentState) :
  clarification_text E s ≠ "".
Proof.
  unfold clarification_text.
  match goal with
  | |- context [nonempty ?t] => generalize t
  end.
  intros t. destruct (nonempty t) eqn:Ht.
  - by apply nonempty_true.
  - discriminate.
Qed.

Lemma clarify_below_limit (E : Env) (s : AgentState) :
  get_clarification_count s < get_max_clarifications s →
  clarify E s
  = set_messages
      (get_messages s ++ [assistant_says (clarification_text E s)])
      (set_should_speak true
        (set_task_status WAITING_USER_INPUT
          (set_clarification_count (get_clarification_count s + 1)
            (set_last_clarification (clarification_text E s)
              (set_response_text (clarification_text E s) s))))).
Proof.
  intros Hlt. unfold clarify.
  by rewrite (proj2 (Z.leb_gt _ _) Hlt).
Qed.

(** C2, as the code has it. A session that enters Clarify with the counter
    within the maximum leaves it within the maximum. Entered at or above the
    maximum, Clarify emits the fixed restart message, forces [CANCELLED] and
    leaves the counter as it was; entered below it, Clarify asks a non-empty
    question, adds exactly one to the counter and sets
    [WAITING_USER_INPUT]. So when the counter equals the maximum after
    Clarify, the status is [CANCELLED] exactly when the maximum had already
    been reached on entry. *)
Theorem clarify_counter (E : Env) (s : AgentState) :
  let s' := clarify E s in
  get_max_clarifications s' = get_max_clarifications s
  ∧ (get_clarification_count s ≤ get_max_clarifications s →
     get_clarification_count s' ≤ get_max_clarifications s')
  ∧ (get_max_clarifications s ≤ get_clarification_count s →
     response_text s' = Some restart_message
     ∧ task_status s' = Some CANCELLED
     ∧ clarification_count s' = clarification_count s
     ∧ messages s' = Some (get_messages s ++ [assistant_says restart_message]))
  ∧ (get_clarification_count s < get_max_clarifications s →
     get_clarification_count s' = get_clarification_count s + 1
     ∧ task_status s' = Some WAITING_USER_INPUT
     ∧ get_response_text s' ≠ ""
     ∧ messages s'
       = Some (get_messages s ++ [assistant_says (get_response_text s')]))
  ∧ (get_clarification_count s' = get_max_clarifications s' →
     (task_status s' = Some CANCELLED
      ↔ get_max_clarifications s ≤ get_clarification_count s)).
Proof.
  intros s'. subst s'.
  destruct (Z_lt_le_dec (get_clarification_count s) (get_max_clarifications s))
    as [Hlt | Hle].
  - rewrite (clarify_below_limit E s Hlt).
    pose proof (clarification_text_nonempty E s) as Hq.
    repeat split; try reflexivity; try (intros; exfalso; lia).
    + intros _. read_state. lia.
    + exact Hq.
    + discriminate.
  - rewrite (clarify_at_limit E s Hle).
    repeat split; try reflexivity; try (intros; exfalso; lia).
    + intros Hin. read_state. exact Hin.
    + intros _. exact Hle.
Qed.

(** C2, as stated, fails: the third question of a session brings the
    counter to the maximum of three while the status is
    [WAITING_USER_INPUT], not [CANCELLED]. *)
Lemma clarify_reaches_limit_while_waiting :
  ¬ (get_clarification_count (clarify offline asked_twice)
       ≤ get_max_clarifications (clarify offline asked_twice)
     ∧ (get_clarification_count (clarify offline asked_twice)
          = get_max_clarifications (clarify offline asked_twice) →
        task_status (clarify offline asked_twice) = Some CANCELLED)).
Proof.
  intros (_ & Hforced).
  assert (task_status (clarify offline asked_twice) = Some CANCELLED) as Hbad
    by (apply Hforced; vm_compute; reflexivity).
  vm_compute in Hbad. discriminate.
Qed.

(** ** Classify *)

(** C9. After a parsed classification, [entities] and [missing_entities]
    are the guess's own (empty when the guess has none): nothing of the
    earlier slot values is kept, so a slot the guess does not name is gone.
    The resolved values, the unresolved list, the disambiguation flag and
    options, and the clarification counter are as they were. *)
Theorem detect_intent_replaces_slots (E : Env) (s : AgentState)
    (d : IntentData.t) :
  default "" (current_input s) ≠ "" →
  classify E (last_n 10 (get_messages s)) (default "" (current_input s))
    = Classified d →
  let s' := detect_intent E s in
  current_intent s' = Some (Some d)
  ∧ task_status s' = Some INTENT_DETECTED
  ∧ entities s' = Some (default ∅ (IntentData.entities d))
  ∧ missing_entities s' = Some (default [] (IntentData.missing d))
  ∧ (∀ slot, default ∅ (IntentData.entities d) !! slot = None →
       get_entities s' !! slot = None)
  ∧ resolved_entities s' = resolved_entities s
  ∧ unresolved_entities s' = unresolved_entities s
  ∧ needs_user_disambiguation s' = needs_user_disambiguation s
  ∧ disambiguation_options s' = disambiguation_options s
  ∧ clarification_count s' = clarification_count s.
Proof.
  intros Hinput Hguess s'. subst s'. unfold detect_intent.
  apply nonempty_true in Hinput. rewrite Hinput, Hguess.
  cbn [negb]. unfold store_guess.
  repeat split; try reflexivity.
  intros slot Hslot. read_state. exact Hslot.
Qed.

Lemma detect_intent_replaces_slots_next_utterance :
  let E := answering (guess "set_timer" {["duration" := VStr "5 minutos"]}) in
  let s' := detect_intent E next_utterance in
  get_entities next_utterance !! "recipient" = Some (VStr "juan")
  ∧ entities s' = Some {["duration" := VStr "5 minutos"]}
  ∧ get_entities s' !! "recipient" = None
  ∧ resolved_entities s' = Some {["recipient" := VDict mom]}.
Proof.
  intros E s'.
  destruct (detect_intent_replaces_slots E next_utterance
              (guess "set_timer" {["duration" := VStr "5 minutos"]}))
    as (_ & _ & Hents & _ & Hgone & Hres & _).
  - vm_compute. discriminate.
  - reflexivity.
  - split; [reflexivity |]. split; [exact Hents |].
    split; [apply Hgone; reflexivity | exact Hres].
Defined.

(** ** Dispatch *)

Lemma merged_entities_lookup (s : AgentState) (slot : string) :
  merged_entities s !! slot
  = match get_resolved_entities s !! slot with
    | Some v => Some v
    | None => get_entities s !! slot
    end.
Proof.
  unfold merged_entities. rewrite lookup_union.
  destruct (get_resolved_entities s !! slot), (get_entities s !! slot);
    reflexivity.
Qed.

Lemma execute_action_Ok (E : Env) (s : AgentState) (d : IntentData.t) :
  intent_dict s = Ok d →
  execute_action E s
  = Ok match get_skill E (default "unknown" (IntentData.intent d)) with
       | None => no_handler (default "unknown" (IntentData.intent d)) s
       | Some skill =>
           record_outcome (execute skill (user_id s) (merged_entities s)) s
       end.
Proof.
  intros Hd. unfold execute_action.
  by rewrite (intent_name_Ok "unknown" s d Hd).
Qed.

(** C5. Dispatch on a session that holds an intent always returns a state.
    With no skill registered for the intent the status is [FAILED] and
    [action_error] is "No handler for intent: " followed by the intent's
    name. When the skill raises, the status is [FAILED] and [action_error]
    is the fault's text. When the skill returns, the status is [COMPLETED]
    if the result's success flag is true and [FAILED] otherwise. *)
Theorem execute_action_outcome (E : Env) (s : AgentState) (d : IntentData.t) :
  intent_dict s = Ok d →
  let intent := default "unknown" (IntentData.intent d) in
  ∃ s',
    execute_action E s = Ok s'
    ∧ match get_skill E intent with
      | None =>
          task_status s' = Some FAILED
          ∧ action_error s' = Some (Some ("No handler for intent: " +:+ intent))
      | Some skill =>
          match execute skill (user_id s) (merged_entities s) with
          | Raised err =>
              task_status s' = Some FAILED
              ∧ action_error s' = Some (Some err)
          | Returned r =>
              (task_status s' = Some COMPLETED
               ↔ ActionResult.success r = Some true)
              ∧ (task_status s' = Some FAILED
                 ↔ ActionResult.success r ≠ Some true)
              ∧ action_result s' = Some (Some r)
          end
      end.
Proof.
  intros Hd intent. subst intent.
  eexists. split; [exact (execute_action_Ok E s d Hd) |].
  destruct (get_skill E _) as [skill |]; [| split; reflexivity].
  destruct (execute skill _ _) as [r | err]; [| split; reflexivity].
  unfold record_outcome.
  destruct (ActionResult.success r) as [[|] |]; read_state;
    repeat split; intros; congruence.
Qed.

Lemma execute_action_outcome_unregistered :
  let s := store_guess (guess "open_url" {["url" := VStr "x.com"]}) fresh in
  ∃ s',
    execute_action offline s = Ok s'
    ∧ task_status s' = Some FAILED
    ∧ action_error s' = Some (Some "No handler for intent: open_url").
Proof.
  intros s.
  destruct (execute_action_outcome offline s
              (guess "open_url" {["url" := VStr "x.com"]}) eq_refl)
    as (s' & Hrun & Hcase).
  exists s'. split; [exact Hrun | exact Hcase].
Defined.

(** ** System control *)

Lemma launch_reply_nonempty (E : Env) (intent_type app_name : string) :
  launch_reply E intent_type app_name ≠ "".
Proof.
  unfold launch_reply.
  match goal with
  | |- context [nonempty ?t] => generalize t
  end.
  intros t. destruct (nonempty t) eqn:Ht.
  - by apply nonempty_true.
  - discriminate.
Qed.

Lemma route_to_system_control (s : AgentState) :
  route_after_intent s = to_system_control →
  ∃ d, current_intent s = Some (Some d)
       ∧ IntentData.intent d = Some "open_app".
Proof.
  unfold route_after_intent.
  destruct (current_intent s) as [[d |] |]; [| discriminate ..].
  destruct (IntentData.intent d) as [i |] eqn:Hi; [| discriminate].
  cbn [from_option id].
  destruct (String.eqb_spec i "cancel"); [discriminate |].
  destruct (String.eqb_spec i "confirm"); [discriminate |].
  destruct (String.eqb_spec i "open_app") as [-> |].
  - intros _. by exists d.
  - by case_bool_decide.
Qed.

Lemma app_name_of_text (E : Env) (ents : gmap string value) :
  (∀ v, ents !! "app_name" = Some v → is_str v = true) →
  ∃ app_name, app_name_of E ents = Ok app_name.
Proof.
  intros Htext. unfold app_name_of.
  destruct (ents !! "app_name") as [v |] eqn:Hv; [| by eexists].
  specialize (Htext v eq_refl). destruct v; try discriminate. by eexists.
Qed.




(** A guess whose app name is not text stops the node: [None] has no
    [lower]. *)
Remark execute_system_command_needs_text :
  execute_system_command offline
    (store_guess (guess "open_app" {["app_name" := VNone]}) fresh)
  = Raise AttributeError.
Proof. reflexivity. Qed.

(** ** CheckSlots *)

Lemma needs_resolution_recipient (ents : gmap string value) :
  (List.filter needs_resolution (map_to_list ents)).*1
  = match ents !! "recipient" with
    | Some (VStr _) => ["recipient"]
    | _ => []
    end.
Proof.
  set (L := List.filter needs_resolution (map_to_list ents)).
  assert (∀ k x, (k, x) ∈ L ↔
            k = "recipient" ∧ is_str x = true ∧ ents !! "recipient" = Some x)
    as Hmem.
  { intros k x. unfold L. rewrite list_elem_of_In, filter_In.
    rewrite <- list_elem_of_In, elem_of_map_to_list.
    unfold needs_resolution. cbn [fst snd]. rewrite andb_true_iff.
    destruct (String.eqb_spec k "recipient") as [-> | Hne];
      intuition congruence. }
  assert (NoDup L) as Hnodup
    by (apply NoDup_ListNoDup, List.NoDup_filter, NoDup_ListNoDup,
          NoDup_map_to_list).
  destruct L as [| [k x] L'].
  - destruct (ents !! "recipient") as [x0 |] eqn:H0; [| reflexivity].
    destruct x0; try reflexivity.
    exfalso. apply (not_elem_of_nil ("recipient", VStr s)).
    apply Hmem. by repeat split.
  - destruct (proj1 (Hmem k x) ltac:(left)) as (-> & Hstr & Hx).
    rewrite Hx. destruct x; try discriminate.
    destruct L' as [| [k' x'] L'']; [reflexivity |].
    exfalso.
    destruct (proj1 (Hmem k' x') ltac:(right; left)) as (-> & _ & Hx').
    rewrite Hx in Hx'. injection Hx' as <-.
    apply NoDup_cons in Hnodup as [Hnotin _]. apply Hnotin. left.
Qed.

Lemma slot_missing_true (ents : gmap string value) (slot : string) :
  slot_missing ents slot = true
  ↔ ents !! slot = None ∨ ∃ v, ents !! slot = Some v ∧ truthy v = false.
Proof.
  unfold slot_missing, truthy_get.
  destruct (ents !! slot) as [v |].
  - rewrite negb_true_iff. split.
    + intros Hv. right. by exists v.
    + intros [Habs | (v' & [= <-] & Hv)]; [discriminate | exact Hv].
  - split; [by left | reflexivity].
Qed.

Lemma filter_sublist {A : Type} (f : A → bool) (l : list A) :
  sublist (List.filter f l) l.
Proof.
  induction l as [| x l IH]; [constructor |].
  cbn [List.filter]. destruct (f x); by constructor.
Qed.

(** C4, as the code has it. For a session that holds an intent, CheckSlots
    returns with [missing_entities] holding exactly the required slots of
    the intent that are absent from [entities] or hold a falsy value, in
    the order of [REQUIRED_ENTITIES]; with [unresolved_entities] holding
    ["recipient"] exactly when [entities] has a string under that name, the
    empty string included, whatever [resolved_entities] holds; and with
    status [READY_TO_EXECUTE] when both lists are empty and
    [NEEDS_CLARIFICATION] otherwise. A message-send guess with only a
    recipient gets [missing_entities = ["message_content"]] and
    [NEEDS_CLARIFICATION]. *)
Theorem check_entities_lists (s : AgentState) (d : IntentData.t) :
  intent_dict s = Ok d →
  let required :=
    default [] (REQUIRED_ENTITIES !! default "unknown" (IntentData.intent d)) in
  let ents := get_entities s in
  ∃ s',
    check_entities s = Ok s'
    ∧ missing_entities s' = Some (List.filter (slot_missing ents) required)
    ∧ (∀ slot, slot ∈ get_missing_entities s' ↔
         slot ∈ required
         ∧ (ents !! slot = None
            ∨ ∃ v, ents !! slot = Some v ∧ truthy v = false))
    ∧ sublist (get_missing_entities s') required
    ∧ unresolved_entities s'
      = Some match ents !! "recipient" with
             | Some (VStr _) => ["recipient"]
             | _ => []
             end
    ∧ task_status s'
      = Some match get_missing_entities s', get_unresolved_entities s' with
             | [], [] => READY_TO_EXECUTE
             | _, _ => NEEDS_CLARIFICATION
             end
    ∧ (∃ s1, check_entities send_to_mom = Ok s1
             ∧ missing_entities s1 = Some ["message_content"]
             ∧ task_status s1 = Some NEEDS_CLARIFICATION).
Proof.
  intros Hd required ents.
  assert (∃ s',
            check_entities s = Ok s'
            ∧ missing_entities s' = Some (List.filter (slot_missing ents) required)
            ∧ unresolved_entities s'
              = Some match ents !! "recipient" with
                     | Some (VStr _) => ["recipient"]
                     | _ => []
                     end
            ∧ task_status s'
              = Some match List.filter (slot_missing ents) required,
                           match ents !! "recipient" with
                           | Some (VStr _) => ["recipient"]
                           | _ => []
                           end with
                     | [], [] => READY_TO_EXECUTE
                     | _, _ => NEEDS_CLARIFICATION
                     end) as (s' & Hrun & Hmiss & Hunres & Hstatus).
  { unfold check_entities. rewrite (intent_name_Ok "unknown" s d Hd).
    cbn [mbind result_bind]. fold ents. fold required.
    rewrite (needs_resolution_recipient ents).
    destruct (List.filter (slot_missing ents) required) as [| m ms];
      destruct (ents !! "recipient") as [[] |];
      eexists; (split; [reflexivity |]); repeat split; reflexivity. }
  exists s'. split; [exact Hrun |]. split; [exact Hmiss |].
  unfold get_missing_entities, get_unresolved_entities.
  rewrite Hmiss, Hunres. cbn [from_option id].
  split.
  { intros slot. rewrite list_elem_of_In, filter_In, <- list_elem_of_In.
    by rewrite slot_missing_true. }
  split; [apply filter_sublist |].
  split; [reflexivity |].
  split; [exact Hstatus |].
  eexists. split; [reflexivity |]. split; reflexivity.
Qed.

Lemma check_entities_lists_send_to_mom :
  ∃ s',
    check_entities send_to_mom = Ok s'
    ∧ missing_entities s' = Some ["message_content"]
    ∧ unresolved_entities s' = Some ["recipient"]
    ∧ task_status s' = Some NEEDS_CLARIFICATION.
Proof.
  destruct (check_entities_lists send_to_mom
              (guess "send_message" {["recipient" := VStr "mom"]}) eq_refl)
    as (s' & Hrun & Hmiss & _ & _ & Hunres & Hstatus & _).
  exists s'. split; [exact Hrun |]. split; [exact Hmiss |].
  split; [exact Hunres |].
  rewrite Hstatus. unfold get_missing_entities, get_unresolved_entities.
  rewrite Hmiss, Hunres. reflexivity.
Defined.

(** C4, as stated, fails: a recipient that is the empty string is marked
    unresolved, though it has no non-empty value. *)
Lemma check_entities_marks_empty_recipient :
  ∃ s',
    check_entities send_to_nobody = Ok s'
    ∧ get_entities send_to_nobody !! "recipient" = Some (VStr "")
    ∧ get_unresolved_entities s' = ["recipient"]
    ∧ get_unresolved_entities s' ≠ spec_unresolved (get_entities send_to_nobody).
Proof.
  eexists. split; [reflexivity |]. split; [reflexivity |].
  split; [reflexivity |]. vm_compute. discriminate.
Qed.

(** ** Resolve *)

Lemma looked_up_true (slot : string) (o : option value) :
  looked_up slot o = true → slot = "recipient" ∧ truthy_get o = true.
Proof.
  unfold looked_up. rewrite andb_true_iff.
  intros [Hname Hval]. split; [by apply String.eqb_eq | exact Hval].
Qed.

Lemma lookups_pos (slot : string) (unresolved : list string) :
  slot ∈ unresolved → slot = "recipient" →
  ∃ k, lookups unresolved = S k.
Proof.
  intros Hin ->. unfold lookups.
  destruct (List.filter _ unresolved) as [| x l] eqn:Hf; [| by eexists].
  exfalso. apply list_elem_of_In in Hin.
  assert (In "recipient" (List.filter (λ slot, String.eqb slot "recipient")
                            unresolved)) as Hbad
    by (apply filter_In; split; [exact Hin | reflexivity]).
  rewrite Hf in Hbad. destruct Hbad.
Qed.

Section Loop.
Context (E : Env) (uid : option string) (ents : gmap string value).

Lemma resolve_one_skip (acc : resolution) (slot : string) :
  looked_up slot (ents !! slot) = false →
  resolve_one E uid ents acc slot = Ok acc.
Proof.
  intros Hskip. unfold resolve_one. destruct acc as [[resolved options] needs].
  destruct (ents !! slot) as [v |]; [| reflexivity].
  by rewrite Hskip.
Qed.

(** When every pass over ["recipient"] succeeds with the same update, the
    loop is that update repeated once per occurrence. *)
Lemma resolve_loop_iter (step : resolution → resolution) :
  (∀ acc, resolve_one E uid ents acc "recipient" = Ok (step acc)) →
  ∀ unresolved acc,
    resolve_loop E uid ents unresolved acc
    = Ok (Nat.iter (lookups unresolved) step acc).
Proof.
  intros Hstep. induction unresolved as [| slot rest IH]; intros acc.
  - reflexivity.
  - cbn [resolve_loop]. unfold lookups. cbn [List.filter].
    destruct (String.eqb_spec slot "recipient") as [-> | Hother].
    + rewrite Hstep. cbn [mbind result_bind length].
      rewrite IH. by rewrite Nat.iter_succ_r.
    + rewrite resolve_one_skip.
      * cbn [mbind result_bind]. apply IH.
      * unfold looked_up.
        by rewrite (proj2 (String.eqb_neq slot "recipient") Hother).
Qed.

Context (v : value).
Hypothesis recipient_value : ents !! "recipient" = Some v.
Hypothesis recipient_truthy : truthy v = true.

Lemma resolve_one_none_found (acc : resolution) :
  lookup_contacts E uid v = [] →
  resolve_one E uid ents acc "recipient"
  = Ok (acc.1.1,
        acc.1.2 ++ [ {| DisambiguationOption.entity := "recipient";
                        DisambiguationOption.query := v;
                        DisambiguationOption.matches := [];
                        DisambiguationOption.message :=
                          not_found_message E v |} ],
        true).
Proof.
  intros Hnone. unfold resolve_one. destruct acc as [[resolved options] needs].
  rewrite recipient_value. unfold looked_up. cbn [String.eqb truthy_get].
  rewrite recipient_truthy, Hnone. reflexivity.
Qed.

Lemma resolve_one_single (acc : resolution) (c : contact) :
  lookup_contacts E uid v = [c] →
  resolve_one E uid ents acc "recipient"
  = Ok (<["recipient" := VDict c]> acc.1.1, acc.1.2, acc.2).
Proof.
  intros Hone. unfold resolve_one. destruct acc as [[resolved options] needs].
  rewrite recipient_value. unfold looked_up. cbn [String.eqb truthy_get].
  rewrite recipient_truthy, Hone. reflexivity.
Qed.

Lemma resolve_one_several (acc : resolution) (names : list string) :
  (2 ≤ length (lookup_contacts E uid v))%nat →
  mapM contact_name (lookup_contacts E uid v) = Ok names →
  resolve_one E uid ents acc "recipient"
  = Ok (acc.1.1,
        acc.1.2 ++ [ {| DisambiguationOption.entity := "recipient";
                        DisambiguationOption.query := v;
                        DisambiguationOption.matches :=
                          lookup_contacts E uid v;
                        DisambiguationOption.message :=
                          several_message names |} ],
        true).
Proof.
  intros Hlen Hnames. unfold resolve_one.
  destruct acc as [[resolved options] needs].
  rewrite recipient_value. unfold looked_up. cbn [String.eqb truthy_get].
  rewrite recipient_truthy. cbn [andb].
  destruct (lookup_contacts E uid v) as [| c1 [| c2 cs]] eqn:Hcs;
    [cbn in Hlen; lia | cbn in Hlen; lia |].
  rewrite Hnames. reflexivity.
Qed.

End Loop.

Lemma resolve_entities_iter (E : Env) (s : AgentState)
    (step : resolution → resolution) :
  get_unresolved_entities s ≠ [] →
  (∀ acc,
     resolve_one E (user_id s) (get_entities s) acc "recipient"
     = Ok (step acc)) →
  resolve_entities E s
  = Ok (store_resolution (get_unresolved_entities s)
          (Nat.iter (lookups (get_unresolved_entities s)) step
             (get_resolved_entities s, [], false))
          s).
Proof.
  intros Hpending Hstep. unfold resolve_entities.
  destruct (get_unresolved_entities s) as [| slot rest] eqn:Hl; [done |].
  rewrite (resolve_loop_iter E _ _ step Hstep). reflexivity.
Qed.

(** Repeating "append this option and raise the flag". *)
Lemma iter_append_option (x : DisambiguationOption.t) (k : nat)
    (acc : resolution) :
  let acc' := Nat.iter (S k) (λ a : resolution, (a.1.1, a.1.2 ++ [x], true))
                acc in
  acc'.1.1 = acc.1.1 ∧ x ∈ acc'.1.2 ∧ acc'.2 = true.
Proof.
  cbn zeta. cbn [Nat.iter nat_rect fst snd].
  split; [| split; [set_solver | reflexivity]].
  induction k as [| k IH]; [reflexivity | exact IH].
Qed.

(** Repeating "store this contact". *)
Lemma iter_store_contact (c : contact) (k : nat) (acc : resolution) :
  let acc' := Nat.iter (S k)
                (λ a : resolution,
                   (<["recipient" := VDict c]> a.1.1, a.1.2, a.2)) acc in
  acc'.1.1 !! "recipient" = Some (VDict c)
  ∧ acc'.1.2 = acc.1.2 ∧ acc'.2 = acc.2.
Proof.
  cbn zeta. cbn [Nat.iter nat_rect fst snd].
  split; [apply lookup_insert_eq |].
  induction k as [| k IH]; [by split | exact IH].
Qed.

Lemma store_resolution_fields (unresolved : list string) (acc : resolution)
    (s : AgentState) :
  let s' := store_resolution unresolved acc s in
  resolved_entities s' = Some acc.1.1
  ∧ disambiguation_options s' = Some acc.1.2
  ∧ needs_user_disambiguation s' = Some acc.2
  ∧ unresolved_entities s' = Some (if acc.2 then unresolved else [])
  ∧ entities s' = entities s
  ∧ missing_entities s' = missing_entities s
  ∧ current_intent s' = current_intent s
  ∧ task_status s' = task_status s
  ∧ user_id s' = user_id s.
Proof. destruct acc as [[resolved options] needs]. by repeat split. Qed.

(** C3. For a slot of the unresolved list that the resolver looks up (the
    recipient, holding a truthy value), by the number of candidates the
    lookup returns. None: the resolver returns, a record for the slot with
    an empty candidate list and the not-found prompt is among the
    disambiguation options, the flag is set and [resolved_entities] is as
    before. One: the resolver returns, the candidate is the slot's value in
    [resolved_entities] and no disambiguation option names the slot. Two or
    more, their names being text: the resolver returns, a record with the
    whole candidate list and the enumerating prompt is among the options
    and the flag is set. *)
Theorem resolve_entities_by_candidates (E : Env) (s : AgentState)
    (slot : string) (v : value) :
  slot ∈ get_unresolved_entities s →
  get_entities s !! slot = Some v →
  looked_up slot (Some v) = true →
  match lookup_contacts E (user_id s) v with
  | [] =>
      ∃ s',
        resolve_entities E s = Ok s'
        ∧ {| DisambiguationOption.entity := slot;
             DisambiguationOption.query := v;
             DisambiguationOption.matches := [];
             DisambiguationOption.message := not_found_message E v |}
          ∈ get_disambiguation_options s'
        ∧ needs_user_disambiguation s' = Some true
        ∧ get_resolved_entities s' = get_resolved_entities s
  | [c] =>
      ∃ s',
        resolve_entities E s = Ok s'
        ∧ get_resolved_entities s' !! slot = Some (VDict c)
        ∧ (∀ o, o ∈ get_disambiguation_options s' →
                DisambiguationOption.entity o ≠ slot)
  | contacts =>
      ∀ names,
        mapM contact_name contacts = Ok names →
        ∃ s',
          resolve_entities E s = Ok s'
          ∧ {| DisambiguationOption.entity := slot;
               DisambiguationOption.query := v;
               DisambiguationOption.matches := contacts;
               DisambiguationOption.message := several_message names |}
            ∈ get_disambiguation_options s'
          ∧ needs_user_disambiguation s' = Some true
  end.
Proof.
  intros Hin Hv Hlooked.
  destruct (looked_up_true slot (Some v) Hlooked) as [-> Htruthy].
  cbn [truthy_get] in Htruthy.
  destruct (lookups_pos "recipient" _ Hin eq_refl) as (k & Hk).
  assert (get_unresolved_entities s ≠ []) as Hpending
    by (intros Hnil; rewrite Hnil in Hin; by apply not_elem_of_nil in Hin).
  destruct (lookup_contacts E (user_id s) v) as [| c1 [| c2 cs]] eqn:Hcs.
  - rewrite (resolve_entities_iter E s _ Hpending
               (λ acc, resolve_one_none_found E _ _ v Hv Htruthy acc Hcs)).
    rewrite Hk. eexists. split; [reflexivity |].
    match goal with
    | |- context [store_resolution ?l ?acc s] =>
        destruct (store_resolution_fields l acc s)
          as (Hres & Hopts & Hneeds & _);
        destruct (iter_append_option
                    {| DisambiguationOption.entity := "recipient";
                       DisambiguationOption.query := v;
                       DisambiguationOption.matches := [];
                       DisambiguationOption.message := not_found_message E v |}
                    k (get_resolved_entities s, [], false))
          as (Hsame & Hmem & Hflag)
    end.
    unfold get_disambiguation_options, get_resolved_entities in *.
    rewrite Hopts, Hneeds, Hres, Hsame, Hflag.
    split; [exact Hmem |]. split; reflexivity.
  - rewrite (resolve_entities_iter E s _ Hpending
               (λ acc, resolve_one_single E _ _ v Hv Htruthy acc c1 Hcs)).
    rewrite Hk. eexists. split; [reflexivity |].
    match goal with
    | |- context [store_resolution ?l ?acc s] =>
        destruct (store_resolution_fields l acc s)
          as (Hres & Hopts & _);
        destruct (iter_store_contact c1 k (get_resolved_entities s, [], false))
          as (Hstored & Hnone & _)
    end.
    unfold get_disambiguation_options, get_resolved_entities in *.
    rewrite Hopts, Hres, Hnone.
    split; [exact Hstored |].
    intros o Ho. by apply not_elem_of_nil in Ho.
  - cbv zeta. intros names Hnames.
    assert (2 ≤ length (lookup_contacts E (user_id s) v))%nat as Hlen
      by (rewrite Hcs; cbn; lia).
    rewrite <- Hcs in Hnames |- *.
    rewrite (resolve_entities_iter E s _ Hpending
               (λ acc, resolve_one_several E _ _ v Hv Htruthy acc names
                         Hlen Hnames)).
    rewrite Hk. eexists. split; [reflexivity |].
    match goal with
    | |- context [store_resolution ?l ?acc s] =>
        destruct (store_resolution_fields l acc s)
          as (_ & Hopts & Hneeds & _);
        destruct (iter_append_option
                    {| DisambiguationOption.entity := "recipient";
                       DisambiguationOption.query := v;
                       DisambiguationOption.matches :=
                         lookup_contacts E (user_id s) v;
                       DisambiguationOption.message := several_message names |}
                    k (get_resolved_entities s, [], false))
          as (_ & Hmem & Hflag)
    end.
    unfold get_disambiguation_options in *.
    rewrite Hopts, Hneeds, Hflag.
    split; [exact Hmem | reflexivity].
Qed.

Lemma resolve_entities_by_candidates_samples :
  (∃ s',
     resolve_entities offline mom_pending = Ok s'
     ∧ {| DisambiguationOption.entity := "recipient";
          DisambiguationOption.query := VStr "mom";
          DisambiguationOption.matches := [];
          DisambiguationOption.message :=
            "No encontré ningún contacto llamado 'mom'. ¿A quién te referís?" |}
       ∈ get_disambiguation_options s'
     ∧ needs_user_disambiguation s' = Some true
     ∧ get_resolved_entities s' = get_resolved_entities mom_pending)
  ∧ (∃ s',
       resolve_entities with_contacts mom_pending = Ok s'
       ∧ get_resolved_entities s' !! "recipient" = Some (VDict mom)
       ∧ (∀ o, o ∈ get_disambiguation_options s' →
               DisambiguationOption.entity o ≠ "recipient"))
  ∧ (∃ s',
       resolve_entities with_contacts juan_pending = Ok s'
       ∧ {| DisambiguationOption.entity := "recipient";
            DisambiguationOption.query := VStr "juan";
            DisambiguationOption.matches := [juan_perez; juan_gomez];
            DisambiguationOption.message :=
              "Encontré varios contactos: Juan Pérez, Juan Gómez. ¿A cuál te referís?" |}
         ∈ get_disambiguation_options s'
       ∧ needs_user_disambiguation s' = Some true).
Proof.
  assert ("recipient" ∈ get_unresolved_entities mom_pending) as Hmom
    by (vm_compute; constructor).
  assert ("recipient" ∈ get_unresolved_entities juan_pending) as Hjuan
    by (vm_compute; constructor).
  split; [| split].
  - exact (resolve_entities_by_candidates offline mom_pending "recipient"
             (VStr "mom") Hmom eq_refl eq_refl).
  - exact (resolve_entities_by_candidates with_contacts mom_pending
             "recipient" (VStr "mom") Hmom eq_refl eq_refl).
  - exact (resolve_entities_by_candidates with_contacts juan_pending
             "recipient" (VStr "juan") Hjuan eq_refl eq_refl
             ["Juan Pérez"; "Juan Gómez"] eq_refl).
Defined.

(** *** The resolver returns, and what it leaves alone *)

Lemma mapM_contact_name_total (cs : list contact) :
  (∀ c, c ∈ cs → ∃ n, contact_name c = Ok n) →
  ∃ names, mapM contact_name cs = Ok names.
Proof.
  induction cs as [| c cs IH]; intros Hnamed.
  - by exists [].
  - destruct (Hnamed c ltac:(left)) as (n & Hn).
    destruct IH as (names & Hnames).
    { intros c' Hc'. apply Hnamed. by right. }
    exists (n :: names). cbn [mapM]. rewrite Hn. cbn [mbind result_bind].
    rewrite Hnames. reflexivity.
Qed.

Lemma resolve_one_total (E : Env) (uid : option string)
    (ents : gmap string value) (acc : resolution) (slot : string) :
  (∀ q c, c ∈ lookup_contacts E uid q → ∃ n, contact_name c = Ok n) →
  ∃ acc', resolve_one E uid ents acc slot = Ok acc'.
Proof.
  intros Hnamed. unfold resolve_one.
  destruct acc as [[resolved options] needs].
  destruct (ents !! slot) as [v |]; [| by eexists].
  destruct (looked_up slot (Some v)); [| by eexists].
  pose proof (Hnamed v) as Hv.
  destruct (lookup_contacts E uid v) as [| c1 [| c2 cs]];
    [by eexists | by eexists |].
  destruct (mapM_contact_name_total _ Hv) as (names & ->). by eexists.
Qed.

Lemma resolve_loop_total (E : Env) (uid : option string)
    (ents : gmap string value) (unresolved : list string) (acc : resolution) :
  (∀ q c, c ∈ lookup_contacts E uid q → ∃ n, contact_name c = Ok n) →
  ∃ acc', resolve_loop E uid ents unresolved acc = Ok acc'.
Proof.
  intros Hnamed. revert acc.
  induction unresolved as [| slot rest IH]; intros acc; [by eexists |].
  cbn [resolve_loop].
  destruct (resolve_one_total E uid ents acc slot Hnamed) as (acc1 & ->).
  apply IH.
Qed.

Lemma resolve_entities_total (E : Env) (s : AgentState) :
  (∀ q c, c ∈ lookup_contacts E (user_id s) q → ∃ n, contact_name c = Ok n) →
  ∃ s', resolve_entities E s = Ok s'.
Proof.
  intros Hnamed. unfold resolve_entities.
  destruct (get_unresolved_entities s) as [| slot rest]; [by eexists |].
  destruct (resolve_loop_total E (user_id s) (get_entities s) (slot :: rest)
              (get_resolved_entities s, [], false) Hnamed) as (acc & ->).
  by eexists.
Qed.

Lemma resolve_entities_frame (E : Env) (s s' : AgentState) :
  resolve_entities E s = Ok s' →
  entities s' = entities s
  ∧ missing_entities s' = missing_entities s
  ∧ current_intent s' = current_intent s
  ∧ task_status s' = task_status s
  ∧ user_id s' = user_id s.
Proof.
  unfold resolve_entities.
  destruct (get_unresolved_entities s) as [| slot rest].
  - intros [= <-]. by repeat split.
  - intros Hrun. apply bind_Ok in Hrun as (acc & _ & [= <-]).
    destruct (store_resolution_fields (slot :: rest) acc s)
      as (_ & _ & _ & _ & He & Hm & Hi & Ht & Hu).
    by repeat split.
Qed.

(** C7. The resolver returns whenever the candidates' names are text, and
    the state it returns has the [entities] it was given: what it resolves
    goes to [resolved_entities] and nowhere else among the slot values. At
    dispatch the skill is run on the union of the two mappings, in which a
    slot of both has its resolved value and every other slot its value in
    [entities]. *)
Theorem resolve_entities_keeps_entities (E : Env) (s : AgentState) :
  ((∀ q c, c ∈ lookup_contacts E (user_id s) q →
           ∃ n, contact_name c = Ok n) →
   ∃ s', resolve_entities E s = Ok s')
  ∧ (∀ s',
       resolve_entities E s = Ok s' →
       entities s' = entities s
       ∧ (∀ slot,
            merged_entities s' !! slot
            = match get_resolved_entities s' !! slot with
              | Some r => Some r
              | None => get_entities s !! slot
              end)
       ∧ (∀ d skill,
            intent_dict s' = Ok d →
            get_skill E (default "unknown" (IntentData.intent d))
              = Some skill →
            execute_action E s'
            = Ok (record_outcome
                    (execute skill (user_id s') (merged_entities s')) s'))).
Proof.
  split; [apply resolve_entities_total |].
  intros s' Hrun.
  destruct (resolve_entities_frame E s s' Hrun) as (Hents & _).
  split; [exact Hents |]. split.
  - intros slot. rewrite merged_entities_lookup.
    unfold get_entities. by rewrite Hents.
  - intros d skill Hd Hskill.
    rewrite (execute_action_Ok E s' d Hd). by rewrite Hskill.
Qed.

(** ** Routing after CheckSlots *)

Lemma route_after_entity_check_pending (s : AgentState) :
  get_unresolved_entities s ≠ [] →
  route_after_entity_check s = to_resolve.
Proof.
  unfold route_after_entity_check.
  by destruct (get_unresolved_entities s).
Qed.

(** C1 on the code. With a message-send guess that names a recipient and
    no message body, CheckSlots leaves both lists non-empty and the router
    answers [to_resolve], not [to_clarify]: whenever the unresolved list is
    non-empty the router answers [to_resolve], whatever is missing. When
    the lookup then finds one contact, the turn goes on to Dispatch and
    completes with the message body still missing; with the repository's
    lookup, which finds nobody, the question asked is the not-found prompt
    for the recipient and not the catalog question for the message body. *)
Theorem route_after_entity_check_send_to_mom :
  (∃ s1,
     check_entities send_to_mom = Ok s1
     ∧ get_missing_entities s1 = ["message_content"]
     ∧ get_unresolved_entities s1 = ["recipient"]
     ∧ route_after_entity_check s1 = to_resolve)
  ∧ (∀ s, get_unresolved_entities s ≠ [] →
          route_after_entity_check s = to_resolve)
  ∧ (∃ s',
       run_after_intent with_contacts send_to_mom = Ok s'
       ∧ task_status s' = Some COMPLETED
       ∧ get_missing_entities s' = ["message_content"])
  ∧ (∃ s',
       run_after_intent offline send_to_mom = Ok s'
       ∧ task_status s' = Some WAITING_USER_INPUT
       ∧ get_response_text s'
         = "No encontré ningún contacto llamado 'mom'. ¿A quién te referís?"
       ∧ CLARIFICATION_TEMPLATES !! "message_content"
         = Some "¿Qué querés que diga el mensaje?").
Proof.
  split; [| split; [| split]].
  - eexists. split; [reflexivity |]. by repeat split.
  - exact route_after_entity_check_pending.
  - eexists. split; [vm_compute; reflexivity |]. by split.
  - eexists. split; [vm_compute; reflexivity |]. by repeat split.
Qed.

(** ** The counter over a whole turn *)

Lemma keeps_counter_within_limit (s s' : AgentState) :
  keeps_counter s s' → counter_within_limit s → counter_within_limit s'.
Proof.
  intros [Hc Hm]. unfold counter_within_limit, get_clarification_count,
    get_max_clarifications. by rewrite Hc, Hm.
Qed.

Lemma parse_input_keeps_counter (E : Env) (s : AgentState) :
  keeps_counter s (parse_input E s).
Proof.
  unfold parse_input.
  destruct (last_user_message _) as [t |]; [| by split].
  destruct (negb (nonempty t)); by split.
Qed.

Lemma detect_intent_keeps_counter (E : Env) (s : AgentState) :
  keeps_counter s (detect_intent E s).
Proof.
  unfold detect_intent.
  destruct (negb _); [by split |].
  destruct (classify E _ _); by split.
Qed.

Lemma check_entities_keeps_counter (s s' : AgentState) :
  check_entities s = Ok s' → keeps_counter s s'.
Proof.
  unfold check_entities. intros Hrun.
  apply bind_Ok in Hrun as (intent & _ & Hrun).
  destruct (List.filter _ _), (_.*1); injection Hrun as <-; by split.
Qed.

Lemma resolve_entities_keeps_counter (E : Env) (s s' : AgentState) :
  resolve_entities E s = Ok s' → keeps_counter s s'.
Proof.
  unfold resolve_entities.
  destruct (get_unresolved_entities s) as [| slot rest].
  - intros [= <-]. by split.
  - intros Hrun. apply bind_Ok in Hrun as (acc & _ & [= <-]).
    destruct acc as [[resolved options] needs]. by split.
Qed.

Lemma execute_action_keeps_counter (E : Env) (s s' : AgentState) :
  execute_action E s = Ok s' → keeps_counter s s'.
Proof.
  unfold execute_action. intros Hrun.
  apply bind_Ok in Hrun as (intent & _ & [= <-]).
  destruct (get_skill E intent) as [skill |]; [| by split].
  destruct (execute skill _ _); by split.
Qed.

Lemma execute_system_command_keeps_counter (E : Env) (s s' : AgentState) :
  execute_system_command E s = Ok s' → keeps_counter s s'.
Proof.
  unfold execute_system_command. intros Hrun.
  apply bind_Ok in Hrun as (d & _ & Hrun).
  apply bind_Ok in Hrun as (app_name & _ & [= <-]). by split.
Qed.

Lemma generate_response_keeps_counter (E : Env) (s s' : AgentState) :
  generate_response E s = Ok s' → keeps_counter s s'.
Proof.
  unfold generate_response.
  destruct (nonempty (get_response_text s)).
  - intros [= <-]. by split.
  - intros Hrun. apply bind_Ok in Hrun as (intent & _ & [= <-]). by split.
Qed.

Lemma clarify_within_limit (E : Env) (s : AgentState) :
  counter_within_limit s → counter_within_limit (clarify E s).
Proof.
  intros [Hlow Hhigh].
  destruct (Z_lt_le_dec (get_clarification_count s) (get_max_clarifications s))
    as [Hlt | Hle].
  - rewrite (clarify_below_limit E s Hlt).
    unfold counter_within_limit. read_state. lia.
  - rewrite (clarify_at_limit E s Hle).
    unfold counter_within_limit. read_state. lia.
Qed.

Lemma cancel_task_within_limit (s : AgentState) :
  counter_within_limit s → counter_within_limit (cancel_task s).
Proof.
  intros [Hlow Hhigh]. unfold counter_within_limit, cancel_task.
  read_state. lia.
Qed.

Lemma reduce_keeps_counter (a b : AgentState) :
  keeps_counter a b → keeps_counter a (reduce a b).
Proof.
  intros [Hc Hm]. unfold keeps_counter.
  by rewrite reduce_clarification_count, reduce_max_clarifications.
Qed.

Lemma reduce_within_limit (a b : AgentState) :
  counter_within_limit b → counter_within_limit (reduce a b).
Proof.
  unfold counter_within_limit, get_clarification_count,
    get_max_clarifications.
  by rewrite reduce_clarification_count, reduce_max_clarifications.
Qed.

Lemma step_keeps_counter (node : AgentState → result AgentState)
    (s s' : AgentState) :
  (∀ a b, node a = Ok b → keeps_counter a b) →
  step node s = Ok s' → keeps_counter s s'.
Proof.
  intros Hnode Hrun. apply step_Ok in Hrun as (t & Hrun & ->).
  apply reduce_keeps_counter, Hnode, Hrun.
Qed.

Lemma step_within_limit (node : AgentState → result AgentState)
    (s s' : AgentState) :
  (∀ a b, node a = Ok b → keeps_counter a b) →
  step node s = Ok s' → counter_within_limit s → counter_within_limit s'.
Proof.
  intros Hnode Hrun. apply keeps_counter_within_limit.
  exact (step_keeps_counter node s s' Hnode Hrun).
Qed.

Lemma run_after_entity_check_within_limit (E : Env) (s s' : AgentState) :
  run_after_entity_check E s = Ok s' →
  counter_within_limit s → counter_within_limit s'.
Proof.
  unfold run_after_entity_check. intros Hrun Hs.
  assert (∀ t, counter_within_limit t →
               step (generate_response E) (pure_step (clarify E) t) = Ok s' →
               counter_within_limit s') as Hclarify.
  { intros t Ht Hr.
    eapply step_within_limit;
      [exact (generate_response_keeps_counter E) | exact Hr |].
    by apply reduce_within_limit, clarify_within_limit. }
  assert (∀ t, counter_within_limit t →
               step (execute_action E) t ≫= step (generate_response E)
                 = Ok s' →
               counter_within_limit s') as Hexecute.
  { intros t Ht Hr. apply bind_Ok in Hr as (t1 & Hx & Hr).
    eapply step_within_limit;
      [exact (generate_response_keeps_counter E) | exact Hr |].
    eapply step_within_limit;
      [exact (execute_action_keeps_counter E) | exact Hx | exact Ht]. }
  destruct (route_after_entity_check s).
  - apply bind_Ok in Hrun as (s1 & Hres & Hrun).
    pose proof (step_within_limit _ _ _
                  (resolve_entities_keeps_counter E) Hres Hs) as Hs1.
    destruct (route_after_resolve s1); eauto.
  - eauto.
  - eauto.
Qed.

Lemma classified_keeps_counter (E : Env) (s : AgentState) :
  keeps_counter s (classified E s).
Proof.
  unfold classified, pure_step, enter.
  destruct (parse_input_keeps_counter E
              (set_messages ([] ++ get_messages s) s)) as [Hc Hm].
  match goal with
  | |- keeps_counter _ (reduce ?a (detect_intent E ?b)) =>
      destruct (detect_intent_keeps_counter E b) as [Hc' Hm'];
      assert (keeps_counter (set_messages ([] ++ get_messages s) s) b)
        as [Hc1 Hm1]
        by (apply reduce_keeps_counter; by split)
  end.
  unfold keeps_counter.
  rewrite reduce_clarification_count, reduce_max_clarifications.
  rewrite Hc', Hm', Hc1, Hm1. by split.
Qed.

(** Every turn of the graph keeps the counter between zero and the
    maximum, so the counter never exceeds the maximum in a session that
    starts from [create_initial_state]. *)
Lemma run_graph_within_limit (E : Env) (s s' : AgentState) :
  run_graph E s = Ok s' →
  counter_within_limit s → counter_within_limit s'.
Proof.
  unfold run_graph, run_after_intent. intros Hrun Hs.
  pose proof (keeps_counter_within_limit _ _ (classified_keeps_counter E s) Hs)
    as Hd.
  destruct (route_after_intent _).
  - apply bind_Ok in Hrun as (s1 & Hchk & Hrun).
    eapply run_after_entity_check_within_limit; [exact Hrun |].
    eapply step_within_limit; [| exact Hchk | exact Hd].
    exact check_entities_keeps_counter.
  - eapply step_within_limit;
      [exact (generate_response_keeps_counter E) | exact Hrun |].
    by apply reduce_within_limit, cancel_task_within_limit.
  - apply bind_Ok in Hrun as (s1 & Hx & Hrun).
    eapply step_within_limit;
      [exact (generate_response_keeps_counter E) | exact Hrun |].
    eapply step_within_limit;
      [exact (execute_action_keeps_counter E) | exact Hx |].
    by apply reduce_within_limit.
  - eapply step_within_limit;
      [exact (generate_response_keeps_counter E) | exact Hrun | exact Hd].
  - apply bind_Ok in Hrun as (s1 & Hx & Hrun).
    eapply step_within_limit;
      [exact (generate_response_keeps_counter E) | exact Hrun |].
    eapply step_within_limit;
      [exact (execute_system_command_keeps_counter E) | exact Hx | exact Hd].
Qed.

Lemma create_initial_state_within_limit (uid sid : string) :
  counter_within_limit (create_initial_state uid sid).
Proof. unfold counter_within_limit. cbn. lia. Qed.

(** * Further properties of the nodes *)

(** ** Normalize *)

Lemma prefix_append (pat t : string) :
  String.prefix pat t = true ↔ ∃ post, t = pat +:+ post.
Proof.
  revert t. induction pat as [| a pat IH]; intros t.
  - split; [intros _; by exists t | intros _; by destruct t].
  - destruct t as [| b t]; cbn [String.prefix String.append].
    + split; [discriminate | intros (post & Hpost); discriminate].
    + destruct (Ascii.ascii_dec a b) as [-> | Hab].
      * rewrite IH. split.
        -- intros (post & ->). by exists post.
        -- intros (post & [= ->]). by exists post.
      * split; [discriminate |]. intros (post & [= Heq _]). by destruct Hab.
Qed.

Lemma contains_infix (pat t : string) :
  contains pat t = true ↔ ∃ pre post, t = pre +:+ pat +:+ post.
Proof.
  induction t as [| c t IH].
  - cbn [contains]. rewrite orb_false_r, prefix_append. split.
    + intros (post & ->). by exists "", post.
    + intros ([| c pre] & post & Heq); [by exists post | discriminate].
  - cbn [contains]. rewrite orb_true_iff, prefix_append, IH. split.
    + intros [(post & ->) | (pre & post & ->)].
      * by exists "", post.
      * by exists (String c pre), post.
    + intros ([| c' pre] & post & Heq).
      * left. by exists post.
      * right. injection Heq as <- ->. by exists pre, post.
Qed.

Lemma find_skip {A : Type} (f : A → bool) (l1 l2 : list A) :
  (∀ x, x ∈ l1 → f x = false) → List.find f (l1 ++ l2) = List.find f l2.
Proof.
  induction l1 as [| x l1 IH]; intros Hskip; [reflexivity |].
  cbn [app List.find]. rewrite (Hskip x) by left.
  apply IH. intros y Hy. apply Hskip. by right.
Qed.

Lemma last_user_message_latest (before after : list Message.t)
    (m : Message.t) :
  Message.role m = user →
  (∀ x, x ∈ after → Message.role x ≠ user) →
  last_user_message (before ++ m :: after) = Some (Message.content m).
Proof.
  intros Hm Hafter. unfold last_user_message.
  rewrite reverse_app, reverse_cons, <- app_assoc.
  rewrite find_skip.
  - cbn [app List.find]. by rewrite Hm.
  - intros x Hx. rewrite elem_of_reverse in Hx.
    specialize (Hafter x Hx). by destruct (Message.role x).
Qed.

Lemma last_user_message_none (msgs : list Message.t) :
  (∀ x, x ∈ msgs → Message.role x ≠ user) →
  last_user_message msgs = None.
Proof.
  intros Hnone. unfold last_user_message.
  rewrite <- (app_nil_r (reverse msgs)), find_skip; [reflexivity |].
  intros x Hx. rewrite elem_of_reverse in Hx.
  specialize (Hnone x Hx). by destruct (Message.role x).
Qed.

(** X1. Normalize reads the latest user turn, wherever it stands among the
    replies: [current_input] becomes its stripped text, the turn counter
    grows by one and the conversation is left as it is. The language tag is
    ["en"] exactly when the lowered text has one of the eight marker
    patterns as a substring, and ["es"] otherwise. *)
Theorem parse_input_latest_user_turn (E : Env) (s : AgentState)
    (before after : list Message.t) (m : Message.t) :
  get_messages s = before ++ m :: after →
  Message.role m = user →
  (∀ x, x ∈ after → Message.role x ≠ user) →
  Message.content m ≠ "" →
  let s' := parse_input E s in
  let text := py_strip E (Message.content m) in
  current_input s' = Some text
  ∧ turn_count s' = Some (default 0 (turn_count s) + 1)
  ∧ messages s' = messages s
  ∧ (input_language s' = Some "en" ∨ input_language s' = Some "es")
  ∧ (input_language s' = Some "en" ↔
     ∃ pat pre post,
       pat ∈ english_patterns ∧ py_lower E text = pre +:+ pat +:+ post).
Proof.
  intros Hmsgs Hm Hafter Hcontent s' text. subst s'. unfold parse_input.
  rewrite Hmsgs, (last_user_message_latest before after m Hm Hafter).
  apply nonempty_true in Hcontent. rewrite Hcontent. cbn [negb].
  fold text. read_state.
  split; [reflexivity |]. split; [reflexivity |]. split; [reflexivity |].
  destruct (existsb _ english_patterns) eqn:Hany.
  - split; [by left |]. split; [intros _ | reflexivity].
    apply existsb_exists in Hany as (pat & Hin & Hpat).
    apply contains_infix in Hpat as (pre & post & Hpat).
    exists pat, pre, post. split; [by apply list_elem_of_In | exact Hpat].
  - split; [by right |]. split; [discriminate |].
    intros (pat & pre & post & Hin & Hpat). exfalso.
    assert (existsb (λ pat, contains pat (py_lower E text)) english_patterns
            = true) as Hyes.
    { apply existsb_exists. exists pat. split.
      - by apply list_elem_of_In.
      - apply contains_infix. by exists pre, post. }
    congruence.
Qed.

Lemma parse_input_latest_user_turn_greeted :
  current_input (parse_input offline greeted) = Some "hello there"
  ∧ turn_count (parse_input offline greeted) = Some 1
  ∧ input_language (parse_input offline greeted) = Some "en".
Proof.
  destruct (parse_input_latest_user_turn offline greeted
              [said user "mandale un mensaje a juan";
               said assistant "¿Qué querés que diga el mensaje?"]
              [said assistant "¡Hola!"]
              (said user "hello there"))
    as (Hinput & Hturn & _ & _ & Hen).
  - reflexivity.
  - reflexivity.
  - intros x Hx. apply list_elem_of_singleton in Hx as ->. discriminate.
  - discriminate.
  - split; [exact Hinput |]. split; [exact Hturn |].
    apply Hen. exists "hello", "", " there".
    split; [constructor | reflexivity].
Defined.

(** X2. Normalize does nothing at all when the conversation has no user
    turn, and also when the latest user turn is empty: the state comes back
    as it was, with the [current_input] and the turn counter of the turn
    before. *)
Theorem parse_input_noop (E : Env) (s : AgentState) :
  (∀ x, x ∈ get_messages s → Message.role x ≠ user)
  ∨ (∃ before m after,
       get_messages s = before ++ m :: after
       ∧ Message.role m = user
       ∧ (∀ x, x ∈ after → Message.role x ≠ user)
       ∧ Message.content m = "") →
  parse_input E s = s.
Proof.
  intros [Hnone | (before & m & after & Hmsgs & Hm & Hafter & Hempty)];
    unfold parse_input.
  - by rewrite (last_user_message_none _ Hnone).
  - rewrite Hmsgs, (last_user_message_latest before after m Hm Hafter).
    by rewrite Hempty.
Qed.

Lemma parse_input_noop_fell_silent :
  parse_input offline fell_silent = fell_silent
  ∧ current_input (parse_input offline fell_silent) = Some "hola".
Proof.
  assert (parse_input offline fell_silent = fell_silent) as Hsame.
  { apply parse_input_noop. right.
    exists [said user "hola"; said assistant "¡Hola!"], (said user ""), [].
    split; [reflexivity |]. split; [reflexivity |].
    split; [| reflexivity].
    intros x Hx. by apply not_elem_of_nil in Hx. }
  split; [exact Hsame |]. rewrite Hsame. reflexivity.
Defined.

(** ** Classify *)

Lemma last_n_length {A : Type} (n : nat) (l : list A) :
  (length (last_n n l) ≤ n)%nat.
Proof. unfold last_n. rewrite length_drop. lia. Qed.

Lemma last_n_suffix {A : Type} (n : nat) (l : list A) :
  last_n n l `suffix_of` l.
Proof. apply suffix_drop. Qed.

Lemma last_n_all {A : Type} (n : nat) (l : list A) :
  (length l ≤ n)%nat → last_n n l = l.
Proof.
  intros Hshort. unfold last_n.
  by replace (length l - n)%nat with 0%nat by lia.
Qed.

(** X3. The classifier is shown at most the ten latest messages: two
    classifiers that agree on every context of at most ten messages taken
    from the end of the conversation give the same state, whatever they
    would answer to a longer history. *)
Theorem detect_intent_context_bound (E1 E2 : Env) (s : AgentState) :
  (∀ context input,
     (length context ≤ 10)%nat →
     context `suffix_of` get_messages s →
     classify E1 context input = classify E2 context input) →
  detect_intent E1 s = detect_intent E2 s.
Proof.
  intros Hagree. unfold detect_intent.
  destruct (negb _); [reflexivity |].
  by rewrite (Hagree _ _ (last_n_length 10 _) (last_n_suffix 10 _)).
Qed.

Lemma detect_intent_context_bound_greeted :
  detect_intent offline (parse_input offline greeted)
  = detect_intent wants_long_context (parse_input offline greeted).
Proof.
  apply detect_intent_context_bound.
  intros context input Hshort _. cbn [classify wants_long_context offline].
  by rewrite (proj2 (Nat.leb_le _ _) Hshort).
Defined.

(** ** Compose, when it has to build the reply *)

Lemma generate_response_compose (E : Env) (s : AgentState)
    (d : IntentData.t) :
  get_response_text s = "" →
  intent_dict s = Ok d →
  generate_response E s
  = Ok (set_messages
          (get_messages s ++
             [assistant_says
                (composed_reply E s (default "unknown" (IntentData.intent d)))])
          (set_should_speak true
            (set_response_text
               (composed_reply E s (default "unknown" (IntentData.intent d)))
               s))).
Proof.
  intros Hempty Hd. unfold generate_response.
  rewrite Hempty. cbn [nonempty String.eqb negb].
  rewrite (intent_name_Ok "unknown" s d Hd). reflexivity.
Qed.

(** ** The registry *)

Lemma SKILLS_lookup (str : value → string) (intent : string) (sk : Skill) :
  SKILLS str !! intent = Some sk →
  intent ∈ skilled_intents
  ∧ name sk = intent
  ∧ REQUIRED_ENTITIES !! intent = Some (required_entities sk)
  ∧ ∀ uid ents,
      ∃ r m,
        execute sk uid ents = Returned r
        ∧ ActionResult.success r = Some true
        ∧ ActionResult.message r = Some m
        ∧ m ≠ "".
Proof.
  intros Hsk. unfold SKILLS in Hsk.
  apply elem_of_list_to_map_2 in Hsk.
  repeat (apply elem_of_cons in Hsk as [[= -> ->] | Hsk]);
    [.. | by apply not_elem_of_nil in Hsk];
    (split; [set_solver |]); (split; [reflexivity |]);
    (split; [reflexivity |]);
    intros uid ents; eexists _, _;
    (split; [reflexivity |]); (split; [reflexivity |]);
    (split; [reflexivity |]); discriminate.
Qed.

Lemma SKILLS_lookup_None (str : value → string) (intent : string) :
  intent ∉ skilled_intents → SKILLS str !! intent = None.
Proof.
  intros Hnot. unfold SKILLS. apply not_elem_of_list_to_map_1.
  exact Hnot.
Qed.

(** ** Dispatch with the repository's registry *)

(** X4. With the registry [SKILLS], what Dispatch ends in is decided by the
    intent's name alone. For the five intents of the registry it ends
    [COMPLETED] with no error and a non-empty message from the skill,
    whatever the slot values are, none included: no skill checks its
    entities. For every other intent it ends [FAILED] with the no-handler
    error. *)
Theorem dispatch_completes_iff_registered (E : Env) (s : AgentState)
    (d : IntentData.t) :
  (∀ i, get_skill E i = registered_skill (py_str E) i) →
  intent_dict s = Ok d →
  let intent := default "unknown" (IntentData.intent d) in
  ∃ s',
    execute_action E s = Ok s'
    ∧ (intent ∈ skilled_intents →
       task_status s' = Some COMPLETED
       ∧ action_error s' = Some None
       ∧ ∃ r m, action_result s' = Some (Some r)
                ∧ ActionResult.message r = Some m ∧ m ≠ "")
    ∧ (intent ∉ skilled_intents →
       task_status s' = Some FAILED
       ∧ action_error s'
         = Some (Some ("No handler for intent: " +:+ intent))).
Proof.
  intros Hreg Hd intent. subst intent.
  eexists. split; [exact (execute_action_Ok E s d Hd) |].
  rewrite Hreg. unfold registered_skill.
  destruct (SKILLS (py_str E) !! _) as [sk |] eqn:Hsk.
  - destruct (SKILLS_lookup _ _ _ Hsk) as (Hin & _ & _ & Hruns).
    destruct (Hruns (user_id s) (merged_entities s))
      as (r & m & Hr & Hsucc & Hmsg & Hm).
    rewrite Hr. unfold record_outcome. rewrite Hsucc.
    split; [| by intros Hnot].
    intros _. split; [reflexivity |]. split; [reflexivity |].
    by exists r, m.
  - split; [| by intros _].
    intros Hin. exfalso.
    unfold skilled_intents in Hin.
    repeat (apply elem_of_cons in Hin as [Hin | Hin];
            [rewrite Hin in Hsk; discriminate |]).
    by apply not_elem_of_nil in Hin.
Qed.

Lemma dispatch_completes_iff_registered_send_to_nobody :
  ∃ s',
    execute_action offline send_to_nobody = Ok s'
    ∧ task_status s' = Some COMPLETED
    ∧ action_error s' = Some None.
Proof.
  destruct (dispatch_completes_iff_registered offline send_to_nobody
              (guess "send_message" {["recipient" := VStr ""]})
              (λ i, eq_refl) eq_refl)
    as (s' & Hrun & Hyes & _).
  exists s'. split; [exact Hrun |].
  destruct Hyes as (Hdone & Herr & _).
  - unfold skilled_intents. set_solver.
  - by split.
Defined.

Lemma route_to_confirm (s : AgentState) :
  route_after_intent s = to_confirm →
  ∃ d, current_intent s = Some (Some d)
       ∧ IntentData.intent d = Some "confirm".
Proof.
  unfold route_after_intent.
  destruct (current_intent s) as [[d |] |]; [| discriminate ..].
  destruct (IntentData.intent d) as [i |] eqn:Hi; [| discriminate].
  cbn [from_option id].
  destruct (String.eqb_spec i "cancel"); [discriminate |].
  destruct (String.eqb_spec i "confirm") as [-> |].
  - intros _. by exists d.
  - destruct (String.eqb_spec i "open_app"); [discriminate |].
    by case_bool_decide.
Qed.

(** X5. With the registry [SKILLS], a confirmation never runs anything: the
    guess that said "confirm" is by then the current intent, no skill has
    that name, and the turn ends [FAILED] with the no-handler error for
    ["confirm"], which is also what the reply says when none was set. *)
Theorem confirm_finds_no_handler (E : Env) (s : AgentState) :
  (∀ i, get_skill E i = registered_skill (py_str E) i) →
  route_after_intent s = to_confirm →
  ∃ s',
    run_after_intent E s = Ok s'
    ∧ task_status s' = Some FAILED
    ∧ action_error s' = Some (Some "No handler for intent: confirm")
    ∧ (get_response_text s = "" →
       get_response_text s' = apology "No handler for intent: confirm").
Proof.
  intros Hreg Hroute.
  destruct (route_to_confirm s Hroute) as (d & Hd & Hname).
  set (c := pure_step confirm_action s).
  assert (current_intent c = Some (Some d)) as Hc
    by (unfold c, pure_step; by rewrite reduce_current_intent).
  assert (get_response_text c = get_response_text s) as Htext
    by (unfold c, pure_step; by rewrite reduce_get_response_text).
  assert (intent_dict c = Ok d) as Hdict by (unfold intent_dict; by rewrite Hc).
  assert (execute_action E c = Ok (no_handler "confirm" c)) as Hrun.
  { rewrite (execute_action_Ok E _ d Hdict), Hname. cbn [from_option id].
    by rewrite Hreg. }
  unfold run_after_intent. rewrite Hroute. fold c.
  rewrite (step_of_Ok _ _ _ Hrun). cbn [mbind result_bind].
  set (s1 := reduce c (no_handler "confirm" c)).
  assert (intent_dict s1 = Ok d) as Hdict1
    by (unfold s1; rewrite reduce_intent_dict; exact Hdict).
  assert (get_response_text s1 = get_response_text s) as Htext1
    by (unfold s1; rewrite reduce_get_response_text; exact Htext).
  assert (task_status s1 = Some FAILED) as Hfail
    by (unfold s1; by rewrite reduce_task_status).
  assert (action_error s1 = Some (Some "No handler for intent: confirm"))
    as Herr by (unfold s1; by rewrite reduce_action_error).
  destruct (nonempty (get_response_text s)) eqn:Hset.
  - exists (reduce s1 s1). split.
    + apply step_of_Ok, generate_response_set. by rewrite Htext1.
    + rewrite reduce_task_status, reduce_action_error.
      split; [exact Hfail |]. split; [exact Herr |].
      intros Hempty. rewrite Hempty in Hset. discriminate.
  - assert (get_response_text s = "") as Hempty.
    { destruct (String.eqb_spec (get_response_text s) "") as [Heq | Hne];
        [exact Heq |].
      apply nonempty_true in Hne. congruence. }
    rewrite <- Htext1 in Hempty.
    eexists. split;
      [exact (step_of_Ok _ _ _
                (generate_response_compose E s1 d Hempty Hdict1)) |].
    rewrite reduce_task_status, reduce_action_error,
      reduce_get_response_text.
    split; [exact Hfail |]. split; [exact Herr |].
    intros _. rewrite Hname.
    cbn [get_response_text response_text set_messages set_should_speak
         set_response_text default from_option id].
    unfold composed_reply, get_action_error. rewrite Hfail, Herr.
    reflexivity.
Qed.

Lemma confirm_finds_no_handler_confirming :
  ∃ s',
    run_after_intent offline confirming = Ok s'
    ∧ task_status s' = Some FAILED
    ∧ get_response_text s'
      = "Ups, hubo un problema: No handler for intent: confirm. ¿Querés que lo intente de nuevo?".
Proof.
  destruct (confirm_finds_no_handler offline confirming (λ i, eq_refl) eq_refl)
    as (s' & Hrun & Hfail & _ & Hreply).
  exists s'. split; [exact Hrun |]. split; [exact Hfail |].
  exact (Hreply eq_refl).
Defined.

(** X6. What Dispatch and Compose leave as the reply when none was set. No
    skill: the apology around the no-handler error. A skill that raises: the
    apology around the fault's text. A skill that returns success: its
    message, or the intent's canned phrase when it has none. A skill that
    returns without success: the apology around "Algo salió mal", since
    [action_error] is cleared and the result's own error text is not
    read. *)
Theorem dispatch_reply (E : Env) (s : AgentState) (d : IntentData.t) :
  intent_dict s = Ok d →
  get_response_text s = "" →
  let intent := default "unknown" (IntentData.intent d) in
  ∃ s',
    execute_action E s ≫= generate_response E = Ok s'
    ∧ get_response_text s'
      = match get_skill E intent with
        | None => apology ("No handler for intent: " +:+ intent)
        | Some skill =>
            match execute skill (user_id s) (merged_entities s) with
            | Raised err =>
                apology (if nonempty err then err else "Algo salió mal")
            | Returned r =>
                if default false (ActionResult.success r)
                then generate_success_response intent r
                else apology "Algo salió mal"
            end
        end.
Proof.
  intros Hd Hempty intent. subst intent.
  rewrite (execute_action_Ok E s d Hd). cbn [mbind result_bind].
  match goal with
  | |- context [generate_response E ?t] => set (s1 := t)
  end.
  assert (intent_dict s1 = Ok d ∧ get_response_text s1 = "") as [Hd1 Hempty1].
  { subst s1. destruct (get_skill E _) as [skill |]; [| by split].
    destruct (execute skill _ _); by split. }
  eexists. split; [exact (generate_response_compose E s1 d Hempty1 Hd1) |].
  read_state. subst s1.
  destruct (get_skill E _) as [skill |]; [| reflexivity].
  destruct (execute skill _ _) as [r | err]; [| reflexivity].
  unfold record_outcome, composed_reply.
  destruct (ActionResult.success r) as [[|] |] eqn:Hsucc;
    cbn [from_option id]; read_state;
    unfold get_action_result, get_action_error; read_state;
    cbn [mjoin option_join mbind option_bind]; try reflexivity.
  unfold ActionResult.nonempty. rewrite Hsucc. reflexivity.
Qed.

Lemma dispatch_reply_send_to_juan :
  ∃ s',
    execute_action offline send_to_juan ≫= generate_response offline = Ok s'
    ∧ get_response_text s' = "Mensaje enviado a juan por whatsapp".
Proof.
  exact (dispatch_reply offline send_to_juan
           (guess "send_message"
              (<["message_content" := VStr "llego tarde"]>
                 {["recipient" := VStr "juan"]}))
           eq_refl eq_refl).
Defined.

(** ** CheckSlots, once more *)

Lemma check_entities_Ok (s : AgentState) (d : IntentData.t) :
  intent_dict s = Ok d →
  let missing :=
    List.filter (slot_missing (get_entities s))
      (default []
         (REQUIRED_ENTITIES !! default "unknown" (IntentData.intent d))) in
  let unresolved :=
    match get_entities s !! "recipient" with
    | Some (VStr _) => ["recipient"]
    | _ => []
    end in
  check_entities s
  = Ok (set_task_status
          match missing, unresolved with
          | [], [] => READY_TO_EXECUTE
          | _, _ => NEEDS_CLARIFICATION
          end
          (set_unresolved_entities unresolved
            (set_missing_entities missing s))).
Proof.
  intros Hd missing unresolved. unfold check_entities.
  rewrite (intent_name_Ok "unknown" s d Hd). cbn [mbind result_bind].
  rewrite (needs_resolution_recipient (get_entities s)).
  fold missing. fold unresolved.
  by destruct missing, unresolved.
Qed.

(** X7. A skill's own [validate_entities] and CheckSlots agree: for the
    skill registered under the session's intent, the list it reports is the
    [missing_entities] CheckSlots stores, and it answers true exactly when
    that list is empty, that is when every required slot holds a truthy
    value. *)
Theorem validate_entities_agrees_with_check_entities
    (str : value → string) (s : AgentState) (d : IntentData.t) (sk : Skill) :
  intent_dict s = Ok d →
  SKILLS str !! default "unknown" (IntentData.intent d) = Some sk →
  ∃ s',
    check_entities s = Ok s'
    ∧ (validate_entities sk (get_entities s)).2 = get_missing_entities s'
    ∧ ((validate_entities sk (get_entities s)).1 = true
       ↔ get_missing_entities s' = [])
    ∧ ((validate_entities sk (get_entities s)).1 = true
       ↔ ∀ slot, slot ∈ required_entities sk →
                 truthy_get (get_entities s !! slot) = true).
Proof.
  intros Hd Hsk.
  destruct (SKILLS_lookup _ _ _ Hsk) as (_ & _ & Hreq & _).
  eexists. split; [exact (check_entities_Ok s d Hd) |].
  rewrite Hreq. read_state. fold (get_entities s).
  unfold validate_entities. cbn [fst snd].
  split; [reflexivity |].
  assert (∀ l : list string, bool_decide (length l = 0%nat) = true ↔ l = [])
    as Hnil.
  { intros l. rewrite bool_decide_eq_true. by destruct l. }
  split; [apply Hnil |].
  rewrite Hnil. split.
  - intros Hnone slot Hslot.
    destruct (truthy_get (get_entities s !! slot)) eqn:Hv; [reflexivity |].
    exfalso. apply (not_elem_of_nil slot). rewrite <- Hnone.
    apply list_elem_of_In, filter_In. split; [by apply list_elem_of_In |].
    unfold slot_missing. by rewrite Hv.
  - intros Hall.
    destruct (List.filter _ _) as [| slot rest] eqn:Hf; [reflexivity |].
    exfalso.
    assert (In slot (List.filter (slot_missing (get_entities s))
                       (required_entities sk))) as Hin
      by (rewrite Hf; by left).
    apply filter_In in Hin as [Hin Hmiss].
    unfold slot_missing in Hmiss.
    rewrite (Hall slot) in Hmiss by (by apply list_elem_of_In).
    discriminate.
Qed.

Lemma validate_entities_agrees_with_check_entities_send_to_mom :
  ∃ s',
    check_entities send_to_mom = Ok s'
    ∧ (validate_entities (MessageSkill (py_str offline))
         (get_entities send_to_mom)).2 = get_missing_entities s'
    ∧ get_missing_entities s' = ["message_content"].
Proof.
  destruct (validate_entities_agrees_with_check_entities (py_str offline)
              send_to_mom
              (guess "send_message" {["recipient" := VStr "mom"]})
              (MessageSkill (py_str offline)) eq_refl eq_refl)
    as (s' & Hrun & Hlist & _).
  exists s'. split; [exact Hrun |]. split; [exact Hlist |].
  rewrite <- Hlist. reflexivity.
Defined.

Lemma intent_name_Ok_inv (dflt : string) (s : AgentState) (i : string) :
  intent_name dflt s = Ok i →
  ∃ d, intent_dict s = Ok d ∧ i = default dflt (IntentData.intent d).
Proof.
  unfold intent_name. intros Hrun.
  apply bind_Ok in Hrun as (d & Hd & [= <-]). by exists d.
Qed.

Lemma check_entities_intent (s s' : AgentState) :
  check_entities s = Ok s' → ∃ d, intent_dict s = Ok d.
Proof.
  unfold check_entities. intros Hrun.
  apply bind_Ok in Hrun as (i & Hi & _).
  destruct (intent_name_Ok_inv _ _ _ Hi) as (d & Hd & _). by exists d.
Qed.

(** X8. CheckSlots is idempotent: run on the state it has just returned, it
    returns that state again. What it stores depends on the intent and the
    slot values only, and it changes neither. *)
Theorem check_entities_idempotent (s s' : AgentState) :
  check_entities s = Ok s' → check_entities s' = Ok s'.
Proof.
  intros Hrun.
  destruct (check_entities_intent s s' Hrun) as (d & Hd).
  rewrite (check_entities_Ok s d Hd) in Hrun. injection Hrun as <-.
  match goal with
  | |- check_entities ?t = _ =>
      assert (intent_dict t = Ok d) as Hd' by exact Hd;
      rewrite (check_entities_Ok t d Hd')
  end.
  reflexivity.
Qed.

Lemma check_entities_idempotent_send_to_mom :
  ∃ s',
    check_entities send_to_mom = Ok s' ∧ check_entities s' = Ok s'.
Proof.
  set (s' := set_task_status NEEDS_CLARIFICATION
               (set_unresolved_entities ["recipient"]
                  (set_missing_entities ["message_content"] send_to_mom))).
  assert (check_entities send_to_mom = Ok s') as Hrun by reflexivity.
  exists s'. split; [exact Hrun |].
  exact (check_entities_idempotent send_to_mom s' Hrun).
Defined.

(** X9. The status CheckSlots stores and the route taken after it go
    together: [READY_TO_EXECUTE] exactly when the route is Dispatch, and
    [NEEDS_CLARIFICATION] on the two other routes. The route is Resolve
    exactly when the recipient slot holds a string, and Clarify exactly
    when it does not and a required slot is missing. *)
Theorem check_entities_status_and_route (s s' : AgentState) :
  check_entities s = Ok s' →
  (task_status s' = Some READY_TO_EXECUTE
   ↔ route_after_entity_check s' = to_execute)
  ∧ (task_status s' = Some NEEDS_CLARIFICATION
     ↔ route_after_entity_check s' ≠ to_execute)
  ∧ (route_after_entity_check s' = to_resolve
     ↔ ∃ t, get_entities s !! "recipient" = Some (VStr t))
  ∧ (route_after_entity_check s' = to_clarify
     ↔ get_missing_entities s' ≠ []
       ∧ ¬ ∃ t, get_entities s !! "recipient" = Some (VStr t)).
Proof.
  intros Hrun.
  destruct (check_entities_intent s s' Hrun) as (d & Hd).
  rewrite (check_entities_Ok s d Hd) in Hrun. injection Hrun as <-.
  unfold route_after_entity_check. read_state. fold (get_entities s).
  destruct (List.filter _ _) as [| m ms];
    destruct (get_entities s !! "recipient") as [[] |];
    repeat split; try done; try (intros [t [=]]); try (by eexists);
    try (intros [_ Hno]; exfalso; apply Hno; by eexists);
    try (intros [Hno _]; done).
Qed.

Lemma check_entities_status_and_route_send_to_juan :
  ∃ s',
    check_entities send_to_juan = Ok s'
    ∧ task_status s' = Some NEEDS_CLARIFICATION
    ∧ route_after_entity_check s' = to_resolve.
Proof.
  set (s' := set_task_status NEEDS_CLARIFICATION
               (set_unresolved_entities ["recipient"]
                  (set_missing_entities [] send_to_juan))).
  assert (check_entities send_to_juan = Ok s') as Hrun by reflexivity.
  exists s'. split; [exact Hrun |].
  destruct (check_entities_status_and_route send_to_juan s' Hrun)
    as (_ & Hneeds & Hresolve & _).
  assert (route_after_entity_check s' = to_resolve) as Hroute
    by (apply Hresolve; by exists "juan").
  split; [| exact Hroute].
  apply Hneeds. rewrite Hroute. discriminate.
Defined.

(** ** Clarify after CheckSlots *)

Lemma required_slot_has_template (intent slot : string)
    (required : list string) :
  REQUIRED_ENTITIES !! intent = Some required →
  slot ∈ required →
  ∃ q, CLARIFICATION_TEMPLATES !! slot = Some q ∧ q ≠ "".
Proof.
  intros Hreq Hslot. unfold REQUIRED_ENTITIES in Hreq.
  apply elem_of_list_to_map_2 in Hreq.
  repeat (apply elem_of_cons in Hreq as [[= -> ->] | Hreq]);
    [.. | by apply not_elem_of_nil in Hreq];
    repeat (apply elem_of_cons in Hslot as [-> | Hslot];
            [eexists; split; [reflexivity | discriminate] |]);
    by apply not_elem_of_nil in Hslot.
Qed.

Lemma missing_slot_has_template (s : AgentState) (d : IntentData.t)
    (slot : string) :
  slot ∈ List.filter (slot_missing (get_entities s))
           (default []
              (REQUIRED_ENTITIES !! default "unknown" (IntentData.intent d))) →
  ∃ q, CLARIFICATION_TEMPLATES !! slot = Some q ∧ q ≠ "".
Proof.
  intros Hslot. apply list_elem_of_In, filter_In in Hslot as [Hslot _].
  apply list_elem_of_In in Hslot.
  destruct (REQUIRED_ENTITIES !! _) as [required |] eqn:Hreq.
  - exact (required_slot_has_template _ _ _ Hreq Hslot).
  - by apply not_elem_of_nil in Hslot.
Qed.

(** X10. After CheckSlots, with nothing to disambiguate and the counter
    below its maximum, Clarify asks about the first missing slot in the
    schema's order, with that slot's question from the catalog: every
    required slot of every intent has one. *)
Theorem clarify_asks_first_missing (E : Env) (s s' : AgentState) :
  check_entities s = Ok s' →
  get_disambiguation_options s = [] →
  get_clarification_count s < get_max_clarifications s →
  get_missing_entities s' ≠ [] →
  ∃ slot rest q,
    get_missing_entities s' = slot :: rest
    ∧ CLARIFICATION_TEMPLATES !! slot = Some q
    ∧ response_text (clarify E s') = Some q
    ∧ task_status (clarify E s') = Some WAITING_USER_INPUT.
Proof.
  intros Hrun Hnone Hbelow Hmissing.
  destruct (check_entities_intent s s' Hrun) as (d & Hd).
  rewrite (check_entities_Ok s d Hd) in Hrun. injection Hrun as <-.
  match goal with
  | |- context [clarify E ?t] => set (s1 := t) in *
  end.
  assert (get_clarification_count s1 < get_max_clarifications s1) as Hbelow1
    by exact Hbelow.
  rewrite (clarify_below_limit E s1 Hbelow1).
  destruct (get_missing_entities s1) as [| slot rest] eqn:Hlist; [done |].
  assert (slot ∈ List.filter (slot_missing (get_entities s))
                   (default []
                      (REQUIRED_ENTITIES
                         !! default "unknown" (IntentData.intent d))))
    as Hslot.
  { change (slot ∈ get_missing_entities s1). rewrite Hlist. by left. }
  destruct (missing_slot_has_template s d slot Hslot) as (q & Hq & Hne).
  exists slot, rest, q. split; [reflexivity |]. split; [exact Hq |].
  split; [| reflexivity].
  cbn [response_text set_messages set_should_speak set_task_status
       set_clarification_count set_last_clarification set_response_text].
  f_equal. unfold clarification_text.
  change (get_disambiguation_options s1) with (get_disambiguation_options s).
  rewrite Hnone, Hlist. unfold question_for. rewrite Hq.
  apply nonempty_true in Hne. by rewrite Hne.
Qed.

Lemma clarify_asks_first_missing_set_reminder :
  let s := store_guess (guess "set_reminder" ∅) fresh in
  ∃ s',
    check_entities s = Ok s'
    ∧ get_missing_entities s' = ["reminder_text"; "datetime"]
    ∧ response_text (clarify offline s') = Some "¿Qué querés que te recuerde?".
Proof.
  intros s.
  set (s' := set_task_status NEEDS_CLARIFICATION
               (set_unresolved_entities []
                  (set_missing_entities ["reminder_text"; "datetime"] s))).
  assert (check_entities s = Ok s') as Hrun by reflexivity.
  exists s'. split; [exact Hrun |]. split; [reflexivity |].
  destruct (clarify_asks_first_missing offline s s' Hrun)
    as (slot & rest & q & Hlist & Hq & Hreply & _).
  - reflexivity.
  - vm_compute. reflexivity.
  - discriminate.
  - injection Hlist as <- <-. rewrite Hreply. f_equal.
    vm_compute in Hq. by injection Hq as <-.
Defined.

(** X11. After CheckSlots the generated-question fallback of Clarify is
    never reached: whatever the collaborators are, Clarify returns the same
    state. *)
Theorem clarify_after_check_ignores_collaborators (E1 E2 : Env)
    (s s' : AgentState) :
  check_entities s = Ok s' → clarify E1 s' = clarify E2 s'.
Proof.
  intros Hrun.
  destruct (check_entities_intent s s' Hrun) as (d & Hd).
  rewrite (check_entities_Ok s d Hd) in Hrun. injection Hrun as <-.
  match goal with
  | |- clarify E1 ?t = _ => set (s1 := t) in *
  end.
  assert (clarification_text E1 s1 = clarification_text E2 s1) as Htext.
  { unfold clarification_text.
    destruct (get_disambiguation_options s1) as [| o os]; [| reflexivity].
    destruct (get_missing_entities s1) as [| slot rest] eqn:Hlist;
      [reflexivity |].
    assert (slot ∈ List.filter (slot_missing (get_entities s))
                     (default []
                        (REQUIRED_ENTITIES
                           !! default "unknown" (IntentData.intent d))))
      as Hslot.
    { change (slot ∈ get_missing_entities s1). rewrite Hlist. by left. }
    destruct (missing_slot_has_template s d slot Hslot) as (q & Hq & _).
    unfold question_for. by rewrite Hq. }
  unfold clarify. by rewrite Htext.
Qed.

Lemma clarify_after_check_ignores_collaborators_send_to_mom :
  ∃ s',
    check_entities send_to_mom = Ok s'
    ∧ clarify offline s' = clarify with_contacts s'.
Proof.
  set (s' := set_task_status NEEDS_CLARIFICATION
               (set_unresolved_entities ["recipient"]
                  (set_missing_entities ["message_content"] send_to_mom))).
  assert (check_entities send_to_mom = Ok s') as Hrun by reflexivity.
  exists s'. split; [exact Hrun |].
  exact (clarify_after_check_ignores_collaborators offline with_contacts
           send_to_mom s' Hrun).
Defined.

(** ** Resolve, as a whole *)

Lemma resolve_one_coherent (E : Env) (uid : option string)
    (ents resolved0 : gmap string value) (acc acc' : resolution)
    (slot : string) :
  resolve_one E uid ents acc slot = Ok acc' →
  resolution_coherent resolved0 acc → resolution_coherent resolved0 acc'.
Proof.
  unfold resolve_one, resolution_coherent.
  destruct acc as [[resolved options] needs]. cbn [fst snd].
  intros Hrun (Hflag & Hopts & Hres).
  destruct (ents !! slot) as [v |]; [| by injection Hrun as <-].
  destruct (looked_up slot (Some v)) eqn:Hlook; [| by injection Hrun as <-].
  apply looked_up_true in Hlook as [-> _].
  assert (∀ x : DisambiguationOption.t,
            DisambiguationOption.entity x = "recipient" →
            (true = true ↔ options ++ [x] ≠ [])
            ∧ (∀ o, o ∈ options ++ [x] →
                    DisambiguationOption.entity o = "recipient")
            ∧ (∀ slot, slot ≠ "recipient" →
                       resolved !! slot = resolved0 !! slot)) as Happend.
  { intros x Hx. split; [| split].
    - split; [intros _ | reflexivity]. by destruct options.
    - intros o Ho. apply elem_of_app in Ho as [Ho | Ho]; [by apply Hopts |].
      by apply list_elem_of_singleton in Ho as ->.
    - exact Hres. }
  destruct (lookup_contacts E uid v) as [| c1 [| c2 cs]].
  - injection Hrun as <-. cbn [fst snd]. by apply Happend.
  - injection Hrun as <-. cbn [fst snd].
    split; [exact Hflag |]. split; [exact Hopts |].
    intros slot Hslot. rewrite lookup_insert_ne by done. by apply Hres.
  - apply bind_Ok in Hrun as (names & _ & [= <-]). cbn [fst snd].
    by apply Happend.
Qed.

Lemma resolve_loop_coherent (E : Env) (uid : option string)
    (ents resolved0 : gmap string value) (unresolved : list string)
    (acc acc' : resolution) :
  resolve_loop E uid ents unresolved acc = Ok acc' →
  resolution_coherent resolved0 acc → resolution_coherent resolved0 acc'.
Proof.
  revert acc. induction unresolved as [| slot rest IH]; intros acc Hrun Hacc.
  - by injection Hrun as <-.
  - cbn [resolve_loop] in Hrun.
    apply bind_Ok in Hrun as (acc1 & Hone & Hrest).
    eapply IH; [exact Hrest |].
    exact (resolve_one_coherent _ _ _ _ _ _ _ Hone Hacc).
Qed.

(** X12. What the resolver returns for a non-empty unresolved list hangs
    together: the disambiguation flag is set exactly when there is a
    disambiguation option, the unresolved list is kept when the flag is set
    and emptied when it is not, the route after it is Dispatch exactly when
    there is no option, every option is about the recipient, and
    [resolved_entities] changes at the recipient only. *)
Theorem resolve_entities_coherent (E : Env) (s s' : AgentState) :
  get_unresolved_entities s ≠ [] →
  resolve_entities E s = Ok s' →
  (needs_user_disambiguation s' = Some true
   ↔ get_disambiguation_options s' ≠ [])
  ∧ (get_disambiguation_options s' ≠ [] →
     get_unresolved_entities s' = get_unresolved_entities s)
  ∧ (get_disambiguation_options s' = [] → get_unresolved_entities s' = [])
  ∧ (route_after_resolve s' = to_execute
     ↔ get_disambiguation_options s' = [])
  ∧ (∀ o, o ∈ get_disambiguation_options s' →
          DisambiguationOption.entity o = "recipient")
  ∧ (∀ slot, slot ≠ "recipient" →
             get_resolved_entities s' !! slot
             = get_resolved_entities s !! slot).
Proof.
  intros Hpending Hrun. unfold resolve_entities in Hrun.
  destruct (get_unresolved_entities s) as [| slot0 rest] eqn:Hl; [done |].
  apply bind_Ok in Hrun as (acc & Hloop & [= <-]).
  assert (resolution_coherent (get_resolved_entities s)
            (get_resolved_entities s, [], false)) as Hinit.
  { split; [| split]; cbn [fst snd]; [| | done].
    - split; [discriminate | done].
    - intros o Ho. by apply not_elem_of_nil in Ho. }
  destruct (resolve_loop_coherent _ _ _ _ _ _ _ Hloop Hinit)
    as (Hflag & Hopts & Hres).
  destruct acc as [[resolved options] needs]. cbn [fst snd] in *.
  unfold route_after_resolve, store_resolution. read_state.
  split; [| split; [| split; [| split; [| split]]]].
  - rewrite <- Hflag. split; [by intros [= ->] | by intros ->].
  - intros Hsome. apply Hflag in Hsome as ->. reflexivity.
  - intros Hnone. destruct needs; [| reflexivity].
    by destruct (proj1 Hflag eq_refl).
  - destruct needs.
    + split; [discriminate |]. intros Hnone. by destruct (proj1 Hflag eq_refl).
    + split; [intros _ | reflexivity].
      destruct options as [| o os]; [reflexivity |].
      by discriminate (proj2 Hflag ltac:(discriminate)).
  - exact Hopts.
  - exact Hres.
Qed.

Lemma resolve_entities_coherent_juan_pending :
  ∃ s',
    resolve_entities with_contacts juan_pending = Ok s'
    ∧ get_disambiguation_options s' ≠ []
    ∧ needs_user_disambiguation s' = Some true
    ∧ get_unresolved_entities s' = ["recipient"].
Proof.
  destruct (resolve_entities with_contacts juan_pending) as [s' | e] eqn:Hrun;
    [| vm_compute in Hrun; discriminate].
  exists s'. split; [reflexivity |].
  destruct (resolve_entities_coherent with_contacts juan_pending s')
    as (Hflag & Hkept & _).
  - discriminate.
  - exact Hrun.
  - assert (get_disambiguation_options s' ≠ []) as Hsome.
    { vm_compute in Hrun. injection Hrun as <-. discriminate. }
    split; [exact Hsome |]. split; [by apply Hflag |].
    rewrite (Hkept Hsome). reflexivity.
Defined.

Lemma iter_append_option_head (x : DisambiguationOption.t) (k : nat)
    (resolved : gmap string value) (needs : bool) :
  ∃ rest,
    (Nat.iter (S k) (λ a : resolution, (a.1.1, a.1.2 ++ [x], true))
       (resolved, [], needs)).1.2 = x :: rest.
Proof.
  induction k as [| k (rest & IH)].
  - by exists [].
  - exists (rest ++ [x]).
    change (Nat.iter (S (S k)) ?f ?a) with (f (Nat.iter (S k) f a)).
    cbn [fst snd]. by rewrite IH.
Qed.

Lemma clarify_reply_set (E : Env) (s : AgentState) :
  nonempty (get_response_text (clarify E s)) = true.
Proof.
  destruct (Z_lt_le_dec (get_clarification_count s) (get_max_clarifications s))
    as [Hlt | Hle].
  - rewrite (clarify_below_limit E s Hlt). read_state.
    apply nonempty_true, clarification_text_nonempty.
  - rewrite (clarify_at_limit E s Hle). reflexivity.
Qed.

Lemma clarify_status (E : Env) (s : AgentState) :
  action_result (clarify E s) = action_result s
  ∧ (task_status (clarify E s) = Some WAITING_USER_INPUT
     ∨ task_status (clarify E s) = Some CANCELLED).
Proof.
  destruct (Z_lt_le_dec (get_clarification_count s) (get_max_clarifications s))
    as [Hlt | Hle].
  - rewrite (clarify_below_limit E s Hlt). split; [reflexivity | by left].
  - rewrite (clarify_at_limit E s Hle). split; [reflexivity | by right].
Qed.

(** X13. With a contact lookup that finds nobody, as the repository's
    does, a session whose recipient is pending never reaches a skill: the
    turn ends waiting for the user, or cancelled when the clarification
    counter is used up, with [action_result] as it was; below the counter's
    maximum the reply is the not-found question for that recipient,
    whatever else is missing. *)
Theorem empty_lookup_never_dispatches (E : Env) (s : AgentState) (v : value) :
  (∀ uid q, lookup_contacts E uid q = []) →
  "recipient" ∈ get_unresolved_entities s →
  get_entities s !! "recipient" = Some v →
  truthy v = true →
  ∃ s',
    run_after_entity_check E s = Ok s'
    ∧ (task_status s' = Some WAITING_USER_INPUT
       ∨ task_status s' = Some CANCELLED)
    ∧ action_result s' = action_result s
    ∧ (get_clarification_count s < get_max_clarifications s →
       task_status s' = Some WAITING_USER_INPUT
       ∧ get_response_text s' = not_found_message E v).
Proof.
  intros Hnobody Hin Hv Htruthy.
  assert (get_unresolved_entities s ≠ []) as Hpending
    by (intros Hnil; rewrite Hnil in Hin; by apply not_elem_of_nil in Hin).
  destruct (lookups_pos "recipient" _ Hin eq_refl) as (k & Hk).
  set (x := {| DisambiguationOption.entity := "recipient";
               DisambiguationOption.query := v;
               DisambiguationOption.matches := [];
               DisambiguationOption.message := not_found_message E v |}).
  pose proof (resolve_entities_iter E s _ Hpending
                (λ acc, resolve_one_none_found E _ _ v Hv Htruthy acc
                          (Hnobody _ _))) as Hres.
  rewrite Hk in Hres. fold x in Hres.
  destruct (iter_append_option x k (get_resolved_entities s, [], false))
    as (_ & _ & Hflag).
  destruct (iter_append_option_head x k (get_resolved_entities s) false)
    as (rest & Hhead).
  destruct (Nat.iter (S k) _ _) as [[resolved options] needs] eqn:Hacc.
  cbn [fst snd] in Hflag, Hhead. subst needs options.
  set (s1 := store_resolution (get_unresolved_entities s)
               (resolved, x :: rest, true) s) in *.
  pose proof (step_of_Ok _ _ _ Hres) as Hstep.
  set (r1 := reduce s s1) in *.
  assert (route_after_resolve r1 = to_clarify) as Hroute
    by (unfold r1; by rewrite reduce_route_after_resolve).
  set (c := pure_step (clarify E) r1).
  exists (reduce c c).
  split.
  { unfold run_after_entity_check.
    rewrite (route_after_entity_check_pending s Hpending), Hstep.
    cbn [mbind result_bind]. rewrite Hroute. cbn iota. fold c.
    apply step_of_Ok, generate_response_set.
    unfold c, pure_step. rewrite reduce_get_response_text.
    apply clarify_reply_set. }
  rewrite reduce_task_status, reduce_action_result, reduce_get_response_text.
  unfold c, pure_step.
  rewrite reduce_task_status, reduce_action_result, reduce_get_response_text.
  destruct (clarify_status E r1) as [Hresult Hstatus].
  split; [exact Hstatus |].
  split; [rewrite Hresult; unfold r1; by rewrite reduce_action_result |].
  intros Hbelow.
  assert (get_clarification_count r1 < get_max_clarifications r1) as Hbelow1.
  { unfold r1.
    rewrite reduce_get_clarification_count, reduce_get_max_clarifications.
    exact Hbelow. }
  rewrite (clarify_below_limit E r1 Hbelow1).
  split; [reflexivity |].
  unfold r1. destruct (reduce_cases s s1) as [Hr | [m Hr]]; rewrite Hr;
    read_state; reflexivity.
Qed.

Lemma empty_lookup_never_dispatches_mom_pending :
  ∃ s',
    run_after_entity_check offline mom_pending = Ok s'
    ∧ task_status s' = Some WAITING_USER_INPUT
    ∧ get_response_text s'
      = "No encontré ningún contacto llamado 'mom'. ¿A quién te referís?".
Proof.
  destruct (empty_lookup_never_dispatches offline mom_pending (VStr "mom"))
    as (s' & Hrun & _ & _ & Hreply).
  - reflexivity.
  - vm_compute. constructor.
  - reflexivity.
  - reflexivity.
  - exists s'. split; [exact Hrun |]. apply Hreply. vm_compute. reflexivity.
Defined.

(** ** A whole turn: the conversation *)

Lemma parse_input_silent (E : Env) (s : AgentState) :
  silent s (parse_input E s).
Proof.
  unfold parse_input.
  destruct (last_user_message _) as [t |]; [| by split].
  destruct (negb (nonempty t)); by split.
Qed.

Lemma detect_intent_silent (E : Env) (s : AgentState) :
  silent s (detect_intent E s).
Proof.
  unfold detect_intent.
  destruct (negb _); [by split |].
  destruct (classify E _ _); by split.
Qed.

Lemma check_entities_silent (s s' : AgentState) :
  check_entities s = Ok s' → silent s s'.
Proof.
  intros Hrun. destruct (check_entities_intent s s' Hrun) as (d & Hd).
  rewrite (check_entities_Ok s d Hd) in Hrun. injection Hrun as <-.
  by split.
Qed.

Lemma resolve_entities_silent (E : Env) (s s' : AgentState) :
  resolve_entities E s = Ok s' → silent s s'.
Proof.
  unfold resolve_entities.
  destruct (get_unresolved_entities s) as [| slot rest].
  - intros [= <-]. by split.
  - intros Hrun. apply bind_Ok in Hrun as (acc & _ & [= <-]).
    destruct acc as [[resolved options] needs]. by split.
Qed.

Lemma execute_action_silent (E : Env) (s s' : AgentState) :
  execute_action E s = Ok s' → silent s s'.
Proof.
  unfold execute_action. intros Hrun.
  apply bind_Ok in Hrun as (intent & _ & [= <-]).
  destruct (get_skill E intent) as [skill |]; [| by split].
  destruct (execute skill _ _); by split.
Qed.

Lemma clarify_replies (E : Env) (s : AgentState) : replies s (clarify E s).
Proof.
  destruct (Z_lt_le_dec (get_clarification_count s) (get_max_clarifications s))
    as [Hlt | Hle].
  - by rewrite (clarify_below_limit E s Hlt).
  - by rewrite (clarify_at_limit E s Hle).
Qed.

Lemma cancel_task_replies (s : AgentState) : replies s (cancel_task s).
Proof. reflexivity. Qed.

Lemma execute_system_command_replies (E : Env) (s s' : AgentState) :
  execute_system_command E s = Ok s' →
  replies s s' ∧ nonempty (get_response_text s') = true.
Proof.
  unfold execute_system_command. intros Hrun.
  apply bind_Ok in Hrun as (d & _ & Hrun).
  apply bind_Ok in Hrun as (app_name & _ & [= <-]).
  split; [reflexivity |].
  read_state. apply nonempty_true, launch_reply_nonempty.
Qed.

Lemma generate_response_outcome (E : Env) (s s' : AgentState) :
  generate_response E s = Ok s' →
  (s' = s ∧ get_response_text s ≠ "")
  ∨ (get_response_text s = "" ∧ replies s s').
Proof.
  unfold generate_response.
  destruct (nonempty (get_response_text s)) eqn:Hset.
  - intros [= <-]. left. split; [reflexivity | by apply nonempty_true].
  - intros Hrun. apply bind_Ok in Hrun as (intent & _ & [= <-]).
    right. split; [| reflexivity].
    destruct (String.eqb_spec (get_response_text s) "") as [Heq | Hne];
      [exact Heq |].
    apply nonempty_true in Hne. congruence.
Qed.

Lemma confirm_action_silent (s : AgentState) : silent s (confirm_action s).
Proof. by split. Qed.

Lemma length_doubled (k : nat) (l : list Message.t) :
  length (doubled k l) = (2 ^ k * length l)%nat.
Proof.
  induction k as [| k IH]; [cbn; lia |].
  change (doubled (S k) l) with (doubled k l ++ doubled k l).
  rewrite length_app, IH, Nat.pow_succ_r'. lia.
Qed.

Lemma enter_quiet (s : AgentState) : quiet_after 0 s (enter s).
Proof. by split. Qed.

Lemma quiet_get_messages (k : nat) (s t : AgentState) :
  quiet_after k s t → get_messages t = doubled k (get_messages s).
Proof. intros [Hm _]. unfold get_messages at 1. by rewrite Hm. Qed.

(** A step whose node is silent doubles the held list. *)
Lemma quiet_reduce (k : nat) (s h t : AgentState) :
  quiet_after k s h → silent h t → quiet_after (S k) s (reduce h t).
Proof.
  intros Hq [Hm' Hr']. pose proof (quiet_get_messages k s h Hq) as Hget.
  destruct Hq as [Hm Hr]. unfold reduce. rewrite Hm', Hm, Hget.
  split; [reflexivity |].
  cbn [response_text set_messages]. congruence.
Qed.

Lemma quiet_step (node : AgentState → result AgentState) (k : nat)
    (s h t : AgentState) :
  (∀ a b, node a = Ok b → silent a b) →
  quiet_after k s h → step node h = Ok t → quiet_after (S k) s t.
Proof.
  intros Hnode Hq Hrun. apply step_Ok in Hrun as (u & Hrun & ->).
  apply quiet_reduce; [exact Hq | exact (Hnode h u Hrun)].
Qed.

(** A step whose node appends the reply: the held list, then the list the
    node returns, which is the held list and the reply. *)
Lemma replied_reduce (k : nat) (s h t : AgentState) :
  quiet_after k s h → replies h t → replied_after (S k) s (reduce h t).
Proof.
  intros Hq Hrep. pose proof (quiet_get_messages k s h Hq) as Hget.
  assert (messages t
          = Some (get_messages h ++ [assistant_says (get_response_text t)]))
    as Hm.
  { unfold replies in Hrep. unfold get_messages at 1 in Hrep.
    destruct (messages t) as [m |]; cbn [default from_option id] in Hrep.
    - by rewrite Hrep.
    - by apply app_cons_not_nil in Hrep. }
  unfold replied_after. rewrite reduce_get_response_text.
  unfold reduce. rewrite Hm, Hget. cbn [messages set_messages].
  change (doubled (S k) (get_messages s))
    with (doubled k (get_messages s) ++ doubled k (get_messages s)).
  by rewrite <- app_assoc.
Qed.

Lemma replied_get_messages (k : nat) (s t : AgentState) :
  replied_after k s t →
  get_messages t
  = doubled k (get_messages s) ++ [assistant_says (get_response_text t)].
Proof. intros Hm. unfold get_messages at 1. by rewrite Hm. Qed.

(** [generate_response] as the last step, no node having spoken. *)
Lemma compose_after_silence (E : Env) (k : nat) (s h s' : AgentState) :
  quiet_after k s h → step (generate_response E) h = Ok s' →
  turn_shape (S k) s s'.
Proof.
  intros Hq Hrun. apply step_Ok in Hrun as (t & Hrun & ->).
  destruct (generate_response_outcome E h t Hrun) as [[-> Hset] | [_ Hrep]].
  - left.
    assert (quiet_after (S k) s (reduce h h)) as Hq'
      by (apply quiet_reduce; [exact Hq | by split]).
    split; [exact (quiet_get_messages _ _ _ Hq') |].
    split; [exact (proj2 Hq') |].
    unfold get_response_text in *. by rewrite <- (proj2 Hq).
  - right; left.
    exact (replied_get_messages _ _ _ (replied_reduce k s h t Hq Hrep)).
Qed.

(** [generate_response] as the last step, after the node that spoke. *)
Lemma compose_after_reply (E : Env) (k : nat) (s h s' : AgentState) :
  replied_after k s h → nonempty (get_response_text h) = true →
  step (generate_response E) h = Ok s' → turn_shape k s s'.
Proof.
  intros Hrep Hset Hrun. apply step_Ok in Hrun as (t & Hrun & ->).
  rewrite (generate_response_set E h Hset) in Hrun. injection Hrun as <-.
  right; right. rewrite reduce_get_response_text.
  pose proof (replied_get_messages k s h Hrep) as Hget.
  unfold get_messages at 1. unfold reduce. rewrite Hrep, Hget.
  reflexivity.
Qed.

Lemma clarify_then_compose (E : Env) (k : nat) (s h s' : AgentState) :
  quiet_after k s h →
  step (generate_response E) (pure_step (clarify E) h) = Ok s' →
  turn_shape (S k) s s'.
Proof.
  intros Hq Hrun.
  eapply compose_after_reply; [| | exact Hrun].
  - apply replied_reduce; [exact Hq | apply clarify_replies].
  - unfold pure_step. rewrite reduce_get_response_text.
    apply clarify_reply_set.
Qed.

Lemma execute_then_compose (E : Env) (k : nat) (s h s' : AgentState) :
  quiet_after k s h →
  step (execute_action E) h ≫= step (generate_response E) = Ok s' →
  turn_shape (S (S k)) s s'.
Proof.
  intros Hq Hrun. apply bind_Ok in Hrun as (h1 & Hx & Hrun).
  eapply compose_after_silence; [| exact Hrun].
  exact (quiet_step _ k s h h1 (execute_action_silent E) Hq Hx).
Qed.

Lemma run_after_entity_check_conversation (E : Env) (k : nat)
    (s h s' : AgentState) :
  quiet_after k s h →
  run_after_entity_check E h = Ok s' →
  ∃ j, (S k ≤ j ≤ 3 + k)%nat ∧ turn_shape j s s'.
Proof.
  unfold run_after_entity_check. intros Hq Hrun.
  destruct (route_after_entity_check h).
  - apply bind_Ok in Hrun as (h1 & Hres & Hrun).
    pose proof (quiet_step _ k s h h1 (resolve_entities_silent E) Hq Hres)
      as Hq1.
    destruct (route_after_resolve h1).
    + exists (2 + k)%nat. split; [lia |].
      exact (clarify_then_compose E _ s h1 s' Hq1 Hrun).
    + exists (2 + k)%nat. split; [lia |].
      exact (clarify_then_compose E _ s h1 s' Hq1 Hrun).
    + exists (3 + k)%nat. split; [lia |].
      exact (execute_then_compose E _ s h1 s' Hq1 Hrun).
  - exists (S k). split; [lia |].
    exact (clarify_then_compose E k s h s' Hq Hrun).
  - exists (2 + k)%nat. split; [lia |].
    exact (execute_then_compose E k s h s' Hq Hrun).
Qed.

Lemma classified_quiet (E : Env) (s : AgentState) :
  quiet_after 2 s (classified E s).
Proof.
  unfold classified, pure_step.
  apply quiet_reduce; [| apply detect_intent_silent].
  apply quiet_reduce; [apply enter_quiet | apply parse_input_silent].
Qed.

Lemma turn_shape_length (k : nat) (s s' : AgentState) :
  turn_shape k s s' →
  (2 ^ k * length (get_messages s) ≤ length (get_messages s'))%nat.
Proof.
  intros [(-> & _) | [-> | ->]]; rewrite ?length_app, length_doubled; lia.
Qed.

(** X14. What a turn of the graph on a new thread does to the
    conversation. Every node returns the list of messages it was given,
    with or without a reply at its end, and the channel adds what a node
    returns to what it holds, so each step at least doubles the list. With
    [k] the number of steps up to the one whose node speaks (or all of
    them when none does), between three and six, and [held] the input's
    conversation doubled [k] times, the conversation returned is one of:
    [held], when the reply set at entry is handed back; [held] and the
    reply, when [generate_response] composes it; [held] and the reply,
    twice over, when [clarify], [cancel_task] or [execute_system_command]
    said it and [generate_response] ran after. The conversation returned
    is therefore at least eight times as long as the input's. *)
Theorem run_graph_multiplies_the_conversation (E : Env) (s s' : AgentState) :
  run_graph E s = Ok s' →
  (∃ k, (3 ≤ k ≤ 6)%nat ∧
     let held := doubled k (get_messages s) in
     let reply := assistant_says (get_response_text s') in
     (get_messages s' = held
      ∧ response_text s' = response_text s
      ∧ get_response_text s ≠ "")
     ∨ get_messages s' = held ++ [reply]
     ∨ get_messages s' = (held ++ [reply]) ++ (held ++ [reply]))
  ∧ (8 * length (get_messages s) ≤ length (get_messages s'))%nat.
Proof.
  intros Hrun.
  assert (∃ k, (3 ≤ k ≤ 6)%nat ∧ turn_shape k s s') as (k & Hk & Hshape).
  { unfold run_graph, run_after_intent in Hrun.
    pose proof (classified_quiet E s) as Hq.
    set (h := classified E s) in *.
    destruct (route_after_intent h).
    - apply bind_Ok in Hrun as (h1 & Hchk & Hrun).
      pose proof (quiet_step _ 2 s h h1 check_entities_silent Hq Hchk) as Hq1.
      destruct (run_after_entity_check_conversation E 3 s h1 s' Hq1 Hrun)
        as (j & Hj & Hshape).
      exists j. split; [lia | exact Hshape].
    - exists 3%nat. split; [lia |].
      eapply compose_after_reply; [| | exact Hrun].
      + apply replied_reduce; [exact Hq | apply cancel_task_replies].
      + unfold pure_step. by rewrite reduce_get_response_text.
    - exists 5%nat. split; [lia |].
      apply (execute_then_compose E 3 s (pure_step confirm_action h) s');
        [| exact Hrun].
      apply quiet_reduce; [exact Hq | apply confirm_action_silent].
    - exists 3%nat. split; [lia |].
      exact (compose_after_silence E 2 s h s' Hq Hrun).
    - exists 3%nat. split; [lia |].
      apply bind_Ok in Hrun as (h1 & Hx & Hrun).
      apply step_Ok in Hx as (t & Hx & ->).
      destruct (execute_system_command_replies E h t Hx) as [Hrep Hset].
      eapply compose_after_reply; [| | exact Hrun].
      + apply replied_reduce; [exact Hq | exact Hrep].
      + by rewrite reduce_get_response_text. }
  split; [by exists k |].
  pose proof (turn_shape_length k s s' Hshape) as Hlen.
  pose proof (Nat.pow_le_mono_r 2 3 k ltac:(lia) ltac:(lia)) as Hpow.
  change (2 ^ 3)%nat with 8%nat in Hpow. nia.
Qed.

Lemma run_graph_multiplies_the_conversation_greeted :
  ∃ s',
    run_graph offline greeted = Ok s'
    ∧ (8 * length (get_messages greeted) ≤ length (get_messages s'))%nat
    ∧ get_messages s'
      = doubled 3 (get_messages greeted)
        ++ [assistant_says (get_response_text s')]
    ∧ length (get_messages s') = 33%nat.
Proof.
  destruct (run_graph offline greeted) as [s' | e] eqn:Hrun;
    [| vm_compute in Hrun; discriminate].
  exists s'. split; [reflexivity |].
  split; [exact (proj2 (run_graph_multiplies_the_conversation
                          offline greeted s' Hrun)) |].
  vm_compute in Hrun. injection Hrun as <-. split; reflexivity.
Defined.

(** ** A whole turn: the reply *)

Lemma generate_success_response_nonempty (intent : string)
    (r : ActionResult.t) :
  generate_success_response intent r ≠ "".
Proof.
  unfold generate_success_response.
  assert (default "Listo." (SUCCESS_RESPONSES !! intent) ≠ "") as Hbase.
  { destruct (SUCCESS_RESPONSES !! intent) as [t |] eqn:Ht; [| discriminate].
    unfold SUCCESS_RESPONSES in Ht. apply elem_of_list_to_map_2 in Ht.
    repeat (apply elem_of_cons in Ht as [[= -> ->] | Ht]; [discriminate |]).
    by apply not_elem_of_nil in Ht. }
  destruct (ActionResult.message r) as [m |]; [| exact Hbase].
  destruct (nonempty m) eqn:Hm; [by apply nonempty_true | exact Hbase].
Qed.

Lemma composed_reply_nonempty (E : Env) (s : AgentState) (intent : string) :
  (∀ conversation input, converse E conversation input ≠ Some "") →
  composed_reply E s intent ≠ "".
Proof.
  intros Hconverse. unfold composed_reply.
  assert (generate_conversational_response E (default "" (current_input s))
            (get_messages s) ≠ "") as Hchat.
  { unfold generate_conversational_response.
    destruct (converse E _ _) as [reply |] eqn:Hreply; [| discriminate].
    intros ->. by apply (Hconverse _ _ Hreply). }
  destruct (if bool_decide _ then _ else _) as [r |].
  - apply generate_success_response_nonempty.
  - repeat case_bool_decide; try discriminate.
    destruct (_ || _); [exact Hchat |].
    destruct (String.eqb intent "greeting"); discriminate.
Qed.

Lemma generate_response_nonempty (E : Env) (s s' : AgentState) :
  (∀ conversation input, converse E conversation input ≠ Some "") →
  generate_response E s = Ok s' → get_response_text s' ≠ "".
Proof.
  intros Hconverse Hrun.
  destruct (generate_response_outcome E s s' Hrun) as [[-> Hset] | [Hempty _]];
    [exact Hset |].
  unfold generate_response in Hrun. rewrite Hempty in Hrun.
  cbn [nonempty String.eqb negb] in Hrun.
  apply bind_Ok in Hrun as (intent & Hi & Hrun).
  destruct (intent_name_Ok_inv _ _ _ Hi) as (d & Hd & ->).
  pose proof (generate_response_compose E s d Hempty Hd) as Hcomp.
  unfold generate_response in Hcomp. rewrite Hempty in Hcomp.
  cbn [nonempty String.eqb negb] in Hcomp. rewrite Hi in Hcomp.
  cbn [mbind result_bind] in Hcomp, Hrun.
  rewrite Hcomp in Hrun. injection Hrun as <-. read_state.
  by apply composed_reply_nonempty.
Qed.

Lemma run_graph_ends_in_compose (E : Env) (s s' : AgentState) :
  run_graph E s = Ok s' →
  ∃ t u, generate_response E t = Ok u ∧ s' = reduce t u.
Proof.
  unfold run_graph, run_after_intent, run_after_entity_check. intros Hrun.
  assert (∀ t, step (generate_response E) t = Ok s' →
               ∃ t u, generate_response E t = Ok u ∧ s' = reduce t u)
    as Hlast.
  { intros t Ht. apply step_Ok in Ht as (u & Hu & ->). by exists t, u. }
  destruct (route_after_intent _).
  - apply bind_Ok in Hrun as (s1 & _ & Hrun).
    destruct (route_after_entity_check s1).
    + apply bind_Ok in Hrun as (s2 & _ & Hrun).
      destruct (route_after_resolve s2);
        try (by eapply Hlast);
        apply bind_Ok in Hrun as (s3 & _ & Hrun); by eapply Hlast.
    + by eapply Hlast.
    + apply bind_Ok in Hrun as (s3 & _ & Hrun). by eapply Hlast.
  - by eapply Hlast.
  - apply bind_Ok in Hrun as (s1 & _ & Hrun). by eapply Hlast.
  - by eapply Hlast.
  - apply bind_Ok in Hrun as (s1 & _ & Hrun). by eapply Hlast.
Qed.

(** X15. Every turn that comes back carries a non-empty reply, on every
    route and for every status, as long as the chat collaborator never
    answers with the empty text (the one place an empty reply can come
    from). *)
Theorem run_graph_reply_nonempty (E : Env) (s s' : AgentState) :
  (∀ conversation input, converse E conversation input ≠ Some "") →
  run_graph E s = Ok s' →
  get_response_text s' ≠ "".
Proof.
  intros Hconverse Hrun.
  destruct (run_graph_ends_in_compose E s s' Hrun) as (t & u & Ht & ->).
  rewrite reduce_get_response_text.
  exact (generate_response_nonempty E t u Hconverse Ht).
Qed.

Lemma run_graph_reply_nonempty_greeted :
  ∃ s', run_graph offline greeted = Ok s' ∧ get_response_text s' ≠ "".
Proof.
  destruct (run_graph offline greeted) as [s' | e] eqn:Hrun;
    [| vm_compute in Hrun; discriminate].
  exists s'. split; [reflexivity |].
  apply (run_graph_reply_nonempty offline greeted s'); [| exact Hrun].
  intros conversation input. discriminate.
Defined.

(** ** A whole turn: no fault leaves the graph *)

Lemma detect_intent_cases (E : Env) (s : AgentState) :
  (∃ d,
     classify E (last_n 10 (get_messages s)) (default "" (current_input s))
       = Classified d
     ∧ detect_intent E s = store_guess d s)
  ∨ (∃ d,
       current_intent (detect_intent E s) = Some (Some d)
       ∧ route_after_intent (detect_intent E s) = to_respond).
Proof.
  unfold detect_intent.
  destruct (negb _); [right; by eexists |].
  destruct (classify E _ _) as [d | | err];
    [left; by exists d | right; by eexists ..].
Qed.

Lemma generate_response_returns (E : Env) (s : AgentState) (d : IntentData.t) :
  intent_dict s = Ok d → ∃ s', generate_response E s = Ok s'.
Proof.
  intros Hd. destruct (nonempty (get_response_text s)) eqn:Hset.
  - exists s. by apply generate_response_set.
  - eexists. apply (generate_response_compose E s d); [| exact Hd].
    destruct (String.eqb_spec (get_response_text s) "") as [Heq | Hne];
      [exact Heq |].
    apply nonempty_true in Hne. congruence.
Qed.

Lemma compose_step_returns (E : Env) (s : AgentState) (d : IntentData.t) :
  intent_dict s = Ok d → ∃ s', step (generate_response E) s = Ok s'.
Proof.
  intros Hd. destruct (generate_response_returns E s d Hd) as (t & Ht).
  eexists. exact (step_of_Ok _ _ _ Ht).
Qed.

Lemma dispatch_and_compose_returns (E : Env) (s : AgentState)
    (d : IntentData.t) :
  intent_dict s = Ok d →
  ∃ s', step (execute_action E) s ≫= step (generate_response E) = Ok s'.
Proof.
  intros Hd. rewrite (step_of_Ok _ _ _ (execute_action_Ok E s d Hd)).
  cbn [mbind result_bind].
  apply (compose_step_returns E _ d). rewrite reduce_intent_dict.
  destruct (get_skill E _) as [skill |]; [| exact Hd].
  destruct (execute skill _ _); exact Hd.
Qed.

Lemma clarify_and_compose_returns (E : Env) (s : AgentState) :
  ∃ s', step (generate_response E) (pure_step (clarify E) s) = Ok s'.
Proof.
  eexists. apply step_of_Ok, generate_response_set.
  unfold pure_step. rewrite reduce_get_response_text.
  apply clarify_reply_set.
Qed.

Lemma run_after_entity_check_returns (E : Env) (s : AgentState)
    (d : IntentData.t) :
  (∀ uid q c, c ∈ lookup_contacts E uid q → ∃ n, contact_name c = Ok n) →
  intent_dict s = Ok d →
  ∃ s', run_after_entity_check E s = Ok s'.
Proof.
  intros Hnamed Hd. unfold run_after_entity_check.
  destruct (route_after_entity_check s).
  - destruct (resolve_entities_total E s (Hnamed (user_id s))) as (s1 & Hres).
    rewrite (step_of_Ok _ _ _ Hres). cbn [mbind result_bind].
    destruct (resolve_entities_frame E s s1 Hres) as (_ & _ & Hintent & _).
    assert (intent_dict (reduce s s1) = Ok d) as Hd1
      by (rewrite reduce_intent_dict; unfold intent_dict in *;
          by rewrite Hintent).
    destruct (route_after_resolve (reduce s s1));
      [apply clarify_and_compose_returns ..
      | exact (dispatch_and_compose_returns E _ d Hd1)].
  - apply clarify_and_compose_returns.
  - exact (dispatch_and_compose_returns E s d Hd).
Qed.

Lemma check_entities_step_returns (s : AgentState) (d : IntentData.t) :
  intent_dict s = Ok d →
  ∃ s1, step check_entities s = Ok s1 ∧ intent_dict s1 = Ok d.
Proof.
  intros Hd. eexists.
  split; [exact (step_of_Ok _ _ _ (check_entities_Ok s d Hd)) |].
  rewrite reduce_intent_dict. exact Hd.
Qed.

Lemma command_entities_store_guess (d : IntentData.t) (s : AgentState) :
  command_entities d (store_guess d s) = default ∅ (IntentData.entities d).
Proof. unfold command_entities. by case_bool_decide. Qed.

(** X16. No fault leaves the graph when the classifier's answer has the
    shape [IntentData] declares (its [entities] an object, which is what
    [Classified] holds), the app name in it is text when it answers
    [open_app], and the contacts the lookup returns have text names: on
    every route a turn on a new thread comes back with a state, whatever
    the session held and whatever the skills, the chat calls and the
    launch do. An answer of another shape, such as [entities] null, is
    none of the answers this statement is about. *)
Theorem run_graph_returns (E : Env) (s : AgentState) :
  (∀ uid q c, c ∈ lookup_contacts E uid q → ∃ n, contact_name c = Ok n) →
  (∀ context input d v,
     classify E context input = Classified d →
     IntentData.intent d = Some "open_app" →
     default ∅ (IntentData.entities d) !! "app_name" = Some v →
     is_str v = true) →
  ∃ s', run_graph E s = Ok s'.
Proof.
  intros Hnamed Htext. unfold run_graph, classified.
  generalize (pure_step (parse_input E) (enter s)). intros s0.
  unfold pure_step.
  destruct (detect_intent_cases E s0)
    as [(d & Hguess & Hs1) | (d & Hd & Hroute)].
  - rewrite Hs1. unfold run_after_intent.
    set (h := reduce s0 (store_guess d s0)).
    assert (intent_dict h = Ok d) as Hdict
      by (unfold h; rewrite reduce_intent_dict; reflexivity).
    assert (command_entities d h = default ∅ (IntentData.entities d))
      as Hents
      by (unfold h;
          by rewrite reduce_command_entities, command_entities_store_guess).
    clearbody h.
    destruct (route_after_intent h) eqn:Hroute.
    + destruct (check_entities_step_returns h d Hdict) as (h1 & Hchk & Hd1).
      rewrite Hchk. cbn [mbind result_bind].
      exact (run_after_entity_check_returns E h1 d Hnamed Hd1).
    + eexists. apply step_of_Ok, generate_response_set.
      unfold pure_step. rewrite reduce_get_response_text. reflexivity.
    + apply (dispatch_and_compose_returns E _ d).
      unfold pure_step. rewrite reduce_intent_dict. exact Hdict.
    + exact (compose_step_returns E _ d Hdict).
    + destruct (route_to_system_control _ Hroute) as (d' & Hd' & Hopen).
      assert (d' = d) as ->.
      { unfold intent_dict in Hdict. rewrite Hd' in Hdict.
        by injection Hdict. }
      destruct (app_name_of_text E (command_entities d h))
        as (app_name & Happ).
      { intros v Hv. rewrite Hents in Hv.
        exact (Htext _ _ d v Hguess Hopen Hv). }
      assert (∃ t, execute_system_command E h = Ok t
                   ∧ nonempty (get_response_text t) = true) as (t & Hx & Hset).
      { unfold execute_system_command.
        rewrite Hdict. cbn [mbind result_bind].
        rewrite Happ. cbn [mbind result_bind].
        eexists. split; [reflexivity |]. read_state.
        apply nonempty_true, launch_reply_nonempty. }
      rewrite (step_of_Ok _ _ _ Hx). cbn [mbind result_bind].
      eexists. apply step_of_Ok, generate_response_set.
      by rewrite reduce_get_response_text.
  - unfold run_after_intent. rewrite reduce_route_after_intent, Hroute.
    apply (compose_step_returns E _ d).
    rewrite reduce_intent_dict. unfold intent_dict. by rewrite Hd.
Qed.

Lemma run_graph_returns_open_app :
  ∃ s',
    run_graph
      (answering_with_contacts (guess "open_app" {["app_name" := VStr "Notepad"]}))
      greeted
    = Ok s'.
Proof.
  apply run_graph_returns.
  - intros uid q c Hc.
    change (c ∈ address_book uid q) in Hc. unfold address_book in Hc.
    destruct q as [| | | | t | |]; try (by apply not_elem_of_nil in Hc).
    destruct (String.eqb t "mom");
      [| destruct (String.eqb t "juan")];
      repeat (apply elem_of_cons in Hc as [-> | Hc]; [by eexists |]);
      by apply not_elem_of_nil in Hc.
  - intros context input d v [= <-] _ Hv.
    vm_compute in Hv. injection Hv as <-. reflexivity.
Defined.

(** ** A whole turn: what stays *)

Lemma same_session_refl (s : AgentState) : same_session s s.
Proof. by repeat split. Qed.

Lemma same_session_trans (a b c : AgentState) :
  same_session a b → same_session b c → same_session a c.
Proof.
  intros [(H1 & H2 & H3 & H4 & H5) H6] [(G1 & G2 & G3 & G4 & G5) G6].
  repeat split; congruence.
Qed.

Lemma detect_intent_same_session (E : Env) (s : AgentState) :
  same_session s (detect_intent E s).
Proof.
  unfold detect_intent.
  destruct (negb _); [by repeat split |].
  destruct (classify E _ _); by repeat split.
Qed.

Lemma check_entities_same_session (s s' : AgentState) :
  check_entities s = Ok s' → same_session s s'.
Proof.
  intros Hrun. destruct (check_entities_intent s s' Hrun) as (d & Hd).
  rewrite (check_entities_Ok s d Hd) in Hrun. injection Hrun as <-.
  by repeat split.
Qed.

Lemma resolve_entities_same_session (E : Env) (s s' : AgentState) :
  resolve_entities E s = Ok s' → same_session s s'.
Proof.
  unfold resolve_entities.
  destruct (get_unresolved_entities s) as [| slot rest].
  - intros [= <-]. by repeat split.
  - intros Hrun. apply bind_Ok in Hrun as (acc & _ & [= <-]).
    destruct acc as [[resolved options] needs]. by repeat split.
Qed.

Lemma execute_action_same_session (E : Env) (s s' : AgentState) :
  execute_action E s = Ok s' → same_session s s'.
Proof.
  unfold execute_action. intros Hrun.
  apply bind_Ok in Hrun as (intent & _ & [= <-]).
  destruct (get_skill E intent) as [skill |]; [| by repeat split].
  destruct (execute skill _ _); by repeat split.
Qed.

Lemma execute_system_command_same_session (E : Env) (s s' : AgentState) :
  execute_system_command E s = Ok s' → same_session s s'.
Proof.
  unfold execute_system_command. intros Hrun.
  apply bind_Ok in Hrun as (d & _ & Hrun).
  apply bind_Ok in Hrun as (app_name & _ & [= <-]). by repeat split.
Qed.

Lemma generate_response_same_session (E : Env) (s s' : AgentState) :
  generate_response E s = Ok s' → same_session s s'.
Proof.
  unfold generate_response.
  destruct (nonempty (get_response_text s)).
  - intros [= <-]. by repeat split.
  - intros Hrun. apply bind_Ok in Hrun as (intent & _ & [= <-]).
    by repeat split.
Qed.

Lemma clarify_same_session (E : Env) (s : AgentState) :
  same_session s (clarify E s).
Proof.
  destruct (Z_lt_le_dec (get_clarification_count s) (get_max_clarifications s))
    as [Hlt | Hle].
  - rewrite (clarify_below_limit E s Hlt). by repeat split.
  - rewrite (clarify_at_limit E s Hle). by repeat split.
Qed.

Lemma reduce_same_session (a b : AgentState) :
  same_session a b → same_session a (reduce a b).
Proof.
  intros Hab. destruct (reduce_cases a b) as [-> | [m ->]]; exact Hab.
Qed.

Lemma step_same_session (node : AgentState → result AgentState)
    (s s' : AgentState) :
  (∀ a b, node a = Ok b → same_session a b) →
  step node s = Ok s' → same_session s s'.
Proof.
  intros Hnode Hrun. apply step_Ok in Hrun as (t & Hrun & ->).
  apply reduce_same_session, Hnode, Hrun.
Qed.

Lemma clarify_then_compose_same_session (E : Env) (s s' : AgentState) :
  step (generate_response E) (pure_step (clarify E) s) = Ok s' →
  same_session s s'.
Proof.
  intros Hrun.
  eapply same_session_trans;
    [| exact (step_same_session _ _ _ (generate_response_same_session E) Hrun)].
  apply reduce_same_session, clarify_same_session.
Qed.

Lemma execute_then_compose_same_session (E : Env) (s s' : AgentState) :
  step (execute_action E) s ≫= step (generate_response E) = Ok s' →
  same_session s s'.
Proof.
  intros Hrun. apply bind_Ok in Hrun as (s1 & Hx & Hrun).
  eapply same_session_trans;
    [exact (step_same_session _ _ _ (execute_action_same_session E) Hx) |].
  exact (step_same_session _ _ _ (generate_response_same_session E) Hrun).
Qed.

Lemma run_after_entity_check_same_session (E : Env) (s s' : AgentState) :
  run_after_entity_check E s = Ok s' → same_session s s'.
Proof.
  unfold run_after_entity_check. intros Hrun.
  destruct (route_after_entity_check s).
  - apply bind_Ok in Hrun as (s1 & Hres & Hrun).
    eapply same_session_trans;
      [exact (step_same_session _ _ _ (resolve_entities_same_session E)
                Hres) |].
    destruct (route_after_resolve s1).
    + exact (clarify_then_compose_same_session E s1 s' Hrun).
    + exact (clarify_then_compose_same_session E s1 s' Hrun).
    + exact (execute_then_compose_same_session E s1 s' Hrun).
  - exact (clarify_then_compose_same_session E s s' Hrun).
  - exact (execute_then_compose_same_session E s s' Hrun).
Qed.

Lemma run_after_intent_same_session (E : Env) (s s' : AgentState) :
  run_after_intent E s = Ok s' → same_session s s'.
Proof.
  unfold run_after_intent. intros Hrun.
  destruct (route_after_intent s).
  - apply bind_Ok in Hrun as (s1 & Hchk & Hrun).
    eapply same_session_trans;
      [exact (step_same_session _ _ _ check_entities_same_session Hchk) |].
    exact (run_after_entity_check_same_session E _ _ Hrun).
  - eapply same_session_trans;
      [| exact (step_same_session _ _ _ (generate_response_same_session E)
                  Hrun)].
    apply reduce_same_session. by repeat split.
  - eapply same_session_trans;
      [| exact (execute_then_compose_same_session E _ _ Hrun)].
    apply reduce_same_session. by repeat split.
  - exact (step_same_session _ _ _ (generate_response_same_session E) Hrun).
  - apply bind_Ok in Hrun as (s1 & Hx & Hrun).
    eapply same_session_trans;
      [exact (step_same_session _ _ _
                (execute_system_command_same_session E) Hx) |].
    exact (step_same_session _ _ _ (generate_response_same_session E) Hrun).
Qed.

Lemma parse_input_enter (E : Env) (s : AgentState) :
  keeps_identity (parse_input E s) (parse_input E (enter s))
  ∧ turn_count (parse_input E (enter s)) = turn_count (parse_input E s).
Proof.
  unfold parse_input.
  change (get_messages (enter s)) with (get_messages s).
  destruct (last_user_message _) as [t |]; [| by repeat split].
  destruct (negb (nonempty t)); by repeat split.
Qed.

Lemma parse_input_keeps_identity (E : Env) (s : AgentState) :
  keeps_identity s (parse_input E s).
Proof.
  unfold parse_input.
  destruct (last_user_message _) as [t |]; [| by repeat split].
  destruct (negb (nonempty t)); by repeat split.
Qed.

(** X17. A turn leaves the session's identity and configuration alone:
    [user_id], [session_id], [device_id], [max_clarifications] and
    [processing_start_time] come back as they went in, on every route. The
    turn counter is the one Normalize set: no later node counts. *)
Theorem run_graph_keeps_identity (E : Env) (s s' : AgentState) :
  run_graph E s = Ok s' →
  keeps_identity s s' ∧ turn_count s' = turn_count (parse_input E s).
Proof.
  unfold run_graph, classified, pure_step. intros Hrun.
  set (p := parse_input E (enter s)) in *.
  set (h := reduce (enter s) p) in *.
  pose proof (same_session_trans _ _ _
                (reduce_same_session _ _ (detect_intent_same_session E h))
                (run_after_intent_same_session E _ _ Hrun))
    as [(H1 & H2 & H3 & H4 & H5) Hturn].
  assert (user_id h = user_id p ∧ session_id h = session_id p
          ∧ device_id h = device_id p
          ∧ max_clarifications h = max_clarifications p
          ∧ processing_start_time h = processing_start_time p
          ∧ turn_count h = turn_count p)
    as (F1 & F2 & F3 & F4 & F5 & F6).
  { unfold h.
    by rewrite reduce_user_id, reduce_session_id, reduce_device_id,
      reduce_max_clarifications, reduce_processing_start_time,
      reduce_turn_count. }
  destruct (parse_input_enter E s) as [(P1 & P2 & P3 & P4 & P5) Pturn].
  fold p in P1, P2, P3, P4, P5, Pturn.
  destruct (parse_input_keeps_identity E s) as (G1 & G2 & G3 & G4 & G5).
  split; [| congruence].
  repeat split; congruence.
Qed.

Lemma run_graph_keeps_identity_greeted :
  ∃ s',
    run_graph offline greeted = Ok s'
    ∧ user_id s' = Some "u1"
    ∧ max_clarifications s' = Some 3
    ∧ turn_count s' = Some 1.
Proof.
  destruct (run_graph offline greeted) as [s' | e] eqn:Hrun;
    [| vm_compute in Hrun; discriminate].
  exists s'. split; [reflexivity |].
  destruct (run_graph_keeps_identity offline greeted s' Hrun)
    as [(Huser & _ & _ & Hmax & _) Hturn].
  split; [exact Huser |]. split; [exact Hmax | exact Hturn].
Defined.

(** ** A whole turn: the clarification counter *)

Lemma keeps_counter_step (s s' : AgentState) :
  keeps_counter s s' → counter_step s s'.
Proof.
  intros [Hc Hm]. unfold counter_step, get_clarification_count,
    get_max_clarifications. rewrite Hc, Hm. repeat split; lia.
Qed.

Lemma keeps_counter_then_step (a b c : AgentState) :
  keeps_counter a b → counter_step b c → counter_step a c.
Proof.
  intros [Hc Hm]. unfold counter_step, get_clarification_count,
    get_max_clarifications. by rewrite Hc, Hm.
Qed.

Lemma counter_step_then_keeps (a b c : AgentState) :
  counter_step a b → keeps_counter b c → counter_step a c.
Proof.
  intros Hab [Hc Hm]. unfold counter_step, get_clarification_count,
    get_max_clarifications in *. by rewrite Hc, Hm.
Qed.

Lemma clarify_counter_step (E : Env) (s : AgentState) :
  counter_step s (clarify E s).
Proof.
  destruct (Z_lt_le_dec (get_clarification_count s) (get_max_clarifications s))
    as [Hlt | Hle].
  - rewrite (clarify_below_limit E s Hlt).
    unfold counter_step. read_state. repeat split; lia.
  - rewrite (clarify_at_limit E s Hle).
    unfold counter_step. read_state. repeat split; lia.
Qed.

Lemma reduce_counter_step (a b : AgentState) :
  counter_step a b → counter_step a (reduce a b).
Proof.
  unfold counter_step.
  by rewrite reduce_get_clarification_count, reduce_get_max_clarifications.
Qed.

Lemma step_counter_step (node : AgentState → result AgentState)
    (s s' : AgentState) :
  (∀ a b, node a = Ok b → keeps_counter a b) →
  step node s = Ok s' → counter_step s s'.
Proof.
  intros Hnode Hrun.
  exact (keeps_counter_step _ _ (step_keeps_counter node s s' Hnode Hrun)).
Qed.

Lemma clarify_then_compose_counter_step (E : Env) (s s' : AgentState) :
  step (generate_response E) (pure_step (clarify E) s) = Ok s' →
  counter_step s s'.
Proof.
  intros Hrun.
  eapply counter_step_then_keeps;
    [| exact (step_keeps_counter _ _ _ (generate_response_keeps_counter E)
                Hrun)].
  apply reduce_counter_step, clarify_counter_step.
Qed.

Lemma execute_then_compose_keeps_counter (E : Env) (s s' : AgentState) :
  step (execute_action E) s ≫= step (generate_response E) = Ok s' →
  keeps_counter s s'.
Proof.
  intros Hrun. apply bind_Ok in Hrun as (s1 & Hx & Hrun).
  destruct (step_keeps_counter _ _ _ (execute_action_keeps_counter E) Hx)
    as [Hc1 Hm1].
  destruct (step_keeps_counter _ _ _ (generate_response_keeps_counter E) Hrun)
    as [Hc2 Hm2].
  split; congruence.
Qed.

Lemma run_after_entity_check_counter_step (E : Env) (s s' : AgentState) :
  run_after_entity_check E s = Ok s' → counter_step s s'.
Proof.
  unfold run_after_entity_check. intros Hrun.
  destruct (route_after_entity_check s).
  - apply bind_Ok in Hrun as (s1 & Hres & Hrun).
    eapply keeps_counter_then_step;
      [exact (step_keeps_counter _ _ _ (resolve_entities_keeps_counter E)
                Hres) |].
    destruct (route_after_resolve s1).
    + exact (clarify_then_compose_counter_step E s1 s' Hrun).
    + exact (clarify_then_compose_counter_step E s1 s' Hrun).
    + exact (keeps_counter_step _ _
               (execute_then_compose_keeps_counter E s1 s' Hrun)).
  - exact (clarify_then_compose_counter_step E s s' Hrun).
  - exact (keeps_counter_step _ _
             (execute_then_compose_keeps_counter E s s' Hrun)).
Qed.

Lemma cancel_then_compose (E : Env) (s : AgentState) :
  step (generate_response E) (pure_step cancel_task s)
  = Ok (reduce (pure_step cancel_task s) (pure_step cancel_task s)).
Proof.
  apply step_of_Ok, generate_response_set.
  unfold pure_step. rewrite reduce_get_response_text. reflexivity.
Qed.

(** X18. Only a cancel intent takes the clarification counter down. On
    every other route a turn keeps the maximum and leaves the counter where
    it was or one higher; once the counter has reached the maximum it stays
    there, so every later Clarify of the session cancels instead of asking,
    until a cancel intent sets the counter back to zero. The route is the
    one [route_after_intent] takes on the channels after [detect_intent]. *)
Theorem counter_only_cancel_resets (E : Env) (s s' : AgentState) :
  run_graph E s = Ok s' →
  get_max_clarifications s' = get_max_clarifications s
  ∧ (route_after_intent (classified E s) = to_cancel →
     get_clarification_count s' = 0)
  ∧ (route_after_intent (classified E s) ≠ to_cancel →
     get_clarification_count s ≤ get_clarification_count s'
       ≤ get_clarification_count s + 1
     ∧ (get_max_clarifications s ≤ get_clarification_count s →
        get_clarification_count s' = get_clarification_count s
        ∧ ∀ E', task_status (clarify E' s') = Some CANCELLED)).
Proof.
  unfold run_graph, run_after_intent. intros Hrun.
  pose proof (classified_keeps_counter E s) as Hs0.
  set (s0 := classified E s) in *.
  assert (route_after_intent s0 ≠ to_cancel → counter_step s s') as Hstep.
  { intros Hroute. eapply keeps_counter_then_step; [exact Hs0 |].
    destruct (route_after_intent s0); [| done | | |].
    - apply bind_Ok in Hrun as (s1 & Hchk & Hrun).
      eapply keeps_counter_then_step;
        [exact (step_keeps_counter _ _ _ check_entities_keeps_counter Hchk) |].
      exact (run_after_entity_check_counter_step E _ _ Hrun).
    - apply keeps_counter_step.
      destruct (execute_then_compose_keeps_counter E _ _ Hrun) as [Hc Hm].
      unfold pure_step in Hc, Hm.
      rewrite reduce_clarification_count in Hc.
      rewrite reduce_max_clarifications in Hm.
      by split.
    - exact (step_counter_step _ _ _ (generate_response_keeps_counter E)
               Hrun).
    - apply bind_Ok in Hrun as (s1 & Hx & Hrun).
      eapply keeps_counter_then_step;
        [exact (step_keeps_counter _ _ _
                  (execute_system_command_keeps_counter E) Hx) |].
      exact (step_counter_step _ _ _ (generate_response_keeps_counter E)
               Hrun). }
  assert (route_after_intent s0 = to_cancel →
          get_max_clarifications s' = get_max_clarifications s0
          ∧ get_clarification_count s' = 0) as Hcancel.
  { intros Hroute. rewrite Hroute, cancel_then_compose in Hrun.
    injection Hrun as <-. unfold pure_step.
    by rewrite reduce_get_max_clarifications, reduce_get_clarification_count,
      reduce_get_max_clarifications, reduce_get_clarification_count. }
  assert (get_max_clarifications s' = get_max_clarifications s) as Hmax.
  { destruct (route_after_intent s0) eqn:Hroute;
      try (by destruct Hstep as [Hm _]).
    destruct (Hcancel eq_refl) as [-> _]. destruct Hs0 as [_ Hm].
    unfold get_max_clarifications. by rewrite Hm. }
  split; [exact Hmax |]. split.
  - intros Hroute. exact (proj2 (Hcancel Hroute)).
  - intros Hroute. destruct (Hstep Hroute) as (_ & Hbounds & Hstuck).
    split; [exact Hbounds |]. intros Hfull.
    split; [by apply Hstuck |]. intros E'.
    rewrite clarify_at_limit; [reflexivity |].
    rewrite Hmax, (Hstuck Hfull). exact Hfull.
Qed.

Lemma counter_only_cancel_resets_exhausted :
  let s := set_clarification_count 3 greeted in
  ∃ s',
    run_graph offline s = Ok s'
    ∧ get_clarification_count s' = 3
    ∧ task_status (clarify offline s') = Some CANCELLED.
Proof.
  intros s.
  destruct (run_graph offline s) as [s' | e] eqn:Hrun;
    [| vm_compute in Hrun; discriminate].
  exists s'. split; [reflexivity |].
  destruct (counter_only_cancel_resets offline s s' Hrun)
    as (_ & _ & Hother).
  destruct Hother as (_ & Hstuck); [vm_compute; discriminate |].
  destruct Hstuck as (Hsame & Hcancel); [vm_compute; discriminate |].
  split; [exact Hsame | apply Hcancel].
Defined.

(** ** A whole turn: when classification degrades *)

Lemma silent_reduce_get_messages (h t : AgentState) :
  silent h t → get_messages (reduce h t) = get_messages h ++ get_messages h.
Proof.
  intros [Hm _]. unfold reduce. rewrite Hm. unfold get_messages.
  destruct (messages h) as [m |] eqn:Hh.
  - reflexivity.
  - by rewrite Hm.
Qed.

(** [generate_response] as the only step after [detect_intent]. *)
Lemma respond_after_detect_intent (E : Env) (s : AgentState)
    (d : IntentData.t) :
  get_response_text s = "" →
  current_intent (detect_intent E s) = Some (Some d) →
  route_after_intent (detect_intent E s) = to_respond →
  let t := pure_step (detect_intent E) s in
  ∃ s',
    run_after_intent E t = Ok s'
    ∧ task_status s' = task_status (detect_intent E s)
    ∧ action_error s' = action_error (detect_intent E s)
    ∧ get_response_text s'
      = composed_reply E t (default "unknown" (IntentData.intent d))
    ∧ entities s' = entities (detect_intent E s)
    ∧ missing_entities s' = missing_entities (detect_intent E s).
Proof.
  intros Hempty Hd Hroute t.
  assert (intent_dict t = Ok d) as Hdict.
  { unfold t, pure_step. rewrite reduce_intent_dict.
    unfold intent_dict. by rewrite Hd. }
  assert (get_response_text t = "") as Ht.
  { unfold t, pure_step. rewrite reduce_get_response_text.
    destruct (detect_intent_silent E s) as [_ Hr].
    unfold get_response_text in *. by rewrite Hr. }
  assert (route_after_intent t = to_respond) as Hroute'
    by (unfold t, pure_step; by rewrite reduce_route_after_intent).
  eexists. split.
  { unfold run_after_intent. rewrite Hroute'.
    exact (step_of_Ok _ _ _ (generate_response_compose E t d Ht Hdict)). }
  rewrite reduce_task_status, reduce_action_error, reduce_get_response_text,
    reduce_entities, reduce_missing_entities.
  cbn [task_status action_error entities missing_entities get_response_text
       response_text set_messages set_should_speak set_response_text
       default from_option id].
  unfold t, pure_step.
  by rewrite reduce_task_status, reduce_action_error, reduce_entities,
    reduce_missing_entities.
Qed.

(** X19. What a turn ends in when there is no guess to act on and no reply
    is set, with [s] the channels [detect_intent] is given. Without input
    the classifier is not called: the status is [IDLE] and the reply is the
    chat collaborator's answer to the empty text. An answer that does not
    parse counts as [general_query]: the status stays [INTENT_DETECTED] and
    the reply is the chat answer to the input. A failing call ends [FAILED]
    with the fault's text as [action_error] and inside the apology. In all
    three the slot values and the missing list of the turn before are
    still there. The conversation the chat collaborator is asked about is
    the one the channels hold after the step of [detect_intent]: the list
    it was given, twice over. *)
Theorem degraded_classification_turn (E : Env) (s : AgentState) :
  get_response_text s = "" →
  let input := default "" (current_input s) in
  let context := last_n 10 (get_messages s) in
  let held := get_messages s ++ get_messages s in
  (input = "" →
   ∃ s',
     run_after_intent E (pure_step (detect_intent E) s) = Ok s'
     ∧ task_status s' = Some IDLE
     ∧ get_response_text s' = generate_conversational_response E "" held
     ∧ entities s' = entities s
     ∧ missing_entities s' = missing_entities s)
  ∧ (input ≠ "" → classify E context input = Unparseable →
     ∃ s',
       run_after_intent E (pure_step (detect_intent E) s) = Ok s'
       ∧ task_status s' = Some INTENT_DETECTED
       ∧ get_response_text s' = generate_conversational_response E input held
       ∧ entities s' = entities s
       ∧ missing_entities s' = missing_entities s)
  ∧ (∀ err,
       input ≠ "" → classify E context input = ServiceFault err →
       ∃ s',
         run_after_intent E (pure_step (detect_intent E) s) = Ok s'
         ∧ task_status s' = Some FAILED
         ∧ action_error s' = Some (Some err)
         ∧ get_response_text s'
           = apology (if nonempty err then err else "Algo salió mal")
         ∧ entities s' = entities s
         ∧ missing_entities s' = missing_entities s).
Proof.
  intros Hempty input context held.
  pose proof (respond_after_detect_intent E s) as Hrespond.
  cbv zeta in Hrespond.
  set (t := pure_step (detect_intent E) s) in *.
  assert (get_messages t = held) as Hmsgs
    by exact (silent_reduce_get_messages _ _ (detect_intent_silent E s)).
  assert (task_status t = task_status (detect_intent E s)
          ∧ get_action_error t = get_action_error (detect_intent E s)
          ∧ current_input t = current_input (detect_intent E s))
    as (Hstatus & Herror & Hinput').
  { unfold t, pure_step, get_action_error.
    by rewrite reduce_task_status, reduce_action_error, reduce_current_input. }
  split; [| split].
  - intros Hnone.
    assert (detect_intent E s
            = set_task_status IDLE
                (set_current_intent
                   (Some {| IntentData.intent := Some "unknown";
                            IntentData.confidence := Some 0%Q;
                            IntentData.entities := Some ∅;
                            IntentData.missing := None;
                            IntentData.reasoning := None;
                            IntentData.error := None |}) s)) as Heq.
    { unfold detect_intent. fold input. by rewrite Hnone. }
    rewrite Heq in Hrespond, Hstatus, Hinput'.
    destruct (Hrespond _ Hempty eq_refl eq_refl)
      as (s' & Hrun & Hst & _ & Hreply & Hent & Hmiss).
    exists s'. split; [exact Hrun |]. split; [exact Hst |].
    split; [| by split].
    rewrite Hreply. unfold composed_reply.
    rewrite Hstatus, Hinput', Hmsgs.
    cbn [current_input set_task_status set_current_intent]. fold input.
    rewrite Hnone. reflexivity.
  - intros Hinput Hguess. apply nonempty_true in Hinput.
    assert (detect_intent E s
            = set_task_status INTENT_DETECTED
                (set_current_intent
                   (Some {| IntentData.intent := Some "general_query";
                            IntentData.confidence := Some (1 # 2)%Q;
                            IntentData.entities := Some ∅;
                            IntentData.missing := None;
                            IntentData.reasoning :=
                              Some "Could not parse intent response";
                            IntentData.error := None |}) s)) as Heq.
    { unfold detect_intent. fold input. fold context.
      by rewrite Hinput, Hguess. }
    rewrite Heq in Hrespond, Hstatus, Hinput'.
    destruct (Hrespond _ Hempty eq_refl eq_refl)
      as (s' & Hrun & Hst & _ & Hreply & Hent & Hmiss).
    exists s'. split; [exact Hrun |]. split; [exact Hst |].
    split; [| by split].
    rewrite Hreply. unfold composed_reply.
    rewrite Hstatus, Hinput', Hmsgs. reflexivity.
  - intros err Hinput Hguess. apply nonempty_true in Hinput.
    assert (detect_intent E s
            = set_action_error (Some err)
                (set_task_status FAILED
                  (set_current_intent
                     (Some {| IntentData.intent := Some "unknown";
                              IntentData.confidence := Some 0%Q;
                              IntentData.entities := Some ∅;
                              IntentData.missing := None;
                              IntentData.reasoning := None;
                              IntentData.error := Some err |}) s))) as Heq.
    { unfold detect_intent. fold input. fold context.
      by rewrite Hinput, Hguess. }
    rewrite Heq in Hrespond, Hstatus, Herror.
    destruct (Hrespond _ Hempty eq_refl eq_refl)
      as (s' & Hrun & Hst & Herr & Hreply & Hent & Hmiss).
    exists s'. split; [exact Hrun |]. split; [exact Hst |].
    split; [exact Herr |]. split; [| by split].
    rewrite Hreply. unfold composed_reply.
    rewrite Hstatus, Herror. reflexivity.
Qed.

Lemma degraded_classification_turn_greeted :
  ∃ s',
    run_graph offline greeted = Ok s'
    ∧ task_status s' = Some FAILED
    ∧ get_response_text s'
      = "Ups, hubo un problema: connection refused. ¿Querés que lo intente de nuevo?".
Proof.
  destruct (degraded_classification_turn offline
              (pure_step (parse_input offline) (enter greeted)) eq_refl)
    as (_ & _ & Hfault).
  destruct (Hfault "connection refused") as (s' & Hrun & Hfail & _ & Hreply & _).
  - vm_compute. discriminate.
  - reflexivity.
  - exists s'. split; [exact Hrun |]. split; [exact Hfail | exact Hreply].
Defined.

(** ** The chat context *)

(** X20. The chat collaborator is shown at most the ten latest turns, with
    their texts as they are and every role other than user sent as
    assistant: two chat collaborators that agree on such conversations give
    the same conversational reply. *)
Theorem conversation_context_bound (E1 E2 : Env) (input : string)
    (msgs : list Message.t) :
  (∀ conversation,
     (length conversation ≤ 10)%nat →
     (∀ m, m ∈ conversation → Message.role m ≠ system) →
     Message.content <$> conversation
       = Message.content <$> last_n 10 msgs →
     converse E1 conversation input = converse E2 conversation input) →
  generate_conversational_response E1 input msgs
  = generate_conversational_response E2 input msgs.
Proof.
  intros Hagree. unfold generate_conversational_response.
  rewrite Hagree; [reflexivity | | |].
  - rewrite length_fmap. apply last_n_length.
  - intros m Hm. apply list_elem_of_fmap in Hm as (m0 & -> & _).
    unfold chat_turn. cbn [Message.role]. by destruct (Message.role m0).
  - rewrite <- list_fmap_compose. by apply list_fmap_ext.
Qed.

Lemma conversation_context_bound_greeted :
  generate_conversational_response offline "hello there"
    (get_messages greeted)
  = generate_conversational_response wants_system_turns "hello there"
      (get_messages greeted).
Proof.
  apply conversation_context_bound.
  intros conversation Hshort Hroles _.
  cbn [converse wants_system_turns offline].
  rewrite (proj2 (Nat.leb_le _ _) Hshort). cbn [negb]. rewrite orb_false_r.
  destruct (existsb _ conversation) eqn:Hany; [| reflexivity].
  exfalso. apply existsb_exists in Hany as (m & Hm & Hrole).
  apply list_elem_of_In in Hm. specialize (Hroles m Hm).
  by destruct (Message.role m).
Defined.

(** ** System control, the reply *)

(** X21. What the [open_app] node answers. With an empty app name (none
    given, or nothing left after lowering and stripping) it asks for the
    name; with a name it always names that app in the reply, whether the
    app is in [APP_MAP] or not and whether the launch raises or not. The
    action result it stores is the reply alone, without a success flag. *)
Theorem execute_system_command_reply (E : Env) (s : AgentState)
    (d : IntentData.t) (app_name : string) :
  intent_dict s = Ok d →
  IntentData.intent d = Some "open_app" →
  app_name_of E (command_entities d s) = Ok app_name →
  ∃ s',
    execute_system_command E s = Ok s'
    ∧ action_result s'
      = Some (Some {| ActionResult.success := None;
                      ActionResult.message := Some (get_response_text s');
                      ActionResult.error := None;
                      ActionResult.data := None |})
    ∧ (app_name = "" →
       get_response_text s'
       = "No entendí qué aplicación querés abrir. Decime el nombre de la app.")
    ∧ (app_name ≠ "" →
       ∃ pre post, get_response_text s' = pre +:+ app_name +:+ post).
Proof.
  intros Hd Hopen Happ.
  eexists. split.
  { unfold execute_system_command. rewrite Hd. cbn [mbind result_bind].
    rewrite Happ. reflexivity. }
  split; [reflexivity |].
  read_state. rewrite Hopen. cbn [from_option id]. unfold launch_reply.
  cbn [String.eqb Ascii.eqb Bool.eqb andb].
  split.
  - intros ->. reflexivity.
  - intros Hname. apply nonempty_true in Hname. rewrite Hname.
    destruct (APP_MAP !! app_name) as [cmd_info |];
      destruct (popen E _); by eexists _, _.
Qed.

Lemma execute_system_command_reply_open_calculator :
  ∃ s',
    execute_system_command offline open_calculator = Ok s'
    ∧ ∃ pre post, get_response_text s' = pre +:+ "calculadora" +:+ post.
Proof.
  destruct (execute_system_command_reply offline open_calculator
              (guess "open_app" {["app_name" := VStr "calculadora"]})
              "calculadora" eq_refl eq_refl eq_refl)
    as (s' & Hrun & _ & _ & Hnames).
  exists s'. split; [exact Hrun |]. apply Hnames. discriminate.
Defined.

(** ** Options that outlive their task *)

(** X22. Disambiguation options are dropped by the resolver only. When a
    later guess has a missing slot and no recipient, CheckSlots sends the
    turn to Clarify with the earlier options still in the session, and
    below the counter's maximum the reply is the first option's prompt, not
    a question about the missing slot. *)
Theorem stale_option_is_asked (E : Env) (s s1 : AgentState)
    (o : DisambiguationOption.t) (os : list DisambiguationOption.t) :
  step check_entities s = Ok s1 →
  route_after_entity_check s1 = to_clarify →
  get_disambiguation_options s = o :: os →
  DisambiguationOption.message o ≠ "" →
  get_clarification_count s < get_max_clarifications s →
  ∃ s',
    run_after_entity_check E s1 = Ok s'
    ∧ get_missing_entities s' ≠ []
    ∧ task_status s' = Some WAITING_USER_INPUT
    ∧ get_response_text s' = DisambiguationOption.message o.
Proof.
  intros Hrun Hroute Hopts Hmsg Hbelow.
  apply step_Ok in Hrun as (t & Hrun & Hs1).
  destruct (check_entities_intent s t Hrun) as (d & Hd).
  rewrite (check_entities_Ok s d Hd) in Hrun. injection Hrun as Ht.
  assert (get_disambiguation_options s1 = o :: os) as Hopts1
    by (rewrite Hs1, reduce_get_disambiguation_options, <- Ht; exact Hopts).
  assert (get_clarification_count s1 < get_max_clarifications s1) as Hbelow1.
  { rewrite Hs1, reduce_get_clarification_count,
      reduce_get_max_clarifications, <- Ht.
    exact Hbelow. }
  assert (get_missing_entities s1 ≠ []) as Hmissing.
  { unfold route_after_entity_check in Hroute.
    destruct (get_unresolved_entities s1); [| discriminate].
    by destruct (get_missing_entities s1). }
  clear Hs1 Ht Hd Hopts Hbelow.
  set (c := pure_step (clarify E) s1).
  exists (reduce c c). split.
  { unfold run_after_entity_check. rewrite Hroute. fold c.
    apply step_of_Ok, generate_response_set.
    unfold c, pure_step. rewrite reduce_get_response_text.
    apply clarify_reply_set. }
  rewrite reduce_get_missing_entities, reduce_task_status,
    reduce_get_response_text.
  unfold c, pure_step.
  rewrite reduce_get_missing_entities, reduce_task_status,
    reduce_get_response_text.
  rewrite (clarify_below_limit E s1 Hbelow1).
  split; [exact Hmissing |]. split; [reflexivity |].
  cbn [get_response_text response_text set_messages set_should_speak
       set_task_status set_clarification_count set_last_clarification
       set_response_text from_option id].
  unfold clarification_text. rewrite Hopts1.
  apply nonempty_true in Hmsg. by rewrite Hmsg.
Qed.

Lemma stale_option_is_asked_reminder_after_juan :
  ∃ s1 s',
    step check_entities reminder_after_juan = Ok s1
    ∧ run_after_entity_check offline s1 = Ok s'
    ∧ get_missing_entities s' ≠ []
    ∧ get_response_text s'
      = "Encontré varios contactos: Juan Pérez, Juan Gómez. ¿A cuál te referís?".
Proof.
  set (s1 := reduce reminder_after_juan
               (set_task_status NEEDS_CLARIFICATION
                  (set_unresolved_entities []
                     (set_missing_entities ["reminder_text"; "datetime"]
                        reminder_after_juan)))).
  assert (step check_entities reminder_after_juan = Ok s1) as Hrun
    by reflexivity.
  destruct (stale_option_is_asked offline reminder_after_juan s1
              {| DisambiguationOption.entity := "recipient";
                 DisambiguationOption.query := VStr "juan";
                 DisambiguationOption.matches := [juan_perez; juan_gomez];
                 DisambiguationOption.message :=
                   several_message ["Juan Pérez"; "Juan Gómez"] |} []
              Hrun)
    as (s' & Hturn & Hmissing & _ & Hreply).
  - reflexivity.
  - reflexivity.
  - discriminate.
  - vm_compute. reflexivity.
  - exists s1, s'. split; [exact Hrun |]. split; [exact Hturn |].
    split; [exact Hmissing | exact Hreply].
Defined.
